(** * NESDA PAR-to-BIDS updaters: a shallow embedding and its properties

    The repository holds five Python scripts that read a Philips PAR header,
    infer BIDS fields from it and merge them into a JSON sidecar:

    - [batch_bids_par_updater.py]      (module [Batch] below),
    - [nesda_W6_bids_par_update.py]    (module [W6]),
    - [nesda_json_updater.py]          (module [Targeted]),
    - [nesda_single_subject_updater.py] (module [SingleSubject]),
    - [bids_par_json_updater.py]       (module [BidsPar]).

    Python values are embedded as follows: [int] is [Z], [float] is the
    kernel's binary64 [float], [str] is [string] (the header is read as ASCII
    text), [dict] is an insertion-ordered association list, a raised exception
    is the left summand of [py].  The regular-expression engine and the
    [float(str)] / [int(str)] parsers are library code outside the
    repository: they are the methods of the class [PyRuntime], and every
    general statement holds for every instance of it. *)

From Stdlib Require Import ZArith List String Ascii Bool Lia Floats DecimalString.
From stdpp Require Import gmap strings.
Import ListNotations.

Set Warnings "-inexact-float,-register-all".
Local Open Scope string_scope.
Local Open Scope Z_scope.

(** ** Exceptions

    [py A] is a computation that returns an [A] or raises. *)

Inductive py_exn : Type :=
| ZeroDivisionError
| OverflowError
| ValueError
| TypeError
| AttributeError
| IndexError
| OSError.

Definition py (A : Type) : Type := (py_exn + A)%type.

Definition ret {A : Type} (a : A) : py A := inr a.
Definition raise {A : Type} (e : py_exn) : py A := inl e.

Definition bind {A B : Type} (m : py A) (k : A -> py B) : py B :=
  match m with
  | inl e => inl e
  | inr a => k a
  end.

Notation "x <- m ;; k" := (bind m (fun x => k))
  (at level 100, m at next level, right associativity).

(** [for x in xs: body] with [break]: the body returns the new state and
    whether it left the loop. *)
Fixpoint for_break {S X : Type} (body : X -> S -> py (S * bool))
  (xs : list X) (s : S) : py S :=
  match xs with
  | [] => ret s
  | x :: xs' =>
      r <- body x s ;;
      if snd r then ret (fst r) else for_break body xs' (fst r)
  end.

(** The same loop when the body cannot raise. *)
Fixpoint for_break_pure {S X : Type} (body : X -> S -> S * bool)
  (xs : list X) (s : S) : S :=
  match xs with
  | [] => s
  | x :: xs' =>
      let r := body x s in
      if snd r then fst r else for_break_pure body xs' (fst r)
  end.

(** ** Strings (ASCII) *)

Module Str.

Definition code (c : ascii) : nat := nat_of_ascii c.

(** [str.isspace] on the ASCII range: 9..13 and 28..32. *)
Definition is_space (c : ascii) : bool :=
  let n := code c in
  ((9 <=? n) && (n <=? 13) || (28 <=? n) && (n <=? 32))%nat.

Definition is_digit (c : ascii) : bool :=
  let n := code c in ((48 <=? n) && (n <=? 57))%nat.

Definition is_upper (c : ascii) : bool :=
  let n := code c in ((65 <=? n) && (n <=? 90))%nat.

Definition is_lower (c : ascii) : bool :=
  let n := code c in ((97 <=? n) && (n <=? 122))%nat.

Definition lower_char (c : ascii) : ascii :=
  if is_upper c then ascii_of_nat (code c + 32) else c.

Definition upper_char (c : ascii) : ascii :=
  if is_lower c then ascii_of_nat (code c - 32) else c.

Fixpoint map_chars (f : ascii -> ascii) (s : string) : string :=
  match s with
  | EmptyString => EmptyString
  | String c s' => String (f c) (map_chars f s')
  end.

(** [s.lower()], [s.upper()] *)
Definition lower (s : string) : string := map_chars lower_char s.
Definition upper (s : string) : string := map_chars upper_char s.

(** [s.startswith(p)] *)
Fixpoint startswith (p s : string) : bool :=
  match p, s with
  | EmptyString, _ => true
  | String a p', String b s' => Ascii.eqb a b && startswith p' s'
  | String _ _, EmptyString => false
  end.

(** [sub in s] *)
Fixpoint contains (sub s : string) : bool :=
  startswith sub s ||
  match s with
  | EmptyString => false
  | String _ s' => contains sub s'
  end.

(** [any(p in s for p in ps)] *)
Definition contains_any (ps : list string) (s : string) : bool :=
  existsb (fun p => contains p s) ps.

Fixpoint lstrip (s : string) : string :=
  match s with
  | String c s' => if is_space c then lstrip s' else s
  | EmptyString => EmptyString
  end.

Fixpoint rstrip (s : string) : string :=
  match s with
  | EmptyString => EmptyString
  | String c s' =>
      match rstrip s' with
      | EmptyString => if is_space c then EmptyString else String c EmptyString
      | r => String c r
      end
  end.

(** [s.strip()] *)
Definition strip (s : string) : string := rstrip (lstrip s).

(** [s.replace(c, '')] for a one-character [c] *)
Fixpoint remove_char (c : ascii) (s : string) : string :=
  match s with
  | EmptyString => EmptyString
  | String a s' =>
      if Ascii.eqb a c then remove_char c s' else String a (remove_char c s')
  end.

(** [s.isdigit()] *)
Fixpoint all_digits (s : string) : bool :=
  match s with
  | EmptyString => true
  | String c s' => is_digit c && all_digits s'
  end.

Definition isdigit (s : string) : bool :=
  negb (String.eqb s "") && all_digits s.

(** [s.split(sep)] for a one-character separator: empty pieces are kept. *)
Fixpoint split_on (sep : ascii) (s : string) : list string :=
  match s with
  | EmptyString => [EmptyString]
  | String c s' =>
      if Ascii.eqb c sep then EmptyString :: split_on sep s'
      else match split_on sep s' with
           | [] => [String c EmptyString]
           | w :: ws => String c w :: ws
           end
  end.

(** [s.split()]: runs of white space separate, no empty piece. *)
Fixpoint split_ws_aux (cur : string) (s : string) : list string :=
  match s with
  | EmptyString => if String.eqb cur "" then [] else [cur]
  | String c s' =>
      if is_space c
      then (if String.eqb cur "" then split_ws_aux "" s'
            else cur :: split_ws_aux "" s')
      else split_ws_aux (cur +:+ String c EmptyString) s'
  end.

Definition split (s : string) : list string := split_ws_aux "" s.

(** [if s:] *)
Definition truthy (s : string) : bool := negb (String.eqb s "").

(** [s in lst] *)
Definition mem (s : string) (l : list string) : bool :=
  existsb (String.eqb s) l.

End Str.

(** ** Floats (binary64) and integers *)

Module Fl.

Local Open Scope Z_scope.

(** The float nearest to the integer [z] (round half to even). *)
Definition of_Z (z : Z) : float :=
  SF2Prim (binary_normalize prec emax z 0 false).

(** Integers from [int_max] on are too large for [float(n)]: they would
    round to [2^1024]. *)
Definition int_max : Z := 2 ^ 1024 - 2 ^ 970.

(** The conversion of an [int] operand of a float operation. *)
Definition of_int (z : Z) : py float :=
  if Z.abs z <? int_max then ret (of_Z z) else raise OverflowError.

(** [int(x)]: truncation towards zero. *)
Definition to_int (x : float) : py Z :=
  match Prim2SF x with
  | S754_zero _ => ret 0
  | S754_finite s m e =>
      let a := if 0 <=? e then Zpos m * 2 ^ e else Zpos m / 2 ^ (- e) in
      ret (if s then - a else a)
  | S754_infinity _ => raise OverflowError
  | S754_nan => raise ValueError
  end.

(** [if x:] *)
Definition truthy (x : float) : bool := negb (PrimFloat.eqb x 0).

(** [a / b] on floats. *)
Definition div (a b : float) : py float :=
  if PrimFloat.eqb b 0 then raise ZeroDivisionError else ret (a / b)%float.

(** [a / n] for an [int] [n]: the operand is converted first, and zero is
    the only integer whose float is zero. *)
Definition div_int (a : float) (n : Z) : py float :=
  b <- of_int n ;;
  if n =? 0 then raise ZeroDivisionError else ret (a / b)%float.

(** [n * a] and [a * n] for an [int] [n]. *)
Definition int_times (n : Z) (a : float) : py float :=
  b <- of_int n ;; ret (b * a)%float.

Definition times_int (a : float) (n : Z) : py float :=
  b <- of_int n ;; ret (a * b)%float.

(** The float nearest to the rational [a / b], for [0 <= a] and [0 < b]:
    the quotient is taken with 57 bits or more and a sticky bit. *)
Definition nearest (a b : Z) : float :=
  if a =? 0 then 0%float else
  let k := Z.max 0 (57 + Z.log2 b - Z.log2 a) in
  let a' := Z.shiftl a k in
  let q := a' / b in
  let sticky := if a' mod b =? 0 then 0 else 1 in
  SF2Prim (binary_normalize prec emax (2 * q + sticky) (- k - 1) false).

(** [a / b] rounded to an integer, ties to even. *)
Definition div_half_even (a b : Z) : Z :=
  let q := a / b in
  match 2 * (a mod b) ?= b with
  | Lt => q
  | Gt => q + 1
  | Eq => if Z.even q then q else q + 1
  end.

(** [round(x, ndigits)] for [0 <= ndigits]: the exact value of [x] is rounded
    to [ndigits] decimals, ties to even, and the decimal so obtained is
    converted back to the nearest float. *)
Definition round (x : float) (ndigits : Z) : float :=
  match Prim2SF x with
  | S754_finite s m e =>
      let scale := 10 ^ ndigits in
      let q := if 0 <=? e then Zpos m * 2 ^ e * scale
               else div_half_even (Zpos m * scale) (2 ^ (- e)) in
      let r := nearest q scale in
      if s then (- r)%float else r
  | _ => x
  end.

End Fl.

(** ** Values and dictionaries *)

Inductive value : Type :=
| VNone
| VBool (b : bool)
| VInt (z : Z)
| VFloat (f : float)
| VStr (s : string)
| VList (l : list value)
| VDict (d : list (string * value)).

(** A [dict] keeps its keys in insertion order. *)
Definition dict : Type := list (string * value).

Module Dict.

Fixpoint get (k : string) (d : dict) : option value :=
  match d with
  | [] => None
  | (k', v) :: d' => if String.eqb k k' then Some v else get k d'
  end.

(** [k in d] *)
Definition mem (k : string) (d : dict) : bool :=
  match get k d with Some _ => true | None => false end.

(** [d[k] = v]: the value is replaced where the key stands, a new key goes
    to the end. *)
Fixpoint set (k : string) (v : value) (d : dict) : dict :=
  match d with
  | [] => [(k, v)]
  | (k', v') :: d' =>
      if String.eqb k k' then (k, v) :: d' else (k', v') :: set k v d'
  end.

Definition keys (d : dict) : list string := map fst d.

(** A Python [dict] holds each key once. *)
Definition wf (d : dict) : Prop := List.NoDup (keys d).

End Dict.

(** *** Equality of values ([==])

    Numbers compare by their exact value across [bool], [int] and [float];
    lists compare element by element, dictionaries key by key whatever the
    order; a NaN equals nothing. *)

Definition int_eq_float (z : Z) (f : float) : bool :=
  match Prim2SF f with
  | S754_zero _ => z =? 0
  | S754_finite s m e =>
      let a := if s then Zneg m else Zpos m in
      if 0 <=? e then z =? a * 2 ^ e else z * 2 ^ (- e) =? a
  | _ => false
  end.

Definition int_of_bool (b : bool) : Z := if b then 1 else 0.

Fixpoint py_eq (a b : value) {struct a} : bool :=
  match a, b with
  | VNone, VNone => true
  | VStr s, VStr t => String.eqb s t
  | VBool x, VBool y => Bool.eqb x y
  | VBool x, VInt z => int_of_bool x =? z
  | VBool x, VFloat f => int_eq_float (int_of_bool x) f
  | VInt z, VBool y => z =? int_of_bool y
  | VInt z, VInt w => z =? w
  | VInt z, VFloat f => int_eq_float z f
  | VFloat f, VBool y => int_eq_float (int_of_bool y) f
  | VFloat f, VInt w => int_eq_float w f
  | VFloat f, VFloat g => PrimFloat.eqb f g
  | VList l, VList m =>
      (fix go (l : list value) (m : list value) {struct l} : bool :=
         match l, m with
         | [], [] => true
         | x :: l', y :: m' => py_eq x y && go l' m'
         | _, _ => false
         end) l m
  | VDict d, VDict e =>
      (length d =? length e)%nat &&
      (fix all (d : list (string * value)) : bool :=
         match d with
         | [] => true
         | (k, v) :: d' =>
             match Dict.get k e with
             | Some w => py_eq v w
             | None => false
             end && all d'
         end) d
  | _, _ => false
  end.

(** [a != b] *)
Definition py_ne (a b : value) : bool := negb (py_eq a b).

(** ** Lists and ranges *)

(** [range(start, stop, step)] for a positive [step]. *)
Definition py_range (start stop step : Z) : list Z :=
  map (fun i => start + Z.of_nat i * step)
      (seq 0 (Z.to_nat ((stop - start + step - 1) / step))).

(** [l[i] = v]: a negative index counts from the end, an index outside the
    list raises. *)
Definition list_assign {A : Type} (l : list A) (i : Z) (v : A) : py (list A) :=
  let n := Z.of_nat (length l) in
  if (0 <=? i) && (i <? n) then ret (<[Z.to_nat i := v]> l)
  else if (- n <=? i) && (i <? 0) then ret (<[Z.to_nat (n + i) := v]> l)
  else raise IndexError.

(** [enumerate(l)] *)
Definition enumerate {A : Type} (l : list A) : list (Z * A) :=
  combine (map Z.of_nat (seq 0 (length l))) l.

(** ** Clock *)

Record datetime : Type := mk_datetime {
  year : Z; month : Z; day : Z;
  hour : Z; minute : Z; second : Z; microsecond : Z
}.

Definition decimal (n : Z) : string :=
  NilZero.string_of_uint (N.to_uint (Z.to_N n)).

Fixpoint zeros (n : nat) : string :=
  match n with
  | O => ""
  | S n' => String "0" (zeros n')
  end.

(** ["%0<width>d" % n] *)
Definition pad (width : nat) (n : Z) : string :=
  let d := decimal n in zeros (width - String.length d) +:+ d.

(** [t.strftime('%Y%m%d_%H%M%S')] *)
Definition strftime_backup (t : datetime) : string :=
  pad 4 (year t) +:+ pad 2 (month t) +:+ pad 2 (day t) +:+ "_" +:+
  pad 2 (hour t) +:+ pad 2 (minute t) +:+ pad 2 (second t).

(** [t.isoformat()] *)
Definition isoformat (t : datetime) : string :=
  pad 4 (year t) +:+ "-" +:+ pad 2 (month t) +:+ "-" +:+ pad 2 (day t) +:+ "T" +:+
  pad 2 (hour t) +:+ ":" +:+ pad 2 (minute t) +:+ ":" +:+ pad 2 (second t) +:+
  (if microsecond t =? 0 then "" else "." +:+ pad 6 (microsecond t)).

(** [t.strftime('%Y-%m-%d %H:%M:%S UTC')] *)
Definition strftime_utc (t : datetime) : string :=
  pad 4 (year t) +:+ "-" +:+ pad 2 (month t) +:+ "-" +:+ pad 2 (day t) +:+ " " +:+
  pad 2 (hour t) +:+ ":" +:+ pad 2 (minute t) +:+ ":" +:+ pad 2 (second t) +:+
  " UTC".

(** ** The file system

    A file holds a JSON object or something [json.load] rejects; the paths
    of [locked] cannot be written (permissions, a directory in the way). *)

Inductive file : Type :=
| FileJson (d : dict)
| FileOther (s : string).

Record filesystem : Type := mk_fs {
  files : gmap string file;
  locked : gset string
}.

Definition write_file (path : string) (f : file) (fs : filesystem)
  : py filesystem :=
  if decide (path ∈ locked fs) then raise OSError
  else ret (mk_fs (<[path := f]> (files fs)) (locked fs)).

(** [shutil.copy2(src, dst)] *)
Definition copy2 (src dst : string) (fs : filesystem) : py filesystem :=
  match files fs !! src with
  | Some f => write_file dst f fs
  | None => raise OSError
  end.

(** [json.load(open(path))] *)
Definition json_load (path : string) (fs : filesystem) : py dict :=
  match files fs !! path with
  | Some (FileJson d) => ret d
  | Some (FileOther _) => raise ValueError
  | None => raise OSError
  end.

(** [json.dump(d, open(path, 'w'))] *)
Definition json_dump (d : dict) (path : string) (fs : filesystem)
  : py filesystem :=
  write_file path (FileJson d) fs.

(** ** Library code outside the repository *)

Inductive re_flag : Type := IGNORECASE | DOTALL.

(** A match object: [group m 0] is the whole match, [group m i] the i-th
    parenthesised group. *)
Definition re_match : Type := list string.

Definition group (m : re_match) (i : nat) : string := nth i m "".

Class PyRuntime : Type := {
  (** [re.search(pattern, text, flags)] *)
  re_search : string -> string -> list re_flag -> option re_match;
  (** [float(s)]; [None] stands for [ValueError] *)
  float_of_str : string -> option float;
  (** [int(s)]; [None] stands for [ValueError] *)
  int_of_str : string -> option Z
}.

Section Helpers.
Context {RT : PyRuntime}.

Definition float_placeholders : list string :=
  [""; "(float)"; "N/A"; "n/a"; "?"; "null"].

(** [safe_float(value_str)] with the default [None]. *)
Definition safe_float (value_str : string) : option float :=
  if negb (Str.truthy value_str)
     || Str.mem (Str.strip value_str) float_placeholders
  then None
  else float_of_str (Str.remove_char ")" (Str.remove_char "(" (Str.strip value_str))).

(** [safe_int(value_str)] with the default [None]: [int(val)] stands outside
    the [try] of [safe_float] and raises on an infinity. *)
Definition safe_int (value_str : string) : py (option Z) :=
  match safe_float value_str with
  | Some val => z <- Fl.to_int val ;; ret (Some z)
  | None => ret None
  end.

Definition str_placeholders : list string :=
  ["(string)"; "N/A"; "n/a"; "?"; "null"; ""].

(** [safe_str(value_str)] with the default [""]. *)
Definition safe_str (value_str : string) : string :=
  if negb (Str.truthy value_str) then ""
  else let clean_val := Str.strip value_str in
       if Str.mem clean_val str_placeholders then "" else clean_val.

End Helpers.

(** [if x:] for an optional number *)
Definition truthy_float (x : option float) : bool :=
  match x with Some f => Fl.truthy f | None => false end.

Definition truthy_int (x : option Z) : bool :=
  match x with Some z => negb (z =? 0) | None => false end.

(** [for x in xs: body] without [break]. *)
Fixpoint for_each {S X : Type} (body : X -> S -> py S) (xs : list X) (s : S)
  : py S :=
  match xs with
  | [] => ret s
  | x :: xs' => s' <- body x s ;; for_each body xs' s'
  end.

(** ** Slice timing (the same block in [Batch], [W6], [Targeted] and
    [SingleSubject]) *)

(** The two passes that fill [acquisition_order]. *)
Definition acquisition_order (n_slices : Z) : list Z :=
  (map (fun slice_num => slice_num - 1) (py_range 1 (n_slices + 1) 2) ++
   map (fun slice_num => slice_num - 1) (py_range 2 (n_slices + 1) 2))%list.



(** [rank(s)]: the position of [s] in a list. *)
Fixpoint index_of (s : Z) (l : list Z) : option nat :=
  match l with
  | [] => None
  | x :: l' => if x =? s then Some O else option_map S (index_of s l')
  end.

(** [slice_timing[slice_index] = round(acq_time_index * time_per_slice, 6)] *)
Definition assign_slice (time_per_slice : float) (entry : Z * Z)
  (slice_timing : list float) : py (list float) :=
  let (acq_time_index, slice_index) := entry in
  t <- Fl.int_times acq_time_index time_per_slice ;;
  list_assign slice_timing slice_index (Fl.round t 6).

Definition interleaved_slice_timing (tr : float) (n_slices : Z) : py (list float) :=
  let slice_timing := repeat 0%float (Z.to_nat n_slices) in
  time_per_slice <- Fl.div_int tr n_slices ;;
  for_each (assign_slice time_per_slice)
           (enumerate (acquisition_order n_slices)) slice_timing.

(** [if 'RepetitionTime' in bids_fields and n_slices: ...]; [method] is the
    value stored under ['_SliceTimingMethod'] by the scripts that record it. *)
Definition slice_timing_block (method : option string) (n_slices : option Z)
  (bids_fields : dict) : py dict :=
  if Dict.mem "RepetitionTime" bids_fields && truthy_int n_slices then
    match Dict.get "RepetitionTime" bids_fields, n_slices with
    | Some (VFloat tr), Some n =>
        slice_timing <- interleaved_slice_timing tr n ;;
        let bids_fields :=
          Dict.set "SliceTiming" (VList (map VFloat slice_timing)) bids_fields in
        ret match method with
            | Some m => Dict.set "_SliceTimingMethod" (VStr m) bids_fields
            | None => bids_fields
            end
    | _, _ => raise TypeError
    end
  else ret bids_fields.

(** ** Site detection *)

Record site_info : Type := mk_site_info {
  version : string;
  tool_version : string;
  site_group : string;
  actual_site : string;
  characteristics : list string;
  confidence : string
}.

Definition set_version (v : string) (s : site_info) : site_info :=
  mk_site_info v (tool_version s) (site_group s) (actual_site s)
               (characteristics s) (confidence s).
Definition set_tool_version (v : string) (s : site_info) : site_info :=
  mk_site_info (version s) v (site_group s) (actual_site s)
               (characteristics s) (confidence s).
Definition set_site_group (v : string) (s : site_info) : site_info :=
  mk_site_info (version s) (tool_version s) v (actual_site s)
               (characteristics s) (confidence s).
Definition set_actual_site (v : string) (s : site_info) : site_info :=
  mk_site_info (version s) (tool_version s) (site_group s) v
               (characteristics s) (confidence s).
Definition set_confidence (v : string) (s : site_info) : site_info :=
  mk_site_info (version s) (tool_version s) (site_group s) (actual_site s)
               (characteristics s) v.
(** [site_info['characteristics'].append(c)] *)
Definition add_characteristic (c : string) (s : site_info) : site_info :=
  mk_site_info (version s) (tool_version s) (site_group s) (actual_site s)
               (characteristics s ++ [c])%list (confidence s).

Definition site_info_init : site_info :=
  mk_site_info "unknown" "unknown" "unknown" "unknown" [] "low".

(** The dictionary the scripts build; [wave] is the extra entry of [W6]. *)
Definition site_info_dict (wave : option string) (s : site_info) : dict :=
  ([("version", VStr (version s));
    ("tool_version", VStr (tool_version s));
    ("site_group", VStr (site_group s));
    ("actual_site", VStr (actual_site s));
    ("characteristics", VList (map VStr (characteristics s)));
    ("confidence", VStr (confidence s))] ++
   match wave with Some w => [("wave", VStr w)] | None => [] end)%list.

Section SiteDetection.
Context {RT : PyRuntime}.

(** The three tests that close both detectors. *)
Definition additional_characteristics (content : string) (s : site_info)
  : site_info :=
  let s := if Str.contains "Number of label types" content
           then add_characteristic "ASL_capable" s else s in
  let s := if Str.contains "SPIR" content
           then add_characteristic "SPIR_suppression" s else s in
  if Str.contains "SENSE" content
  then add_characteristic "SENSE_acceleration" s else s.

End SiteDetection.

(** ** Loops over pattern lists shared by the extractors *)

Section PatternLoops.
Context {RT : PyRuntime}.

(** [x and x > 0] *)
Definition positive (x : option float) : bool :=
  match x with
  | Some f => Fl.truthy f && (0 <? f)%float
  | None => false
  end.

(** The loop of [RepetitionTime], [EchoTime], [SliceThickness], [FlipAngle]
    and [WaterFatShift] in [Batch] and [W6]:
<<
    for pattern in patterns:
        match = re.search(pattern, content, re.IGNORECASE)
        if match:
            x = safe_float(match.group(1))
            if x and x > 0:
                bids_fields[...] = ...
                break
>>
    The state is the variable [x] and [bids_fields]. *)
Definition positive_float_body (content : string) (store : float -> dict -> dict)
  (pattern : string) (st : option float * dict) : (option float * dict) * bool :=
  match re_search pattern content [IGNORECASE] with
  | Some m =>
      let x := safe_float (group m 1) in
      match x with
      | Some f =>
          if positive x then ((x, store f (snd st)), true)
          else ((x, snd st), false)
      | None => ((x, snd st), false)
      end
  | None => (st, false)
  end.

Definition positive_float_loop (patterns : list string) (content : string)
  (store : float -> dict -> dict) (bids_fields : dict) : option float * dict :=
  for_break_pure (positive_float_body content store) patterns (None, bids_fields).

(** [round(ms / 1000.0, 6)] *)
Definition seconds (ms : float) : float := Fl.round (ms / 1000)%float 6.

(** The map of the preparation direction in [Batch], [W6], [Targeted] and
    [SingleSubject]; [None] when no branch is taken. *)
Definition direction_code (direction_lower : string) : option string :=
  if Str.contains "anterior-posterior" direction_lower
     || String.eqb direction_lower "ap" then Some "j-"
  else if Str.contains "posterior-anterior" direction_lower
     || String.eqb direction_lower "pa" then Some "j"
  else if Str.contains "left-right" direction_lower
     || String.eqb direction_lower "lr" then Some "i-"
  else if Str.contains "right-left" direction_lower
     || String.eqb direction_lower "rl" then Some "i"
  else None.

(** The orientation code of the header: 1, 2, 3 give k, i, j. *)
Definition orientation_code (code : option Z) : option string :=
  match code with
  | Some 1 => Some "k"
  | Some 2 => Some "i"
  | Some 3 => Some "j"
  | _ => None
  end.

(** [if water_fat_shift and recon_matrix_pe: try: ...]: the value of the
    [try] body, with its exceptions. *)
Definition echo_spacing (bandwidth_factor water_fat_shift : float)
  (recon_matrix_pe : Z) : py float :=
  bandwidth_per_pixel_hz <- Fl.div bandwidth_factor water_fat_shift ;;
  bandwidth <- Fl.times_int bandwidth_per_pixel_hz recon_matrix_pe ;;
  ees <- Fl.div 1 bandwidth ;;
  ret (Fl.round ees 8).

(** The merge loop of every [update_*] function but [BidsPar]'s:
<<
    for field_name, field_value in bids_params.items():
        if field_name.startswith('_'):
            continue
        if field_name in json_data:
            if json_data[field_name] != field_value:
                json_data[field_name] = field_value
                updated_fields.append(field_name)
        else:
            json_data[field_name] = field_value
            added_fields.append(field_name)
>>
    The state is [(json_data, added_fields, updated_fields)]. *)
Definition merge_state : Type := (dict * list string * list string)%type.

Definition merge_field (skip_private : bool) (st : merge_state)
  (item : string * value) : merge_state :=
  let '(json_data, added_fields, updated_fields) := st in
  let (field_name, field_value) := item in
  if skip_private && Str.startswith "_" field_name then st
  else match Dict.get field_name json_data with
       | Some old =>
           if py_ne old field_value
           then (Dict.set field_name field_value json_data,
                 added_fields, (updated_fields ++ [field_name])%list)
           else st
       | None =>
           (Dict.set field_name field_value json_data,
            (added_fields ++ [field_name])%list, updated_fields)
       end.

Definition merge_fields (skip_private : bool) (bids_params json_data : dict)
  : merge_state :=
  fold_left (merge_field skip_private) bids_params (json_data, [], []).

End PatternLoops.

(** ** Pieces shared by the [update_*] functions *)

(** [f"{json_file_path}.backup_{timestamp}"] *)
Definition backup_path (json_file_path : string) (now : datetime) : string :=
  json_file_path +:+ ".backup_" +:+ strftime_backup now.

(** The backup path as the specification words it,
    [<original-path>.backup_<YYYYMMDDHHMMSS>], to be compared with
    [backup_path]. *)
Definition spec_backup_path (json_file_path : string) (now : datetime) : string :=
  json_file_path +:+ ".backup_" +:+
  pad 4 (year now) +:+ pad 2 (month now) +:+ pad 2 (day now) +:+
  pad 2 (hour now) +:+ pad 2 (minute now) +:+ pad 2 (second now).

(** [try: shutil.copy2(json_file_path, backup_path) except: pass] *)
Definition make_backup (json_file_path : string) (now : datetime)
  (fs : filesystem) : filesystem :=
  match copy2 json_file_path (backup_path json_file_path now) fs with
  | inr fs' => fs'
  | inl _ => fs
  end.

(** [d.get(k, default)] *)
Definition get_default (k : string) (default : value) (d : dict) : value :=
  match Dict.get k d with
  | Some v => v
  | None => default
  end.

(** [bids_params.get(k, {})] followed by [.get] calls on the result: only a
    dictionary has the method. *)
Definition get_dict (k : string) (bids_params : dict) : py dict :=
  match Dict.get k bids_params with
  | None => ret []
  | Some (VDict d) => ret d
  | Some _ => raise AttributeError
  end.

Definition names (l : list string) : value := VList (map VStr l).

Definition len {A : Type} (l : list A) : Z := Z.of_nat (length l).

(** What an [update_*] function returns: [(success, added, updated)]. *)
Definition update_result : Type := (bool * Z * Z)%type.

(** The [try] of an [update_*] function: read, merge, add the provenance
    block under [key], write. *)
Definition merge_into_file (key : string)
  (block : list string -> list string -> py dict)
  (json_file_path : string) (bids_params : dict) (fs : filesystem)
  : filesystem * update_result :=
  let attempt :=
    json_data <- json_load json_file_path fs ;;
    let '(json_data, added_fields, updated_fields) :=
      merge_fields true bids_params json_data in
    info <- block added_fields updated_fields ;;
    let json_data := Dict.set key (VDict info) json_data in
    fs' <- json_dump json_data json_file_path fs ;;
    ret (fs', (true, len added_fields, len updated_fields)) in
  match attempt with
  | inr r => r
  | inl _ => (fs, (false, 0, 0))
  end.

(** ** Directories

    What [pathlib] shows of a path: its text, the attributes the scripts
    read, and for a directory its entries in the order [iterdir] yields
    them. *)

Module Path.

Record attrs : Type := mk_attrs {
  str : string;
  name : string;
  stem : string;
  suffix : string;
  exists_ : bool;
  is_file : bool;
  is_dir : bool
}.

Inductive t : Type :=
| Entry (a : attrs) (entries : list t).

Definition attrs_of (p : t) : attrs := let (a, _) := p in a.

(** [p.iterdir()] *)
Definition iterdir (p : t) : py (list t) :=
  let (a, entries) := p in
  if is_dir a then ret entries else raise OSError.

(** [p / child_name]: the entry of that name, [None] when the directory
    lists none; [p] itself may name nothing. *)
Definition child (p : option t) (child_name : string) : option t :=
  match p with
  | Some (Entry _ entries) =>
      List.find (fun e => String.eqb (name (attrs_of e)) child_name) entries
  | None => None
  end.

(** [p.exists()] *)
Definition path_exists (p : option t) : bool :=
  match p with
  | Some e => exists_ (attrs_of e)
  | None => false
  end.

End Path.

(** ** Pairing of PAR files and sidecars (the same code in [Batch], [W6]
    and [Targeted] but for the words looked for in the sidecar's stem) *)

Definition file_pair : Type := (Path.attrs * Path.attrs)%type.

(** [f.suffix.upper() == '.PAR' and f.is_file()] *)
Definition is_par_file (f : Path.attrs) : bool :=
  String.eqb (Str.upper (Path.suffix f)) ".PAR" && Path.is_file f.

(** [f.suffix.lower() == '.json' and f.is_file() and
    not f.name.startswith('.') and 'backup' not in f.name.lower()] *)
Definition is_json_file (f : Path.attrs) : bool :=
  String.eqb (Str.lower (Path.suffix f)) ".json" && Path.is_file f &&
  negb (Str.startswith "." (Path.name f)) &&
  negb (Str.contains "backup" (Str.lower (Path.name f))).

Definition par_words : list string := ["rest"; "bold"; "task"; "func"].

(** The inner loop and the fallback on the first PAR file. *)
Definition best_par_body (par_file : Path.attrs) (best_par : option Path.attrs)
  : option Path.attrs * bool :=
  let par_stem := Str.lower (Path.stem par_file) in
  if Str.contains_any par_words par_stem then (Some par_file, true)
  else (best_par, false).

Definition find_best_par (par_files : list Path.attrs) : option Path.attrs :=
  let best_par := for_break_pure best_par_body par_files None in
  match best_par with
  | None => List.head par_files
  | Some p => Some p
  end.

Definition pair_body (json_words : list string) (par_files : list Path.attrs)
  (pairs : list file_pair) (json_file : Path.attrs) : list file_pair :=
  let json_stem := Str.lower (Path.stem json_file) in
  if Str.contains_any json_words json_stem then
    match find_best_par par_files with
    | Some best_par => (pairs ++ [(best_par, json_file)])%list
    | None => pairs
    end
  else pairs.

Definition nonempty {A : Type} (l : list A) : bool :=
  match l with [] => false | _ => true end.

Definition pair_files (json_words : list string)
  (par_files json_files : list Path.attrs) : list file_pair :=
  if nonempty par_files && nonempty json_files then
    let pairs := fold_left (pair_body json_words par_files) json_files [] in
    match pairs, par_files, json_files with
    | [], par_file :: _, json_file :: _ => [(par_file, json_file)]
    | _, _, _ => pairs
    end
  else [].

Definition find_pairs (json_words : list string) (func_dir : option Path.t)
  : py (list file_pair) :=
  match func_dir with
  | Some func_path =>
      if negb (Path.path_exists func_dir) then ret [] else
      entries <- Path.iterdir func_path ;;
      let par_files := List.filter is_par_file (map Path.attrs_of entries) in
      entries <- Path.iterdir func_path ;;
      let json_files := List.filter is_json_file (map Path.attrs_of entries) in
      ret (pair_files json_words par_files json_files)
  | None => ret []
  end.

(** ** Processing of the pairs of a directory (the same loop in [Batch],
    [W6] and [Targeted]) *)

(** [open(path, 'r').read()]; [json_text] is the text of a file that holds
    JSON, [None] stands for a file that cannot be opened. *)
Definition read_text (json_text : dict -> string) (path : string)
  (fs : filesystem) : option string :=
  match files fs !! path with
  | Some (FileOther s) => Some s
  | Some (FileJson d) => Some (json_text d)
  | None => None
  end.

(** The clock readings of one pair: by the extractor, for the name of the
    backup and for the provenance block. *)
Definition readings : Type := (datetime * datetime * datetime)%type.

(** The files, and how many pairs have been handled. *)
Definition run_state : Type := (filesystem * nat)%type.

(** [(total_pairs, total_successes, total_failures)] *)
Definition totals : Type := (Z * Z * Z)%type.

Section Pairs.
Variable json_text : dict -> string.
Variable clock : nat -> readings.
(** The extractor and the update function of the script, called as the loop
    calls them. *)
Variable extract : option string -> string -> datetime -> dict.
Variable update : string -> dict -> datetime -> datetime -> filesystem ->
                  filesystem * update_result.

(** The body of [for par_file, json_file in pairs]. *)
Definition process_pair (st : run_state * Z * Z) (pr : file_pair)
  : run_state * Z * Z :=
  let '(fs, n, total_successes, total_failures) := st in
  let (par_file, json_file) := pr in
  let '(now_extract, now_backup, now_info) := clock n in
  let bids_params :=
    extract (read_text json_text (Path.str par_file) fs) (Path.str par_file)
            now_extract in
  if negb (nonempty bids_params)
  then (fs, S n, total_successes, total_failures + 1)
  else
    let '(fs, (success, _, _)) :=
      update (Path.str json_file) bids_params now_backup now_info fs in
    if success then (fs, S n, total_successes + 1, total_failures)
    else (fs, S n, total_successes, total_failures + 1).

Definition process_pairs (pairs : list file_pair) (st : run_state * Z * Z)
  : run_state * Z * Z :=
  fold_left process_pair pairs st.

End Pairs.


(** The [stats] dictionary of [main]. *)
Record stats : Type := mk_stats {
  processed : Z;
  skipped : Z;
  pairs : Z;
  successes : Z;
  failures : Z
}.

Definition stats_init : stats := mk_stats 0 0 0 0 0.

(** The body of the loop of [main] over the subject directories: the files
    a subject's processing wrote before it raised stay written. *)
Definition tally (process : Path.t -> run_state -> run_state * py totals)
  (acc : run_state * stats) (subject_dir : Path.t) : run_state * stats :=
  let (st, s) := acc in
  match process subject_dir st with
  | (st, inr (n_pairs, n_successes, n_failures)) =>
      if 0 <? n_pairs
      then (st, mk_stats (processed s + 1) (skipped s) (pairs s + n_pairs)
                         (successes s + n_successes) (failures s + n_failures))
      else (st, mk_stats (processed s) (skipped s + 1) (pairs s)
                         (successes s) (failures s))
  | (st, inl _) =>
      (st, mk_stats (processed s) (skipped s + 1) (pairs s)
                    (successes s) (failures s))
  end.

(** * batch_bids_par_updater.py *)

Module Batch.
Section WithRuntime.
Context {RT : PyRuntime}.

Definition detect_nesda_site (content file_path : string) : py site_info :=
  let site_info := site_info_init in
  site_info <-
    match re_search "Research image export tool\s+V([\d.]+)" content [] with
    | Some version_match =>
        let tool_version := group version_match 1 in
        let site_info := set_tool_version tool_version site_info in
        let site_info := set_version ("V" +:+ tool_version) site_info in
        if String.eqb tool_version "4.1" then
          ret (set_confidence "high"
                 (add_characteristic "V4.1_format"
                    (set_actual_site "Groningen"
                       (set_site_group "Groningen" site_info))))
        else if String.eqb tool_version "4.2" then
          let site_info := set_site_group "AmsLei" site_info in
          let site_info := add_characteristic "V4.2_format" site_info in
          let site_info := add_characteristic "ASL_capable" site_info in
          (* Method 1: patient name *)
          let site_info :=
            match re_search "Patient name\s*:\s*(.+?)(?:\n|$)" content [IGNORECASE] with
            | Some patient_match =>
                let patient_name := Str.upper (Str.strip (group patient_match 1)) in
                if Str.contains_any ["VU"; "VUMC"; "AMSTERDAM"] patient_name then
                  set_confidence "high" (set_actual_site "Amsterdam" site_info)
                else if Str.contains_any ["LUMC"; "LEIDEN"; "HULSBOSCH"] patient_name then
                  set_confidence "high" (set_actual_site "Leiden" site_info)
                else site_info
            | None => site_info
            end in
          (* Method 2: file path *)
          let site_info :=
            if String.eqb (actual_site site_info) "unknown" && Str.truthy file_path then
              let path_upper := Str.upper file_path in
              if Str.contains_any ["AMSTERDAM"; "VUMC"; "AMS"] path_upper then
                set_confidence "medium" (set_actual_site "Amsterdam" site_info)
              else if Str.contains_any ["LEIDEN"; "LUMC"; "LEI"] path_upper then
                set_confidence "medium" (set_actual_site "Leiden" site_info)
              else site_info
            else site_info in
          (* Method 3: subject number in the examination name *)
          site_info <-
            match re_search "Examination name\s*:\s*(.+?)(?:\n|$)" content [IGNORECASE] with
            | Some examination_match =>
                if String.eqb (actual_site site_info) "unknown" then
                  let exam_name := Str.strip (group examination_match 1) in
                  match re_search "110\d{3}" exam_name [] with
                  | Some _ =>
                      match re_search "110(\d{3})" exam_name [] with
                      | Some subject_match =>
                          match int_of_str (group subject_match 1) with
                          | Some subject_num =>
                              let site_info :=
                                if subject_num <? 500
                                then set_actual_site "Leiden" site_info
                                else set_actual_site "Amsterdam" site_info in
                              ret (set_confidence "medium" site_info)
                          | None => raise ValueError
                          end
                      | None => ret site_info
                      end
                  | None => ret site_info
                  end
                else ret site_info
            | None => ret site_info
            end ;;
          (* default for V4.2 *)
          if String.eqb (actual_site site_info) "unknown" then
            ret (set_confidence "low" (set_actual_site "AmsLei_unspecified" site_info))
          else ret site_info
        else ret site_info
    | None => ret site_info
    end ;;
  ret (additional_characteristics content site_info).

(** *** The blocks of [extract_philips_bids_3sites] *)

Definition tr_patterns : list string :=
  ["Repetition time \[ms\]\s*:\s*([\d.]+)";
   "TR\s*[=:]\s*([\d.]+)";
   "repetition_time\s+([\d.]+)";
   "Repetition\s+time\s*:\s*([\d.]+)"].

Definition repetition_time (content : string) (bids_fields : dict) : dict :=
  snd (positive_float_loop tr_patterns content
         (fun tr_ms => Dict.set "RepetitionTime" (VFloat (seconds tr_ms)))
         bids_fields).

Definition te_patterns : list string :=
  ["Echo time\s*\[ms\]\s*:\s*([\d.]+)";
   "TE\s*[=:]\s*([\d.]+)";
   "echo_time\s+([\d.]+)";
   "Echo\s+time\s*:\s*([\d.]+)"].

Definition echo_time (content : string) (bids_fields : dict) : dict :=
  snd (positive_float_loop te_patterns content
         (fun te_ms => Dict.set "EchoTime" (VFloat (seconds te_ms)))
         bids_fields).

Definition slices_patterns : list string :=
  ["Max\.\s*number of slices/locations\s*:\s*(\d+)";
   "Max\. number of slices/locations\s*:\s*(\d+)";
   "number of slices\s*[=:]\s*(\d+)";
   "Number\s+of\s+slices\s*:\s*(\d+)"].

(** The state is [(n_slices, bids_fields)]. *)
Definition number_of_slices_body (content : string) (pattern : string)
  (st : option Z * dict) : py ((option Z * dict) * bool) :=
  match re_search pattern content [IGNORECASE] with
  | Some m =>
      n_slices <- safe_int (group m 1) ;;
      match n_slices with
      | Some n =>
          if negb (n =? 0) && (0 <? n)
          then ret ((n_slices, Dict.set "NumberOfSlices" (VInt n) (snd st)), true)
          else ret ((n_slices, snd st), false)
      | None => ret ((n_slices, snd st), false)
      end
  | None => ret (st, false)
  end.

Definition number_of_slices (content : string) (bids_fields : dict)
  : py (option Z * dict) :=
  for_break (number_of_slices_body content) slices_patterns (None, bids_fields).

(** Strategy 1 of the slice encoding direction; the state is
    [(slice_encoding_dir, bids_fields)]. *)
Definition orientation_patterns : list string :=
  ["slice orientation \( TRA/SAG/COR \)\s*\(integer\)\s+(\d+)";
   "slice orientation\s*:\s*(\d+)";
   "slice_orientation\s*:\s*(\d+)"].

Definition orientation_body (content : string) (pattern : string)
  (st : option string * dict) : py ((option string * dict) * bool) :=
  match re_search pattern content [IGNORECASE] with
  | Some m =>
      orient_code <- safe_int (group m 1) ;;
      let slice_encoding_dir :=
        match orientation_code orient_code with
        | Some d => Some d
        | None => fst st
        end in
      match slice_encoding_dir with
      | Some d =>
          ret ((slice_encoding_dir,
                Dict.set "SliceEncodingDirection" (VStr d) (snd st)), true)
      | None => ret ((slice_encoding_dir, snd st), false)
      end
  | None => ret (st, false)
  end.

(** Strategy 2: column 21 of the first ten lines after the image header. *)
Definition image_line_body (line : string) (st : option string * dict)
  : (option string * dict) * bool :=
  let parts := Str.split line in
  if (20 <? length parts)%nat then
    match int_of_str (nth 20 parts "") with
    | Some orient_val =>
        match orientation_code (Some orient_val) with
        | Some d =>
            ((Some d, Dict.set "SliceEncodingDirection" (VStr d) (snd st)), true)
        | None => (st, false)
        end
    | None => (st, false)
    end
  else (st, false).

Definition image_data_orientation (content : string) (st : option string * dict)
  : option string * dict :=
  match fst st with
  | Some _ => st
  | None =>
      match re_search "# === IMAGE INFORMATION =+(.*)" content [DOTALL] with
      | Some image_section =>
          let image_lines := Str.split_on "010" (group image_section 1) in
          for_break_pure image_line_body (firstn 10 image_lines) st
      | None => st
      end
  end.

(** Strategy 3: the patient position. *)
Definition pos_patterns : list string :=
  ["Patient position\s*:\s*([A-Z\s]+?)(?:\n|$)";
   "patient position\s*:\s*([A-Z\s]+?)(?:\n|$)"].

Definition position_body (content : string) (pattern : string)
  (st : option string * dict) : (option string * dict) * bool :=
  match re_search pattern content [IGNORECASE] with
  | Some m =>
      let position := Str.upper (Str.strip (group m 1)) in
      if Str.contains_any ["HEAD FIRST SUPINE"; "HFS"] position
      then ((Some "k", Dict.set "SliceEncodingDirection" (VStr "k") (snd st)), true)
      else (st, false)
  | None => (st, false)
  end.

Definition position_orientation (content : string) (st : option string * dict)
  : option string * dict :=
  match fst st with
  | Some _ => st
  | None => for_break_pure (position_body content) pos_patterns st
  end.

(** Strategy 4: the default of a functional acquisition. *)
Definition fmri_default (content : string) (st : option string * dict)
  : option string * dict :=
  match fst st with
  | Some _ => st
  | None =>
      match re_search "rest|bold|fmri|epi|task|SENSE" content [IGNORECASE] with
      | Some _ => (Some "k", Dict.set "SliceEncodingDirection" (VStr "k") (snd st))
      | None => st
      end
  end.

Definition slice_encoding_direction (content : string) (bids_fields : dict)
  : py dict :=
  st <- for_break (orientation_body content) orientation_patterns
                  (None, bids_fields) ;;
  ret (snd (fmri_default content
              (position_orientation content
                 (image_data_orientation content st)))).

Definition prep_patterns : list string :=
  ["Preparation direction\s*:\s*([^\n\r]+)";
   "preparation direction\s*:\s*([^\n\r]+)";
   "Phase encoding direction\s*:\s*([^\n\r]+)";
   "PE direction\s*:\s*([^\n\r]+)";
   "Fold-?over direction\s*:\s*([^\n\r]+)"].

(** The state is [(phase_encoding_dir, bids_fields)]. *)
Definition phase_body (content : string) (pattern : string)
  (st : option string * dict) : (option string * dict) * bool :=
  match re_search pattern content [IGNORECASE] with
  | Some m =>
      let direction := Str.strip (group m 1) in
      let direction_lower := Str.lower direction in
      let phase_encoding_dir :=
        match direction_code direction_lower with
        | Some c => Some c
        | None => fst st
        end in
      match phase_encoding_dir with
      | Some c =>
          ((phase_encoding_dir,
            Dict.set "PhaseEncodingDirection" (VStr c) (snd st)), true)
      | None => ((phase_encoding_dir, snd st), false)
      end
  | None => (st, false)
  end.

Definition phase_encoding_direction (content : string) (bids_fields : dict)
  : dict :=
  snd (for_break_pure (phase_body content) prep_patterns (None, bids_fields)).

Definition wfs_patterns : list string :=
  ["Water Fat shift \[pixels\]\s*:\s*([\d.]+)";
   "water fat shift\s*:\s*([\d.]+)";
   "WFS\s*:\s*([\d.]+)";
   "Water\s+Fat\s+shift\s*:\s*([\d.]+)"].

(** Returns [(water_fat_shift, bids_fields)]. *)
Definition water_fat_shift_loop (content : string) (bids_fields : dict)
  : option float * dict :=
  positive_float_loop wfs_patterns content
    (fun wfs => Dict.set "WaterFatShift" (VFloat wfs)) bids_fields.

Definition recon_patterns : list string :=
  ["recon resolution \(x,?\s*y\)\s*:\s*(\d+)\s+(\d+)";
   "Recon resolution \(x,?\s*y\)\s*:\s*(\d+)\s+(\d+)";
   "Scan resolution\s*\(x,?\s*y\)\s*:\s*(\d+)\s+(\d+)"].

(** The state is [(recon_matrix_pe, bids_fields)]. *)
Definition recon_body (content : string) (pattern : string)
  (st : option Z * dict) : py ((option Z * dict) * bool) :=
  match re_search pattern content [IGNORECASE] with
  | Some m =>
      recon_x <- safe_int (group m 1) ;;
      recon_y <- safe_int (group m 2) ;;
      match recon_x, recon_y with
      | Some x, Some y =>
          if negb (x =? 0) && negb (y =? 0) then
            ret ((Some y,
                  Dict.set "ReconMatrixFE" (VInt x)
                    (Dict.set "ReconMatrixPE" (VInt y) (snd st))), true)
          else ret (st, false)
      | _, _ => ret (st, false)
      end
  | None => ret (st, false)
  end.

Definition recon_matrix (content : string) (bids_fields : dict)
  : py (option Z * dict) :=
  for_break (recon_body content) recon_patterns (None, bids_fields).

(** The bandwidth factor is chosen by site; every branch holds the same
    constant. *)
Definition bandwidth_factor (site_info : site_info) : float :=
  if String.eqb (actual_site site_info) "Groningen" then 434.215%float
  else if String.eqb (actual_site site_info) "Amsterdam" then 434.215%float
  else if String.eqb (actual_site site_info) "Leiden" then 434.215%float
  else 434.215%float.

(** An exception of the computation is caught and the field is left out. *)
Definition effective_echo_spacing (site_info : site_info)
  (water_fat_shift : option float) (recon_matrix_pe : option Z)
  (bids_fields : dict) : dict :=
  if truthy_float water_fat_shift && truthy_int recon_matrix_pe then
    match water_fat_shift, recon_matrix_pe with
    | Some wfs, Some pe =>
        match echo_spacing (bandwidth_factor site_info) wfs pe with
        | inr ees => Dict.set "EffectiveEchoSpacing" (VFloat ees) bids_fields
        | inl _ => bids_fields
        end
    | _, _ => bids_fields
    end
  else bids_fields.

Definition thickness_patterns : list string :=
  ["slice thickness \(in mm\s*\)\s*:\s*([\d.]+)";
   "slice thickness\s*:\s*([\d.]+)";
   "Slice thickness\s*:\s*([\d.]+)"].

Definition slice_thickness (content : string) (bids_fields : dict) : dict :=
  snd (positive_float_loop thickness_patterns content
         (fun thickness => Dict.set "SliceThickness" (VFloat thickness))
         bids_fields).

Definition flip_patterns : list string :=
  ["image_flip_angle \(in degrees\)\s+([\d.]+)";
   "Flip angle\s*\[degrees\]\s*:\s*([\d.]+)";
   "flip angle\s*:\s*([\d.]+)"].

Definition flip_angle (content : string) (bids_fields : dict) : dict :=
  snd (positive_float_loop flip_patterns content
         (fun flip_angle => Dict.set "FlipAngle" (VFloat flip_angle))
         bids_fields).

Definition protocol_patterns : list string :=
  ["Protocol name\s*:\s*([^\n\r]+)";
   "Examination name\s*:\s*([^\n\r]+)"].

Definition task_of_protocol (protocol : string) : string :=
  if Str.contains_any ["rest"; "resting"; "state"] protocol then "rest"
  else if Str.contains "nback" protocol then "nback"
  else if Str.contains_any ["faces"; "emotion"] protocol then "faces"
  else "rest".

Definition task_body (content : string) (pattern : string) (bids_fields : dict)
  : dict * bool :=
  match re_search pattern content [IGNORECASE] with
  | Some m =>
      let protocol := Str.lower (Str.strip (group m 1)) in
      (Dict.set "TaskName" (VStr (task_of_protocol protocol)) bids_fields, true)
  | None => (bids_fields, false)
  end.

Definition task_name (content : string) (bids_fields : dict) : dict :=
  for_break_pure (task_body content) protocol_patterns bids_fields.

Definition supported_sites : value :=
  VList [VStr "Groningen"; VStr "Amsterdam"; VStr "Leiden"].

Definition processing_info (site_info : site_info) (now : datetime) : dict :=
  [("ExtractedBy", VStr "batch_bids_par_updater.py");
   ("ExtractionDateTime", VStr (isoformat now));
   ("ProcessedBy", VStr "JulianGaviriaL");
   ("MultiSiteCapable", VBool true);
   ("SupportedSites", supported_sites);
   ("SiteDetected", VStr (actual_site site_info));
   ("DetectionConfidence", VStr (confidence site_info));
   ("PAR_Version", VStr (version site_info));
   ("SliceTimingCorrected", VStr "2025-09-10")].

(** The body of the [try] once the file is read. *)
Definition extract_from_text (content par_file_path : string) (now : datetime)
  : py dict :=
  let bids_fields : dict := [] in
  site_info <- detect_nesda_site content par_file_path ;;
  let bids_fields :=
    Dict.set "_SiteInfo" (VDict (site_info_dict None site_info)) bids_fields in
  let bids_fields := repetition_time content bids_fields in
  let bids_fields := echo_time content bids_fields in
  r <- number_of_slices content bids_fields ;;
  let (n_slices, bids_fields) := r in
  bids_fields <- slice_timing_block (Some "interleaved_ascending_from_bottom")
                   n_slices bids_fields ;;
  bids_fields <- slice_encoding_direction content bids_fields ;;
  let bids_fields := phase_encoding_direction content bids_fields in
  let (water_fat_shift, bids_fields) := water_fat_shift_loop content bids_fields in
  r <- recon_matrix content bids_fields ;;
  let (recon_matrix_pe, bids_fields) := r in
  let bids_fields :=
    effective_echo_spacing site_info water_fat_shift recon_matrix_pe bids_fields in
  let bids_fields := slice_thickness content bids_fields in
  let bids_fields := flip_angle content bids_fields in
  let bids_fields := task_name content bids_fields in
  let bids_fields := Dict.set "Manufacturer" (VStr "Philips") bids_fields in
  ret (Dict.set "_ProcessingInfo" (VDict (processing_info site_info now))
         bids_fields).

(** [extract_philips_bids_3sites]: [file] is what reading the PAR file
    gives, [None] when it cannot be read; any exception yields [{}]. *)
Definition extract_philips_bids_3sites (file : option string)
  (par_file_path : string) (now : datetime) : dict :=
  match file with
  | Some content =>
      match extract_from_text content par_file_path now with
      | inr bids_fields => bids_fields
      | inl _ => []
      end
  | None => []
  end.

End WithRuntime.

(** *** [update_bids_json] *)

Definition provenance (bids_params : dict) (now : datetime)
  (added_fields updated_fields : list string) : py dict :=
  site_info <- get_dict "_SiteInfo" bids_params ;;
  ret [("ProcessedBy", VStr "JulianGaviriaL");
       ("ProcessingDateTime", VStr (isoformat now));
       ("ProcessingScript", VStr "batch_bids_par_updater.py");
       ("NESDAMultiSite", VBool true);
       ("SupportedSites", supported_sites);
       ("DetectedSite", get_default "actual_site" (VStr "unknown") site_info);
       ("SiteConfidence", get_default "confidence" (VStr "unknown") site_info);
       ("PAR_Version", get_default "version" (VStr "unknown") site_info);
       ("PhilipsSpecific", VBool true);
       ("SliceTimingCorrected", VStr "2025-09-10");
       ("ExtractionCapabilities",
        VDict [("SliceEncodingDirection", VStr "Multi-strategy detection");
               ("PhaseEncodingDirection", VStr "From Preparation direction");
               ("SliceTimingMethod",
                VStr "Interleaved ascending from bottom (CORRECTED)");
               ("EffectiveEchoSpacing", VStr "Water-Fat shift calculation")]);
       ("FieldsAdded", names added_fields);
       ("FieldsUpdated", names updated_fields)].

(** [now_backup] and [now_info] are the two readings of the clock. *)
Definition update_bids_json (json_file_path : string) (bids_params : dict)
  (create_backup : bool) (now_backup now_info : datetime) (fs : filesystem)
  : filesystem * update_result :=
  let fs := if create_backup then make_backup json_file_path now_backup fs
            else fs in
  merge_into_file "_BIDSProcessingInfo" (provenance bids_params now_info)
                  json_file_path bids_params fs.

(** *** [find_par_json_pairs], [process_participant] and the loop of [main] *)

Section Run.
Context {RT : PyRuntime}.
Variable json_text : dict -> string.
Variable clock : nat -> readings.

Definition find_par_json_pairs (func_dir : option Path.t) : py (list file_pair) :=
  find_pairs ["rest"; "bold"; "task"; "func"] func_dir.

(** The body of [for item in participant_dir.iterdir()]. *)
Definition func_dirs_body (func_dirs : list (option Path.t)) (item : Path.t)
  : list (option Path.t) :=
  if Path.is_dir (Path.attrs_of item) then
    if Str.startswith "ses-" (Path.name (Path.attrs_of item)) then
      let func_dir := Path.child (Some item) "func" in
      if Path.path_exists func_dir then (func_dirs ++ [func_dir])%list
      else func_dirs
    else if String.eqb (Path.name (Path.attrs_of item)) "func"
         then (func_dirs ++ [Some item])%list
         else func_dirs
  else func_dirs.

(** [for func_dir in func_dirs]: an exception of [find_par_json_pairs]
    leaves the loop with the files as they are by then. *)
Fixpoint process_func_dirs (func_dirs : list (option Path.t))
  (st : run_state) (t : totals) : run_state * py totals :=
  match func_dirs with
  | [] => (st, ret t)
  | func_dir :: func_dirs' =>
      match find_par_json_pairs func_dir with
      | inl e => (st, raise e)
      | inr pairs =>
          if negb (nonempty pairs) then process_func_dirs func_dirs' st t
          else
            let '(total_pairs, total_successes, total_failures) := t in
            let total_pairs := total_pairs + len pairs in
            let '(st, total_successes, total_failures) :=
              process_pairs json_text clock extract_philips_bids_3sites
                (fun path bids_params =>
                   update_bids_json path bids_params true)
                pairs (st, total_successes, total_failures) in
            process_func_dirs func_dirs' st
              (total_pairs, total_successes, total_failures)
      end
  end.

Definition process_participant (participant_dir : Path.t) (st : run_state)
  : run_state * py totals :=
  match Path.iterdir participant_dir with
  | inl e => (st, raise e)
  | inr items =>
      let func_dirs := fold_left func_dirs_body items [] in
      if negb (nonempty func_dirs) then (st, ret (0, 0, 0))
      else process_func_dirs func_dirs st (0, 0, 0)
  end.

(** The loop of [main] over the participants. *)
Definition main_loop (participants : list Path.t) (st : run_state)
  : run_state * stats :=
  fold_left (tally process_participant) participants (st, stats_init).

End Run.

End Batch.

(** * nesda_W6_bids_par_update.py *)

Module W6.
Section WithRuntime.
Context {RT : PyRuntime}.

Definition detect_nesda_site_w6 (content file_path : string) : site_info :=
  let site_info := site_info_init in
  let site_info :=
    match re_search "Research image export tool\s+V([\d.]+)" content [] with
    | Some version_match =>
        let tool_version := group version_match 1 in
        let site_info := set_tool_version tool_version site_info in
        let site_info := set_version ("V" +:+ tool_version) site_info in
        if String.eqb tool_version "4.1" then
          set_confidence "high"
            (add_characteristic "V4.1_format"
               (set_actual_site "Groningen"
                  (set_site_group "Groningen" site_info)))
        else if String.eqb tool_version "4.2" then
          let site_info := set_site_group "AmsLei" site_info in
          let site_info := add_characteristic "V4.2_format" site_info in
          let site_info := add_characteristic "ASL_capable" site_info in
          let site_info :=
            match re_search "Patient name\s*:\s*(.+?)(?:\n|$)" content [IGNORECASE] with
            | Some patient_match =>
                let patient_name := Str.upper (Str.strip (group patient_match 1)) in
                if Str.contains_any ["VU"; "VUMC"; "AMSTERDAM"; "AMS"] patient_name then
                  set_confidence "high" (set_actual_site "Amsterdam" site_info)
                else if Str.contains_any ["LUMC"; "LEIDEN"; "LEI"] patient_name then
                  set_confidence "high" (set_actual_site "Leiden" site_info)
                else site_info
            | None => site_info
            end in
          let site_info :=
            if String.eqb (actual_site site_info) "unknown" && Str.truthy file_path then
              let path_upper := Str.upper file_path in
              if Str.contains_any ["GRONINGEN"; "GRO"] path_upper then
                set_confidence "medium" (set_actual_site "Groningen" site_info)
              else if Str.contains_any ["AMSTERDAM"; "VUMC"; "AMS"] path_upper then
                set_confidence "medium" (set_actual_site "Amsterdam" site_info)
              else if Str.contains_any ["LEIDEN"; "LUMC"; "LEI"] path_upper then
                set_confidence "medium" (set_actual_site "Leiden" site_info)
              else site_info
            else site_info in
          if String.eqb (actual_site site_info) "unknown" then
            set_confidence "low" (set_actual_site "AmsLei_unspecified" site_info)
          else site_info
        else site_info
    | None => site_info
    end in
  additional_characteristics content site_info.

End WithRuntime.

(** *** [update_bids_json_w6] *)

Definition provenance (bids_params : dict) (now : datetime)
  (added_fields updated_fields : list string) : py dict :=
  site_info <- get_dict "_SiteInfo" bids_params ;;
  ret [("ProcessedBy", VStr "JulianGaviriaL");
       ("ProcessingDateTime", VStr (isoformat now));
       ("ProcessingScript", VStr "nesda_w6_bids_par_updater.py");
       ("DataWave", VStr "W6");
       ("BIDSStructure", VBool true);
       ("NESDAMultiSite", VBool true);
       ("SupportedSites", Batch.supported_sites);
       ("DetectedSite", get_default "actual_site" (VStr "unknown") site_info);
       ("SiteConfidence", get_default "confidence" (VStr "unknown") site_info);
       ("PAR_Version", get_default "version" (VStr "unknown") site_info);
       ("W6_Specific", VBool true);
       ("FieldsAdded", names added_fields);
       ("FieldsUpdated", names updated_fields)].

Definition update_bids_json_w6 (json_file_path : string) (bids_params : dict)
  (create_backup : bool) (now_backup now_info : datetime) (fs : filesystem)
  : filesystem * update_result :=
  let fs := if create_backup then make_backup json_file_path now_backup fs
            else fs in
  merge_into_file "_BIDSProcessingInfo" (provenance bids_params now_info)
                  json_file_path bids_params fs.

(** *** [find_par_json_pairs_w6] *)

Definition find_par_json_pairs_w6 (func_dir : option Path.t)
  : py (list file_pair) :=
  find_pairs ["task-rest"; "task-"; "bold"] func_dir.

Section Extraction.
Context {RT : PyRuntime}.

(** *** [extract_philips_bids_w6]

    The blocks of the repetition time, the echo time, the slice count, the
    slice timing, the first two strategies of the slice direction and the
    matrix size are those of [Batch], line by line. *)

(** Strategy 3 is the default, whatever the header holds. *)
Definition slice_encoding_direction (content : string) (bids_fields : dict)
  : py dict :=
  st <- for_break (Batch.orientation_body content) Batch.orientation_patterns
                  (None, bids_fields) ;;
  let st := Batch.image_data_orientation content st in
  ret match fst st with
      | Some _ => snd st
      | None => Dict.set "SliceEncodingDirection" (VStr "k") (snd st)
      end.

Definition prep_patterns : list string :=
  ["Preparation direction\s*:\s*([^\n\r]+)";
   "preparation direction\s*:\s*([^\n\r]+)";
   "Phase encoding direction\s*:\s*([^\n\r]+)"].

Definition phase_encoding_direction (content : string) (bids_fields : dict)
  : dict :=
  snd (for_break_pure (Batch.phase_body content) prep_patterns
                      (None, bids_fields)).

Definition wfs_patterns : list string :=
  ["Water Fat shift \[pixels\]\s*:\s*([\d.]+)";
   "water fat shift\s*:\s*([\d.]+)";
   "WFS\s*:\s*([\d.]+)"].

Definition water_fat_shift_loop (content : string) (bids_fields : dict)
  : option float * dict :=
  positive_float_loop wfs_patterns content
    (fun wfs => Dict.set "WaterFatShift" (VFloat wfs)) bids_fields.

(** One bandwidth factor for every site. *)
Definition effective_echo_spacing (water_fat_shift : option float)
  (recon_matrix_pe : option Z) (bids_fields : dict) : dict :=
  if truthy_float water_fat_shift && truthy_int recon_matrix_pe then
    match water_fat_shift, recon_matrix_pe with
    | Some wfs, Some pe =>
        match echo_spacing 434.215 wfs pe with
        | inr ees => Dict.set "EffectiveEchoSpacing" (VFloat ees) bids_fields
        | inl _ => bids_fields
        end
    | _, _ => bids_fields
    end
  else bids_fields.

Definition thickness_patterns : list string :=
  ["slice thickness \(in mm\s*\)\s*:\s*([\d.]+)";
   "slice thickness\s*:\s*([\d.]+)"].

Definition slice_thickness (content : string) (bids_fields : dict) : dict :=
  snd (positive_float_loop thickness_patterns content
         (fun thickness => Dict.set "SliceThickness" (VFloat thickness))
         bids_fields).

Definition flip_patterns : list string :=
  ["image_flip_angle \(in degrees\)\s+([\d.]+)";
   "Flip angle\s*\[degrees\]\s*:\s*([\d.]+)"].

Definition flip_angle (content : string) (bids_fields : dict) : dict :=
  snd (positive_float_loop flip_patterns content
         (fun flip_angle => Dict.set "FlipAngle" (VFloat flip_angle))
         bids_fields).

Definition task_of_protocol (protocol : string) : string :=
  if Str.contains_any ["rest"; "resting"] protocol then "rest"
  else if Str.contains "nback" protocol then "nback"
  else if Str.contains_any ["faces"; "emotion"] protocol then "faces"
  else "rest".

Definition task_body (content : string) (pattern : string) (bids_fields : dict)
  : dict * bool :=
  match re_search pattern content [IGNORECASE] with
  | Some m =>
      let protocol := Str.lower (Str.strip (group m 1)) in
      (Dict.set "TaskName" (VStr (task_of_protocol protocol)) bids_fields, true)
  | None => (bids_fields, false)
  end.

Definition task_name (content : string) (bids_fields : dict) : dict :=
  for_break_pure (task_body content) Batch.protocol_patterns bids_fields.

Definition processing_info (site_info : site_info) (now : datetime) : dict :=
  [("ExtractedBy", VStr "nesda_w6_bids_par_updater.py");
   ("ExtractionDateTime", VStr (isoformat now));
   ("ProcessedBy", VStr "JulianGaviriaL");
   ("DataWave", VStr "W6");
   ("MultiSiteCapable", VBool true);
   ("SupportedSites", Batch.supported_sites);
   ("SiteDetected", VStr (actual_site site_info));
   ("DetectionConfidence", VStr (confidence site_info));
   ("PAR_Version", VStr (version site_info));
   ("SliceTimingCorrected", VStr "2025-09-16")].

(** The body of the [try] once the file is read. *)
Definition extract_from_text (content par_file_path : string) (now : datetime)
  : py dict :=
  let bids_fields : dict := [] in
  let site_info := detect_nesda_site_w6 content par_file_path in
  let bids_fields :=
    Dict.set "_SiteInfo" (VDict (site_info_dict (Some "W6") site_info))
             bids_fields in
  let bids_fields := Batch.repetition_time content bids_fields in
  let bids_fields := Batch.echo_time content bids_fields in
  r <- Batch.number_of_slices content bids_fields ;;
  let (n_slices, bids_fields) := r in
  bids_fields <- slice_timing_block (Some "interleaved_ascending_from_bottom")
                   n_slices bids_fields ;;
  bids_fields <- slice_encoding_direction content bids_fields ;;
  let bids_fields := phase_encoding_direction content bids_fields in
  let (water_fat_shift, bids_fields) := water_fat_shift_loop content bids_fields in
  r <- Batch.recon_matrix content bids_fields ;;
  let (recon_matrix_pe, bids_fields) := r in
  let bids_fields :=
    effective_echo_spacing water_fat_shift recon_matrix_pe bids_fields in
  let bids_fields := slice_thickness content bids_fields in
  let bids_fields := flip_angle content bids_fields in
  let bids_fields := task_name content bids_fields in
  let bids_fields := Dict.set "Manufacturer" (VStr "Philips") bids_fields in
  ret (Dict.set "_ProcessingInfo" (VDict (processing_info site_info now))
         bids_fields).

(** [extract_philips_bids_w6]: [file] is what reading the PAR file gives,
    [None] when it cannot be read; any exception yields [{}]. *)
Definition extract_philips_bids_w6 (file : option string)
  (par_file_path : string) (now : datetime) : dict :=
  match file with
  | Some content =>
      match extract_from_text content par_file_path now with
      | inr bids_fields => bids_fields
      | inl _ => []
      end
  | None => []
  end.

End Extraction.

(** *** [process_subject_w6] and the loop of [main] *)

Section Run.
Context {RT : PyRuntime}.
Variable json_text : dict -> string.
Variable clock : nat -> readings.

(** [for session_dir in session_dirs]: an exception of
    [find_par_json_pairs_w6] leaves the loop with the files as they are by
    then. *)
Fixpoint process_sessions (session_dirs : list Path.t) (st : run_state)
  (t : totals) : run_state * py totals :=
  match session_dirs with
  | [] => (st, ret t)
  | session_dir :: session_dirs' =>
      let func_dir := Path.child (Some session_dir) "func" in
      if negb (Path.path_exists func_dir)
      then process_sessions session_dirs' st t
      else
        match find_par_json_pairs_w6 func_dir with
        | inl e => (st, raise e)
        | inr pairs =>
            if negb (nonempty pairs) then process_sessions session_dirs' st t
            else
              let '(total_pairs, total_successes, total_failures) := t in
              let total_pairs := total_pairs + len pairs in
              let '(st, total_successes, total_failures) :=
                process_pairs json_text clock extract_philips_bids_w6
                  (fun path bids_params =>
                     update_bids_json_w6 path bids_params true)
                  pairs (st, total_successes, total_failures) in
              process_sessions session_dirs' st
                (total_pairs, total_successes, total_failures)
        end
  end.

Definition process_subject_w6 (subject_dir : Path.t) (st : run_state)
  : run_state * py totals :=
  match Path.iterdir subject_dir with
  | inl e => (st, raise e)
  | inr items =>
      let session_dirs :=
        List.filter (fun item => Path.is_dir (Path.attrs_of item) &&
                                 Str.startswith "ses-03"
                                   (Path.name (Path.attrs_of item)))
                    items in
      if negb (nonempty session_dirs) then (st, ret (0, 0, 0))
      else process_sessions session_dirs st (0, 0, 0)
  end.

(** The loop of [main] over the subjects. *)
Definition main_loop (subjects : list Path.t) (st : run_state)
  : run_state * stats :=
  fold_left (tally process_subject_w6) subjects (st, stats_init).

End Run.

End W6.

(** * nesda_json_updater.py *)

Module Targeted.

(** [len(TARGET_SUBJECTS)] *)
Definition target_subjects : Z := 39.

Section WithRuntime.
Context {RT : PyRuntime}.

(** The loop of [PatientPosition], [SeriesDescription] and [ProtocolName],
    with the default that follows it. *)
Definition str_field_body (content key : string) (pattern : string)
  (bids_fields : dict) : dict * bool :=
  match re_search pattern content [IGNORECASE] with
  | Some m =>
      let x := safe_str (Str.strip (group m 1)) in
      if Str.truthy x then (Dict.set key (VStr x) bids_fields, true)
      else (bids_fields, false)
  | None => (bids_fields, false)
  end.

Definition str_field (patterns : list string) (key default : string)
  (content : string) (bids_fields : dict) : dict :=
  let bids_fields :=
    for_break_pure (str_field_body content key) patterns bids_fields in
  if negb (Dict.mem key bids_fields)
  then Dict.set key (VStr default) bids_fields else bids_fields.

(** The loop of [SeriesNumber] and [AcquisitionNumber], with its default. *)
Definition int_field_body (content key : string) (pattern : string)
  (bids_fields : dict) : py (dict * bool) :=
  match re_search pattern content [IGNORECASE] with
  | Some m =>
      x <- safe_int (group m 1) ;;
      match x with
      | Some n => if negb (n =? 0)
                  then ret (Dict.set key (VInt n) bids_fields, true)
                  else ret (bids_fields, false)
      | None => ret (bids_fields, false)
      end
  | None => ret (bids_fields, false)
  end.

Definition int_field (patterns : list string) (key : string) (default : Z)
  (content : string) (bids_fields : dict) : py dict :=
  bids_fields <- for_break (int_field_body content key) patterns bids_fields ;;
  ret (if negb (Dict.mem key bids_fields)
       then Dict.set key (VInt default) bids_fields else bids_fields).

Definition position_patterns : list string :=
  ["Patient position\s*:\s*([^\n\r]+)";
   "patient position\s*:\s*([^\n\r]+)"].

Definition series_patterns : list string :=
  ["Series Type\s*:\s*([^\n\r]+)";
   "series description\s*:\s*([^\n\r]+)";
   "Series description\s*:\s*([^\n\r]+)"].

Definition protocol_patterns : list string :=
  ["Protocol name\s*:\s*([^\n\r]+)";
   "protocol name\s*:\s*([^\n\r]+)";
   "Examination name\s*:\s*([^\n\r]+)"].

Definition series_num_patterns : list string :=
  ["Series nr\s*:\s*(\d+)";
   "series number\s*:\s*(\d+)";
   "Series number\s*:\s*(\d+)"].

Definition acq_patterns : list string :=
  ["Acquisition nr\s*:\s*(\d+)";
   "acquisition number\s*:\s*(\d+)";
   "Acquisition number\s*:\s*(\d+)"].

(** [image_section.group(1).split('\n')], or no line without a section. *)
Definition image_lines (content : string) : list string :=
  match re_search "# === IMAGE INFORMATION =+(.*?)(?=# ===|$)" content [DOTALL] with
  | Some image_section => Str.split_on "010" (group image_section 1)
  | None => []
  end.

(** [safe_float(parts[i]) if len(parts) > i else default] *)
Definition part_or (parts : list string) (i : nat) (default : float)
  : option float :=
  if (i <? length parts)%nat then safe_float (nth i parts "") else Some default.

Definition rescale_body (line : string) (bids_fields : dict) : dict * bool :=
  let parts := Str.split (Str.strip line) in
  if (12 <=? length parts)%nat && Str.isdigit (nth 0 parts "") then
    let rescale_slope := part_or parts 10 1 in
    let rescale_intercept := part_or parts 11 0 in
    let scale_slope := part_or parts 12 1 in
    let bids_fields :=
      match rescale_slope with
      | Some x => if Fl.truthy x
                  then Dict.set "PhilipsRescaleSlope" (VFloat x) bids_fields
                  else bids_fields
      | None => bids_fields
      end in
    let bids_fields :=
      match rescale_intercept with
      | Some x => Dict.set "PhilipsRescaleIntercept" (VFloat x) bids_fields
      | None => bids_fields
      end in
    let bids_fields :=
      match scale_slope with
      | Some x => if Fl.truthy x
                  then Dict.set "PhilipsScaleSlope" (VFloat x) bids_fields
                  else bids_fields
      | None => bids_fields
      end in
    (bids_fields, true)
  else (bids_fields, false).

Definition default_float (key : string) (x : float) (bids_fields : dict) : dict :=
  if negb (Dict.mem key bids_fields)
  then Dict.set key (VFloat x) bids_fields else bids_fields.

Definition rescale_parameters (content : string) (bids_fields : dict) : dict :=
  let bids_fields := for_break_pure rescale_body (image_lines content) bids_fields in
  default_float "PhilipsScaleSlope" 1
    (default_float "PhilipsRescaleIntercept" 0
       (default_float "PhilipsRescaleSlope" 1 bids_fields)).

Definition te_patterns : list string :=
  ["Echo time\s*\[ms\]\s*:\s*([\d.]+)";
   "TE\s*[=:]\s*([\d.]+)";
   "echo_time\s+([\d.]+)"].

Definition echo_time (content : string) (bids_fields : dict) : dict :=
  let bids_fields :=
    snd (positive_float_loop te_patterns content
           (fun te_ms => Dict.set "EchoTime" (VFloat (seconds te_ms)))
           bids_fields) in
  default_float "EchoTime" 0.028 bids_fields.

(** All of [l] or nothing: [all(v is not None for v in l)]. *)
Fixpoint all_some {A : Type} (l : list (option A)) : option (list A) :=
  match l with
  | [] => Some []
  | Some a :: l' => match all_some l' with Some r => Some (a :: r) | None => None end
  | None :: _ => None
  end.

(** The state is [orientation_matrix]; [parts[18]] raises on a line of 18
    columns and the line is skipped. *)
Definition orientation_body (line : string) (orientation_matrix : list float)
  : list float * bool :=
  let parts := Str.split (Str.strip line) in
  if (9 <=? length parts)%nat && Str.isdigit (nth 0 parts "") then
    if (18 <=? length parts)%nat then
      if (18 <? length parts)%nat then
        match all_some (map (fun i => safe_float (nth i parts ""))
                            [13; 14; 15; 16; 17; 18]%nat) with
        | Some orientation_values => (orientation_values, true)
        | None => (orientation_matrix, false)
        end
      else (orientation_matrix, false)
    else (orientation_matrix, false)
  else (orientation_matrix, false).

Definition image_orientation (content : string) (bids_fields : dict) : dict :=
  let orientation_matrix :=
    for_break_pure orientation_body (image_lines content) [] in
  let orientation_matrix :=
    match orientation_matrix with
    | [] => [1; 0; 0; 0; 1; 0]%float
    | _ => orientation_matrix
    end in
  Dict.set "ImageOrientationPatientDICOM" (VList (map VFloat orientation_matrix))
    bids_fields.

Definition tr_patterns : list string :=
  ["Repetition time \[ms\]\s*:\s*([\d.]+)";
   "TR\s*[=:]\s*([\d.]+)";
   "repetition_time\s+([\d.]+)"].

Definition repetition_time (content : string) (bids_fields : dict) : dict :=
  snd (positive_float_loop tr_patterns content
         (fun tr_ms => Dict.set "RepetitionTime" (VFloat (seconds tr_ms)))
         bids_fields).

Definition slices_patterns : list string :=
  ["Max\.\s*number of slices/locations\s*:\s*(\d+)";
   "Max\. number of slices/locations\s*:\s*(\d+)";
   "number of slices\s*[=:]\s*(\d+)"].

(** The state is [n_slices]; no field is stored. *)
Definition number_of_slices_body (content : string) (pattern : string)
  (n_slices : option Z) : py (option Z * bool) :=
  match re_search pattern content [IGNORECASE] with
  | Some m =>
      n_slices <- safe_int (group m 1) ;;
      match n_slices with
      | Some n => ret (n_slices, negb (n =? 0) && (0 <? n))
      | None => ret (n_slices, false)
      end
  | None => ret (n_slices, false)
  end.

Definition number_of_slices (content : string) : py (option Z) :=
  for_break (number_of_slices_body content) slices_patterns None.

Definition orientation_patterns : list string :=
  ["slice orientation \( TRA/SAG/COR \)\s*\(integer\)\s+(\d+)";
   "slice orientation\s*:\s*(\d+)"].

(** The state is [slice_encoding_dir]; the loop ends at the first match. *)
Definition slice_encoding_body (content : string) (pattern : string)
  (slice_encoding_dir : option string) : py (option string * bool) :=
  match re_search pattern content [IGNORECASE] with
  | Some m =>
      orient_code <- safe_int (group m 1) ;;
      ret (match orientation_code orient_code with
           | Some d => Some d
           | None => slice_encoding_dir
           end, true)
  | None => ret (slice_encoding_dir, false)
  end.

Definition slice_encoding_direction (content : string) (bids_fields : dict)
  : py dict :=
  slice_encoding_dir <-
    for_break (slice_encoding_body content) orientation_patterns None ;;
  let slice_encoding_dir :=
    match slice_encoding_dir with Some d => d | None => "k" end in
  ret (Dict.set "SliceEncodingDirection" (VStr slice_encoding_dir) bids_fields).

Definition prep_patterns : list string :=
  ["Preparation direction\s*:\s*([^\n\r]+)";
   "preparation direction\s*:\s*([^\n\r]+)";
   "Phase encoding direction\s*:\s*([^\n\r]+)"].

(** The state is [phase_encoding_dir]; the loop ends at the first match. *)
Definition phase_body (content : string) (pattern : string)
  (phase_encoding_dir : option string) : option string * bool :=
  match re_search pattern content [IGNORECASE] with
  | Some m =>
      let direction := Str.lower (Str.strip (group m 1)) in
      (match direction_code direction with
       | Some c => Some c
       | None => phase_encoding_dir
       end, true)
  | None => (phase_encoding_dir, false)
  end.

Definition phase_encoding_direction (content : string) (bids_fields : dict)
  : dict :=
  let phase_encoding_dir :=
    for_break_pure (phase_body content) prep_patterns None in
  let phase_encoding_dir :=
    match phase_encoding_dir with Some c => c | None => "j-" end in
  Dict.set "PhaseEncodingDirection" (VStr phase_encoding_dir) bids_fields.

Definition wfs_patterns : list string :=
  ["Water Fat shift \[pixels\]\s*:\s*([\d.]+)";
   "water fat shift\s*:\s*([\d.]+)";
   "WFS\s*:\s*([\d.]+)"].

(** The state is [water_fat_shift]; the loop ends at the first match. *)
Definition wfs_body (content : string) (pattern : string)
  (water_fat_shift : option float) : option float * bool :=
  match re_search pattern content [IGNORECASE] with
  | Some m => (safe_float (group m 1), true)
  | None => (water_fat_shift, false)
  end.

Definition recon_patterns : list string :=
  ["recon resolution \(x,?\s*y\)\s*:\s*(\d+)\s+(\d+)";
   "Recon resolution \(x,?\s*y\)\s*:\s*(\d+)\s+(\d+)";
   "Scan resolution\s*\(x,?\s*y\)\s*:\s*(\d+)\s+(\d+)"].

(** The state is [recon_matrix_pe]; the loop ends at the first match. *)
Definition recon_body (content : string) (pattern : string)
  (recon_matrix_pe : option Z) : py (option Z * bool) :=
  match re_search pattern content [IGNORECASE] with
  | Some m =>
      recon_x <- safe_int (group m 1) ;;
      recon_y <- safe_int (group m 2) ;;
      ret (if truthy_int recon_y then recon_y else recon_matrix_pe, true)
  | None => ret (recon_matrix_pe, false)
  end.

(** The fallback of the echo spacing. *)
Definition default_echo_spacing : float := 0.0005.

Definition effective_echo_spacing_value (water_fat_shift : option float)
  (recon_matrix_pe : option Z) : float :=
  if truthy_float water_fat_shift && truthy_int recon_matrix_pe then
    match water_fat_shift, recon_matrix_pe with
    | Some wfs, Some pe =>
        match echo_spacing 434.215 wfs pe with
        | inr ees => ees
        | inl _ => default_echo_spacing
        end
    | _, _ => default_echo_spacing
    end
  else default_echo_spacing.

Definition effective_echo_spacing (content : string) (bids_fields : dict)
  : py dict :=
  let water_fat_shift := for_break_pure (wfs_body content) wfs_patterns None in
  recon_matrix_pe <- for_break (recon_body content) recon_patterns None ;;
  ret (Dict.set "EffectiveEchoSpacing"
         (VFloat (effective_echo_spacing_value water_fat_shift recon_matrix_pe))
         bids_fields).

(** [len([k for k in bids_fields.keys() if not k.startswith('_')])] *)
Definition count_public (bids_fields : dict) : Z :=
  len (List.filter (fun k => negb (Str.startswith "_" k)) (Dict.keys bids_fields)).

Definition processing_info (bids_fields : dict) (now : datetime) : dict :=
  [("ExtractedBy", VStr "nesda_targeted_bids_updater.py");
   ("ExtractionDateTime", VStr (isoformat now));
   ("ProcessedBy", VStr "JulianGaviriaL");
   ("DataCollection", VStr "NESDA");
   ("TargetedSubjects", VInt target_subjects);
   ("AcquisitionType", VStr "interleaved_ascending");
   ("ParametersExtracted", VInt (count_public bids_fields))].

(** The body of the [try] once the file is read. *)
Definition extract_from_text (content : string) (now : datetime) : py dict :=
  let bids_fields : dict := [] in
  let bids_fields := Dict.set "Manufacturer" (VStr "Philips") bids_fields in
  let bids_fields :=
    str_field position_patterns "PatientPosition" "HFS" content bids_fields in
  let bids_fields :=
    str_field series_patterns "SeriesDescription" "fMRI_BOLD_REST" content
      bids_fields in
  let bids_fields :=
    str_field protocol_patterns "ProtocolName" "NESDA_REST_fMRI" content
      bids_fields in
  bids_fields <- int_field series_num_patterns "SeriesNumber" 1 content bids_fields ;;
  bids_fields <- int_field acq_patterns "AcquisitionNumber" 1 content bids_fields ;;
  let bids_fields := Dict.set "ImageComments" (VStr "NESDA") bids_fields in
  let bids_fields := rescale_parameters content bids_fields in
  let bids_fields :=
    Dict.set "UsePhilipsFloatNotDisplayScaling" (VBool true) bids_fields in
  let bids_fields := echo_time content bids_fields in
  let bids_fields := image_orientation content bids_fields in
  let bids_fields := repetition_time content bids_fields in
  n_slices <- number_of_slices content ;;
  bids_fields <- slice_timing_block None n_slices bids_fields ;;
  let bids_fields := Dict.set "TaskName" (VStr "rest") bids_fields in
  bids_fields <- slice_encoding_direction content bids_fields ;;
  let bids_fields := phase_encoding_direction content bids_fields in
  bids_fields <- effective_echo_spacing content bids_fields ;;
  ret (Dict.set "_ProcessingInfo" (VDict (processing_info bids_fields now))
         bids_fields).

(** [extract_complete_philips_params]: [file] is what reading the PAR file
    gives, [None] when it cannot be read; any exception yields [{}]. *)
Definition extract_complete_philips_params (file : option string)
  (now : datetime) : dict :=
  match file with
  | Some content =>
      match extract_from_text content now with
      | inr bids_fields => bids_fields
      | inl _ => []
      end
  | None => []
  end.

End WithRuntime.

(** *** [update_json_with_complete_params] *)

Definition provenance (now : datetime)
  (added_fields updated_fields : list string) : py dict :=
  ret [("ProcessedBy", VStr "JulianGaviriaL");
       ("ProcessingDateTime", VStr (isoformat now));
       ("ProcessingScript", VStr "nesda_targeted_bids_updater.py");
       ("DataCollection", VStr "NESDA");
       ("TargetedProcessing", VBool true);
       ("TargetSubjects", VInt target_subjects);
       ("AcquisitionType", VStr "interleaved_ascending");
       ("FieldsAdded", names added_fields);
       ("FieldsUpdated", names updated_fields)].

Definition update_json_with_complete_params (json_file_path : string)
  (bids_params : dict) (create_backup : bool) (now_backup now_info : datetime)
  (fs : filesystem) : filesystem * update_result :=
  let fs := if create_backup then make_backup json_file_path now_backup fs
            else fs in
  merge_into_file "_NESDAProcessingInfo" (provenance now_info)
                  json_file_path bids_params fs.

(** *** [detect_session_pattern], [find_par_json_pairs],
    [process_target_subject] and the loop of [main] *)

Section Run.
Context {RT : PyRuntime}.
Variable json_text : dict -> string.
Variable clock : nat -> readings.

Definition detect_session_pattern (subject_dir : Path.t) : py (option string) :=
  items <- Path.iterdir subject_dir ;;
  let session_dirs :=
    List.filter (fun item => Path.is_dir (Path.attrs_of item) &&
                             Str.startswith "ses-" (Path.name (Path.attrs_of item)))
                items in
  ret match session_dirs with
      | session_dir :: _ => Some (Path.name (Path.attrs_of session_dir))
      | [] => None
      end.

Definition find_par_json_pairs (func_dir : option Path.t) : py (list file_pair) :=
  find_pairs ["task-rest"; "bold"] func_dir.

Definition process_target_subject (subject_dir : Path.t) (st : run_state)
  : run_state * py totals :=
  match detect_session_pattern subject_dir with
  | inl e => (st, raise e)
  | inr session_name =>
      match session_name with
      | None => (st, ret (0, 0, 0))
      | Some session_name =>
          if negb (Str.truthy session_name) then (st, ret (0, 0, 0)) else
          let session_dir := Path.child (Some subject_dir) session_name in
          let func_dir := Path.child session_dir "func" in
          if negb (Path.path_exists func_dir) then (st, ret (0, 0, 0)) else
          match find_par_json_pairs func_dir with
          | inl e => (st, raise e)
          | inr pairs =>
              if negb (nonempty pairs) then (st, ret (0, 0, 0)) else
              let total_pairs := len pairs in
              let '(st, total_successes, total_failures) :=
                process_pairs json_text clock
                  (fun file _ now => extract_complete_philips_params file now)
                  (fun path bids_params =>
                     update_json_with_complete_params path bids_params true)
                  pairs (st, 0, 0) in
              (st, ret (total_pairs, total_successes, total_failures))
          end
      end
  end.

(** The loop of [main] over the subjects found. *)
Definition main_loop (found_subjects : list Path.t) (st : run_state)
  : run_state * stats :=
  fold_left (tally process_target_subject) found_subjects (st, stats_init).

End Run.

End Targeted.

(** * nesda_single_subject_updater.py *)

Module SingleSubject.
Section WithRuntime.
Context {RT : PyRuntime}.

(** The phase-encoding block of [extract_complete_philips_params]: the
    variable starts at the default and the only pattern ends the loop. *)
Definition phase_body (content : string) (pattern : string)
  (phase_encoding_dir : string) : string * bool :=
  match re_search pattern content [IGNORECASE] with
  | Some m =>
      let direction := Str.lower (Str.strip (group m 1)) in
      (match direction_code direction with
       | Some c => c
       | None => phase_encoding_dir
       end, true)
  | None => (phase_encoding_dir, false)
  end.

Definition phase_encoding_direction (content : string) (bids_fields : dict)
  : dict :=
  let phase_encoding_dir :=
    for_break_pure (phase_body content)
      ["Preparation direction\s*:\s*([^\n\r]+)"] "j-" in
  Dict.set "PhaseEncodingDirection" (VStr phase_encoding_dir) bids_fields.

End WithRuntime.

(** *** [update_json_file]: the backup is not optional here. *)

Definition provenance (now : datetime)
  (added_fields updated_fields : list string) : py dict :=
  ret [("ProcessedBy", VStr "JulianGaviriaL");
       ("ProcessingDateTime", VStr (isoformat now));
       ("Subject", VStr "sub-210456");
       ("Session", VStr "ses-lei02");
       ("SingleSubjectRerun", VBool true);
       ("FieldsAdded", names added_fields);
       ("FieldsUpdated", names updated_fields)].

Definition update_json_file (json_file_path : string) (bids_params : dict)
  (now_backup now_info : datetime) (fs : filesystem)
  : filesystem * update_result :=
  let fs := make_backup json_file_path now_backup fs in
  merge_into_file "_ProcessingInfo" (provenance now_info)
                  json_file_path bids_params fs.

End SingleSubject.

(** * bids_par_json_updater.py *)

Module BidsPar.
Section WithRuntime.
Context {RT : PyRuntime}.

(** The tests of [extract_bids_from_par] on the word after
    "phase encoding direction :". *)
Definition direction_code (direction : string) : option string :=
  if Str.contains "ap" direction || Str.contains "anterior" direction
  then Some "j-"
  else if Str.contains "pa" direction || Str.contains "posterior" direction
  then Some "j"
  else if Str.contains "lr" direction || Str.contains "left" direction
  then Some "i-"
  else if Str.contains "rl" direction || Str.contains "right" direction
  then Some "i"
  else None.

Definition phase_encoding_direction (content : string) (bids_fields : dict)
  : dict :=
  let phase_dir :=
    match re_search "phase encoding direction\s*:\s*(\w+)" content [IGNORECASE] with
    | Some phase_match => direction_code (Str.lower (group phase_match 1))
    | None => None
    end in
  let phase_dir := match phase_dir with Some c => c | None => "j-" end in
  Dict.set "PhaseEncodingDirection" (VStr phase_dir) bids_fields.

(** [safe_float] of this script: a shorter list of placeholders, and the
    text goes to [float] as it is. *)
Definition safe_float (value_str : string) : option float :=
  if negb (Str.truthy value_str)
     || Str.mem (Str.strip value_str) [""; "(float)"; "N/A"; "n/a"]
  then None
  else float_of_str (Str.strip value_str).

Definition safe_int (value_str : string) : py (option Z) :=
  match safe_float value_str with
  | Some val => z <- Fl.to_int val ;; ret (Some z)
  | None => ret None
  end.

(** The loops of [RepetitionTime] and [EchoTime]:
<<
    for pattern in patterns:
        match = re.search(pattern, content, re.IGNORECASE)
        if match:
            ms = safe_float(match.group(1))
            if ms:
                bids_fields[key] = round(ms / 1000.0, 6)
                break
>> *)
Definition seconds_body (content key : string) (pattern : string)
  (bids_fields : dict) : dict * bool :=
  match re_search pattern content [IGNORECASE] with
  | Some m =>
      if truthy_float (safe_float (group m 1)) then
        match safe_float (group m 1) with
        | Some ms => (Dict.set key (VFloat (seconds ms)) bids_fields, true)
        | None => (bids_fields, false)
        end
      else (bids_fields, false)
  | None => (bids_fields, false)
  end.

Definition tr_patterns : list string :=
  ["Repetition time \[ms\]\s*:\s*([\d.]+)";
   "TR\s*:\s*([\d.]+)";
   "rep_time\s+([\d.]+)"].

Definition te_patterns : list string :=
  ["Echo time \[ms\]\s*:\s*([\d.]+)";
   "TE\s*:\s*([\d.]+)";
   "echo_time\s+([\d.]+)";
   "Diffusion echo time \[ms\]\s*:\s*([\d.]+)"].

(** A field stored as it is read, when the number is not zero. *)
Definition float_field (pattern key : string) (content : string)
  (bids_fields : dict) : dict :=
  match re_search pattern content [IGNORECASE] with
  | Some m =>
      if truthy_float (safe_float (group m 1)) then
        match safe_float (group m 1) with
        | Some x => Dict.set key (VFloat x) bids_fields
        | None => bids_fields
        end
      else bids_fields
  | None => bids_fields
  end.

Definition spacing_between_slices (content : string) (bids_fields : dict)
  : py dict :=
  match re_search "slice gap \(in mm \)\s*([\d.]+)" content [IGNORECASE] with
  | Some gap_match =>
      if Dict.mem "SliceThickness" bids_fields then
        match safe_float (group gap_match 1) with
        | Some gap =>
            match Dict.get "SliceThickness" bids_fields with
            | Some (VFloat thickness) =>
                ret (Dict.set "SpacingBetweenSlices"
                       (VFloat (thickness + gap)%float) bids_fields)
            | _ => raise TypeError
            end
        | None => ret bids_fields
        end
      else ret bids_fields
  | None => ret bids_fields
  end.

Definition number_of_slices (content : string) (bids_fields : dict) : py dict :=
  match re_search "Max\. number of slices/locations\s*:\s*(\d+)" content
                  [IGNORECASE] with
  | Some slices_match =>
      n_slices <- safe_int (group slices_match 1) ;;
      if truthy_int n_slices then
        match n_slices with
        | Some n => ret (Dict.set "NumberOfSlices" (VInt n) bids_fields)
        | None => ret bids_fields
        end
      else ret bids_fields
  | None => ret bids_fields
  end.

Definition default_echo_spacing : float := 0.00051.

Definition effective_echo_spacing (content : string) (bids_fields : dict)
  : py dict :=
  let epi_factor_match :=
    re_search "EPI factor\s*(?:<[^>]*>)?\s*:\s*(\d+)" content [IGNORECASE] in
  let recon_match :=
    re_search "Recon resolution \(x, y\)\s*:\s*(\d+)\s+(\d+)" content
              [IGNORECASE] in
  match epi_factor_match, recon_match with
  | Some epi_factor_match, Some recon_match =>
      epi_factor <- safe_int (group epi_factor_match 1) ;;
      recon_y <- safe_int (group recon_match 2) ;;
      if truthy_int epi_factor && truthy_int recon_y
      then ret (Dict.set "EffectiveEchoSpacing" (VFloat default_echo_spacing)
                         bids_fields)
      else ret bids_fields
  | _, _ => ret bids_fields
  end.

(** The number of slice times that precede slice [i]: [i // 2] for an even
    [i] and [(i // 2) + (n_slices + 1) // 2] for an odd one when the order
    is interleaved, [i] when it is sequential. *)
Definition slices_before (interleaved : bool) (n_slices i : Z) : Z :=
  if interleaved then
    if i mod 2 =? 0 then i / 2 else i / 2 + (n_slices + 1) / 2
  else i.

(** [slice_timing.append(round(k * (tr / n_slices), 6))] *)
Definition append_slice_time (interleaved : bool) (tr : float) (n_slices : Z)
  (i : Z) (slice_timing : list float) : py (list float) :=
  time_per_slice <- Fl.div_int tr n_slices ;;
  timing <- Fl.int_times (slices_before interleaved n_slices i) time_per_slice ;;
  ret (slice_timing ++ [Fl.round timing 6])%list.

Definition slice_timing (interleaved : bool) (tr : float) (n_slices : Z)
  : py (list float) :=
  for_each (append_slice_time interleaved tr n_slices) (py_range 0 n_slices 1) [].

Definition slice_timing_block (content : string) (bids_fields : dict) : py dict :=
  if Dict.mem "NumberOfSlices" bids_fields && Dict.mem "RepetitionTime" bids_fields
  then
    match Dict.get "NumberOfSlices" bids_fields,
          Dict.get "RepetitionTime" bids_fields with
    | Some (VInt n_slices), Some (VFloat tr) =>
        let interleaved :=
          match re_search "slice order\s*:\s*(\w+)" content [IGNORECASE] with
          | Some slice_order_match =>
              Str.contains "interleaved" (Str.lower (group slice_order_match 1))
          | None => false
          end in
        slice_timing <- slice_timing interleaved tr n_slices ;;
        ret (Dict.set "SliceTiming" (VList (map VFloat slice_timing)) bids_fields)
    | _, _ => raise TypeError
    end
  else ret bids_fields.

Definition task_name (content : string) (bids_fields : dict) : dict :=
  let task_name :=
    match re_search "Protocol name\s*:\s*(.+)" content [IGNORECASE] with
    | Some protocol_match =>
        let protocol := Str.lower (Str.strip (group protocol_match 1)) in
        if Str.contains "rest" protocol then "rest"
        else if Str.contains "task" protocol then
          match re_search "task[_-]?(\w+)" protocol [] with
          | Some task_match => group task_match 1
          | None => "rest"
          end
        else "rest"
    | None => "rest"
    end in
  Dict.set "TaskName" (VStr task_name) bids_fields.

Definition magnetic_field_strength (content : string) (bids_fields : dict)
  : dict :=
  match re_search "(\d+(?:\.\d+)?)\s*T" content [] with
  | Some field_match =>
      if truthy_float (safe_float (group field_match 1)) then
        match safe_float (group field_match 1) with
        | Some field_strength =>
            Dict.set "MagneticFieldStrength" (VFloat field_strength) bids_fields
        | None => bids_fields
        end
      else bids_fields
  | None => Dict.set "MagneticFieldStrength" (VFloat 3) bids_fields
  end.

(** The body of the [try] once the file is read. *)
Definition extract_from_text (content : string) : py dict :=
  let bids_fields : dict := [] in
  let bids_fields :=
    for_break_pure (seconds_body content "RepetitionTime") tr_patterns
                   bids_fields in
  let bids_fields :=
    for_break_pure (seconds_body content "EchoTime") te_patterns bids_fields in
  let bids_fields :=
    float_field "slice thickness \(in mm \)\s*([\d.]+)" "SliceThickness" content
                bids_fields in
  bids_fields <- spacing_between_slices content bids_fields ;;
  bids_fields <- number_of_slices content bids_fields ;;
  let bids_fields := phase_encoding_direction content bids_fields in
  let bids_fields := Dict.set "SliceEncodingDirection" (VStr "k") bids_fields in
  bids_fields <- effective_echo_spacing content bids_fields ;;
  bids_fields <- slice_timing_block content bids_fields ;;
  let bids_fields := task_name content bids_fields in
  let bids_fields := Dict.set "Manufacturer" (VStr "Philips") bids_fields in
  let bids_fields := magnetic_field_strength content bids_fields in
  let bids_fields :=
    float_field "Flip angle \[degrees\]\s*:\s*([\d.]+)" "FlipAngle" content
                bids_fields in
  let bids_fields :=
    float_field "Water Fat shift \[pixels\]\s*:\s*([\d.]+)" "WaterFatShift"
                content bids_fields in
  ret bids_fields.

(** [extract_bids_from_par]: [file] is what reading the PAR file gives,
    [None] when it cannot be read; any exception yields [{}]. *)
Definition extract_bids_from_par (file : option string) : dict :=
  match file with
  | Some content =>
      match extract_from_text content with
      | inr bids_fields => bids_fields
      | inl _ => []
      end
  | None => []
  end.

End WithRuntime.
(** *** [find_par_json_pairs]: at most one pair, and no test that the
    directory exists. *)

Definition json_words : list string := ["rest"; "bold"; "task"].

Definition task_body (par_files : list Path.attrs) (json_file : Path.attrs)
  (pairs : list file_pair) : list file_pair * bool :=
  let json_name := Str.lower (Path.stem json_file) in
  if Str.contains_any json_words json_name then
    match par_files with
    | par_file :: _ => ((pairs ++ [(par_file, json_file)])%list, true)
    | [] => (pairs, false)
    end
  else (pairs, false).

Definition pair_files (par_files json_files : list Path.attrs) : list file_pair :=
  match par_files, json_files with
  | [par_file], [json_file] => [(par_file, json_file)]
  | par_file :: _, json_file :: _ =>
      let pairs := for_break_pure (task_body par_files) json_files [] in
      if nonempty pairs then pairs else [(par_file, json_file)]
  | _, _ => []
  end.

(** [func_dir] is [None] when the path names nothing. *)
Definition find_par_json_pairs (func_dir : option Path.t) : py (list file_pair) :=
  match func_dir with
  | Some func_path =>
      entries <- Path.iterdir func_path ;;
      let par_files := List.filter is_par_file (map Path.attrs_of entries) in
      entries <- Path.iterdir func_path ;;
      let json_files := List.filter is_json_file (map Path.attrs_of entries) in
      ret (pair_files par_files json_files)
  | None => raise OSError
  end.

(** *** [update_bids_json]: every field is merged, and the result is a
    truth value. *)

Definition provenance (now : datetime) (added_fields updated_fields : list string)
  (original_fields final_fields : Z) : dict :=
  [("ProcessedBy", VStr "JulianGaviriaL");
   ("ProcessingDateTime", VStr (strftime_utc now));
   ("ProcessingScript", VStr "bids_par_json_updater_fixed.py");
   ("FieldsAdded", names added_fields);
   ("FieldsUpdated", names updated_fields);
   ("OriginalFieldCount", VInt original_fields);
   ("FinalFieldCount", VInt final_fields)].

Definition update_bids_json (json_file_path : string) (bids_params : dict)
  (create_backup : bool) (now_backup now_info : datetime) (fs : filesystem)
  : filesystem * bool :=
  let fs := if create_backup then make_backup json_file_path now_backup fs
            else fs in
  match json_load json_file_path fs with
  | inl _ => (fs, false)
  | inr json_data =>
      let original_fields := len json_data in
      let '(json_data, added_fields, updated_fields) :=
        merge_fields false bids_params json_data in
      let info := provenance now_info added_fields updated_fields
                             original_fields (len json_data) in
      let json_data := Dict.set "_BIDSProcessingInfo" (VDict info) json_data in
      match json_dump json_data json_file_path fs with
      | inr fs' => (fs', true)
      | inl _ => (fs, false)
      end
  end.

End BidsPar.

(** * A concrete runtime

    The statements below hold for every [PyRuntime].  To run the extractors
    on sample headers this section gives one instance: a backtracking
    matcher for the fragment of the regular-expression syntax the scripts
    use, and decimal parsers for [float(s)] and [int(s)]. *)

Module Re.

Inductive regex : Type :=
| Eps
| Chr (p : ascii -> bool)
| Seq (r1 r2 : regex)
| Alt (r1 r2 : regex)
| Star (greedy : bool) (r : regex)
| Group (i : nat) (r : regex)
| Look (r : regex)
| EndAnchor.

(** Captured groups, the latest capture of a group first. *)
Definition caps : Type := list (nat * string).

Fixpoint skip (n : nat) (s : string) : string :=
  match n, s with
  | S n', String _ s' => skip n' s'
  | _, _ => s
  end.

Fixpoint take (n : nat) (s : string) : string :=
  match n, s with
  | S n', String c s' => String c (take n' s')
  | _, _ => EmptyString
  end.

(** [run text r s pos c k]: match [r] against [s], the rest of [text] from
    offset [pos], and hand what is left to the continuation [k]; the first
    alternative that lets [k] succeed wins. *)
Fixpoint run (text : string) (r : regex) (s : string) (pos : nat) (c : caps)
  (k : string -> nat -> caps -> option caps) {struct r} : option caps :=
  match r with
  | Eps => k s pos c
  | Chr p =>
      match s with
      | String a s' => if p a then k s' (S pos) c else None
      | EmptyString => None
      end
  | Seq r1 r2 => run text r1 s pos c (fun s' pos' c' => run text r2 s' pos' c' k)
  | Alt r1 r2 =>
      match run text r1 s pos c k with
      | Some x => Some x
      | None => run text r2 s pos c k
      end
  | Star greedy r' =>
      (fix loop (fuel : nat) (s : string) (pos : nat) (c : caps) {struct fuel}
         : option caps :=
         match fuel with
         | O => k s pos c
         | S fuel' =>
             let again :=
               run text r' s pos c
                 (fun s' pos' c' =>
                    if Nat.eqb pos' pos then None else loop fuel' s' pos' c') in
             if greedy then
               match again with Some x => Some x | None => k s pos c end
             else
               match k s pos c with Some x => Some x | None => again end
         end) (S (String.length s)) s pos c
  | Group i r' =>
      run text r' s pos c
        (fun s' pos' c' => k s' pos' ((i, take (pos' - pos) (skip pos text)) :: c'))
  | Look r' =>
      match run text r' s pos c (fun _ _ c' => Some c') with
      | Some c' => k s pos c'
      | None => None
      end
  | EndAnchor =>
      match s with
      | EmptyString => k s pos c
      | String a EmptyString => if Ascii.eqb a "010" then k s pos c else None
      | _ => None
      end
  end.

Record flags : Type := mk_flags { ignorecase : bool; dotall : bool }.

Definition is_word (c : ascii) : bool :=
  Str.is_digit c || Str.is_upper c || Str.is_lower c || Ascii.eqb c "_".

Definition fold_case (fl : flags) (p : ascii -> bool) : ascii -> bool :=
  if ignorecase fl
  then fun x => p x || p (Str.lower_char x) || p (Str.upper_char x)
  else p.

(** The class named by the character after a backslash. *)
Definition escape (c : ascii) : ascii -> bool :=
  if Ascii.eqb c "s" then Str.is_space
  else if Ascii.eqb c "d" then Str.is_digit
  else if Ascii.eqb c "w" then is_word
  else if Ascii.eqb c "n" then Ascii.eqb "010"
  else if Ascii.eqb c "r" then Ascii.eqb "013"
  else if Ascii.eqb c "t" then Ascii.eqb "009"
  else Ascii.eqb c.

Definition in_range (lo hi x : ascii) : bool :=
  ((Str.code lo <=? Str.code x) && (Str.code x <=? Str.code hi))%nat.

(** The items of a bracket set up to the closing bracket. *)
Fixpoint parse_set (fuel : nat) (s : string) (acc : ascii -> bool)
  : option ((ascii -> bool) * string) :=
  match fuel with
  | O => None
  | S f =>
      match s with
      | EmptyString => None
      | String c rest =>
          if Ascii.eqb c "]" then Some (acc, rest)
          else if Ascii.eqb c "\" then
            match rest with
            | String e rest' =>
                parse_set f rest' (fun x => acc x || escape e x)
            | EmptyString => None
            end
          else
            match rest with
            | String d (String hi rest') =>
                if Ascii.eqb d "-" && negb (Ascii.eqb hi "]")
                then parse_set f rest' (fun x => acc x || in_range c hi x)
                else parse_set f rest (fun x => acc x || Ascii.eqb c x)
            | _ => parse_set f rest (fun x => acc x || Ascii.eqb c x)
            end
      end
  end.

Fixpoint repeat_seq (n : nat) (r : regex) : regex :=
  match n with
  | O => Eps
  | S n' => Seq r (repeat_seq n' r)
  end.

Fixpoint parse_nat (s : string) (acc : nat) : nat * string :=
  match s with
  | String c rest =>
      if Str.is_digit c
      then parse_nat rest (10 * acc + (Str.code c - 48))%nat else (acc, s)
  | EmptyString => (acc, s)
  end.

(** A quantifier after the atom [a], if any; a question mark after it makes
    it lazy. *)
Definition parse_quant (a : regex) (s : string) : regex * string :=
  let lazy rest :=
    match rest with
    | String q rest' => if Ascii.eqb q "?" then (false, rest') else (true, rest)
    | EmptyString => (true, rest)
    end in
  match s with
  | String c rest =>
      if Ascii.eqb c "*" then
        let (g, rest') := lazy rest in (Star g a, rest')
      else if Ascii.eqb c "+" then
        let (g, rest') := lazy rest in (Seq a (Star g a), rest')
      else if Ascii.eqb c "?" then
        let (g, rest') := lazy rest in
        (if g then Alt a Eps else Alt Eps a, rest')
      else if Ascii.eqb c "{" then
        let (n, rest') := parse_nat rest 0 in
        match rest' with
        | String _ rest'' => (repeat_seq n a, rest'')
        | EmptyString => (a, s)
        end
      else (a, s)
  | EmptyString => (a, s)
  end.

(** What a parser returns: the expression, the rest of the pattern and the
    number of groups opened so far. *)
Definition parsed : Type := option (regex * string * nat).

Definition close_paren (wrap : regex -> regex) (p : parsed) : parsed :=
  match p with
  | Some (r, String c rest, g1) =>
      if Ascii.eqb c ")" then Some (wrap r, rest, g1) else None
  | _ => None
  end.

Fixpoint parse_alt (fuel : nat) (fl : flags) (s : string) (g : nat) : parsed :=
  match fuel with
  | O => None
  | S f =>
      match parse_seq f fl s g with
      | Some (r1, String c rest, g1) =>
          if Ascii.eqb c "|" then
            match parse_alt f fl rest g1 with
            | Some (r2, rest', g2) => Some (Alt r1 r2, rest', g2)
            | None => None
            end
          else Some (r1, String c rest, g1)
      | other => other
      end
  end
with parse_seq (fuel : nat) (fl : flags) (s : string) (g : nat) : parsed :=
  match fuel with
  | O => None
  | S f =>
      match s with
      | EmptyString => Some (Eps, s, g)
      | String c _ =>
          if Ascii.eqb c "|" || Ascii.eqb c ")" then Some (Eps, s, g)
          else
            match parse_atom f fl s g with
            | Some (a, rest, g1) =>
                let (a', rest') := parse_quant a rest in
                match parse_seq f fl rest' g1 with
                | Some (r, rest'', g2) => Some (Seq a' r, rest'', g2)
                | None => None
                end
            | None => None
            end
      end
  end
with parse_atom (fuel : nat) (fl : flags) (s : string) (g : nat) : parsed :=
  match fuel with
  | O => None
  | S f =>
      match s with
      | EmptyString => None
      | String c rest =>
          if Ascii.eqb c "(" then
            match rest with
            | String q (String m rest') =>
                if Ascii.eqb q "?" then
                  if Ascii.eqb m ":"
                  then close_paren (fun r => r) (parse_alt f fl rest' g)
                  else if Ascii.eqb m "="
                  then close_paren Look (parse_alt f fl rest' g)
                  else None
                else close_paren (Group (S g)) (parse_alt f fl rest (S g))
            | _ => close_paren (Group (S g)) (parse_alt f fl rest (S g))
            end
          else if Ascii.eqb c "[" then
            match rest with
            | String n rest' =>
                if Ascii.eqb n "^" then
                  match parse_set f rest' (fun _ => false) with
                  | Some (p, rest'') =>
                      Some (Chr (fun x => negb (fold_case fl p x)), rest'', g)
                  | None => None
                  end
                else
                  match parse_set f rest (fun _ => false) with
                  | Some (p, rest'') => Some (Chr (fold_case fl p), rest'', g)
                  | None => None
                  end
            | EmptyString => None
            end
          else if Ascii.eqb c "\" then
            match rest with
            | String e rest' => Some (Chr (fold_case fl (escape e)), rest', g)
            | EmptyString => None
            end
          else if Ascii.eqb c "." then
            Some (Chr (fun x => dotall fl || negb (Ascii.eqb x "010")), rest, g)
          else if Ascii.eqb c "$" then Some (EndAnchor, rest, g)
          else Some (Chr (fold_case fl (Ascii.eqb c)), rest, g)
      end
  end.

(** The expression of a pattern and its number of groups. *)
Definition compile (fl : flags) (pattern : string) : option (regex * nat) :=
  match parse_alt (4 * String.length pattern + 4) fl pattern 0 with
  | Some (r, EmptyString, g) => Some (r, g)
  | _ => None
  end.

Fixpoint lookup (i : nat) (c : caps) : string :=
  match c with
  | [] => ""
  | (j, s) :: c' => if Nat.eqb i j then s else lookup i c'
  end.

(** The match at offset [pos], if any. *)
Definition match_at (text : string) (r : regex) (s : string) (pos : nat)
  : option caps :=
  run text r s pos []
      (fun _ pos' c => Some ((O, take (pos' - pos) (skip pos text)) :: c)).

(** The leftmost match from offset [pos] on. *)
Fixpoint search_from (text : string) (r : regex) (s : string) (pos : nat)
  {struct s} : option caps :=
  match match_at text r s pos with
  | Some c => Some c
  | None =>
      match s with
      | String _ s' => search_from text r s' (S pos)
      | EmptyString => None
      end
  end.

Definition groups (g : nat) (c : caps) : re_match :=
  map (fun i => lookup i c) (seq 0 (S g)).

Definition search (pattern text : string) (fl : list re_flag)
  : option re_match :=
  let fl := mk_flags (existsb (fun f => match f with IGNORECASE => true | _ => false end) fl)
                     (existsb (fun f => match f with DOTALL => true | _ => false end) fl) in
  match compile fl pattern with
  | Some (r, g) =>
      match search_from text r text 0 with
      | Some c => Some (groups g c)
      | None => None
      end
  | None => None
  end.

End Re.

Module Parse.

(** A run of digits, single underscores allowed between two digits: the
    value, the number of digits and the rest. *)
Fixpoint digits (s : string) (acc : Z) (n : nat) : Z * nat * string :=
  match s with
  | String c rest =>
      if Str.is_digit c
      then digits rest (10 * acc + Z.of_nat (Str.code c - 48)) (S n)
      else if Ascii.eqb c "_" then
        match n, rest with
        | S _, String d rest' =>
            if Str.is_digit d
            then digits rest' (10 * acc + Z.of_nat (Str.code d - 48)) (S n)
            else (acc, n, s)
        | _, _ => (acc, n, s)
        end
      else (acc, n, s)
  | EmptyString => (acc, n, s)
  end.

Definition sign (s : string) : bool * string :=
  match s with
  | String c rest =>
      if Ascii.eqb c "-" then (true, rest)
      else if Ascii.eqb c "+" then (false, rest)
      else (false, s)
  | EmptyString => (false, s)
  end.

(** [int(s)] in base ten. *)
Definition int_of_str (s : string) : option Z :=
  let (neg, body) := sign (Str.strip s) in
  match digits body 0 0 with
  | (v, S _, EmptyString) => Some (if neg then - v else v)
  | _ => None
  end.

Definition exponent (s : string) : option Z :=
  match s with
  | EmptyString => Some 0
  | String c rest =>
      if Ascii.eqb (Str.lower_char c) "e" then
        let (neg, body) := sign rest in
        match digits body 0 0 with
        | (v, S _, EmptyString) => Some (if neg then - v else v)
        | _ => None
        end
      else None
  end.

(** [float(s)]: the float nearest to the decimal. *)
Definition float_of_str (s : string) : option float :=
  let (neg, body) := sign (Str.strip s) in
  let signed (x : float) := if neg then (- x)%float else x in
  let word := Str.lower body in
  if String.eqb word "inf" || String.eqb word "infinity" then Some (signed infinity)
  else if String.eqb word "nan" then Some nan
  else
    let '(int_part, n1, rest) := digits body 0 0 in
    let '(mantissa, n2, rest) :=
      match rest with
      | String c rest' =>
          if Ascii.eqb c "." then
            match n1, rest' with
            | O, String u _ =>
                if Ascii.eqb u "_" then (0, O, rest) else digits rest' int_part 0
            | _, _ => digits rest' int_part 0
            end
          else (int_part, O, rest)
      | EmptyString => (int_part, O, rest)
      end in
    match (n1 + n2)%nat, exponent rest with
    | S _, Some e =>
        let e10 := e - Z.of_nat n2 in
        Some (signed (if 0 <=? e10 then Fl.nearest (mantissa * 10 ^ e10) 1
                      else Fl.nearest mantissa (10 ^ (- e10))))
    | _, _ => None
    end.

End Parse.

Definition py_rt : PyRuntime :=
  {| re_search := Re.search;
     float_of_str := Parse.float_of_str;
     int_of_str := Parse.int_of_str |}.

(** * Sample data *)

Module Sample.

(** A PAR header of the Amsterdam/Leiden dialect: repetition time 3000 ms,
    six slices, water-fat shift 10 pixels, an 80 x 80 matrix. *)
Definition header : string := "# === DATA DESCRIPTION FILE ======================================================
#
# CAUTION - Investigational device.
# Dataset name: sub-110520_task-rest
#
# CLINICAL TRYOUT             Research image export tool     V4.2
#
# === GENERAL INFORMATION ========================================================
#
.    Patient name                       :   NESDA_LUMC_110293
.    Examination name                   :   NESDA 110293 rs
.    Protocol name                      :   WIP fMRI_resting SENSE
.    Series Type                        :   Image   MRSERIES
.    Acquisition nr                     :   7
.    Max. number of slices/locations    :   6
.    Patient position                   :   Head First Supine
.    Preparation direction              :   Anterior-Posterior
.    Technique                          :   FEEPI
.    Scan resolution  (x, y)            :   80  80
.    Repetition time [ms]               :   3000.00
.    Water Fat shift [pixels]           :   10.000
#
# === IMAGE INFORMATION ==========================================================
#  sl ec dyn ph ty  idx pix scan% rec size (re)scale window angulation offcentre
 1 1 1 1 0 2 0 16 62 80 0.00000 1.98242 3.71795e-03 1070 1860 -2.05 0.62 -1.33 4.810 -21.504 -21.419 3.000 0.300 0 1 0 2 2.750 2.750 30.00
 2 1 1 1 0 2 1 16 62 80 0.00000 1.98242 3.71795e-03 1070 1860 -2.05 0.62 -1.33 4.810 -21.504 -21.419 3.000 0.300 0 1 0 2 2.750 2.750 30.00
# === END OF DATA DESCRIPTION FILE ===============================================
".

(** A header of the Groningen dialect whose patient name carries an
    Amsterdam token. *)
Definition header_v41 : string :=
  "# CLINICAL TRYOUT             Research image export tool     V4.1
.    Patient name                       :   VUMC AMSTERDAM 0042
.    Examination name                   :   NESDA 110639
".

Definition par_path : string := "sub-110520/ses-1/func/sub-110520_task-rest_bold.PAR".
Definition json_path : string := "sub-110520/ses-1/func/sub-110520_task-rest_bold.json".

Definition t1 : datetime := mk_datetime 2025 9 10 14 19 55 0.
Definition t2 : datetime := mk_datetime 2025 9 10 14 20 7 250000.

(** The sidecar before the merge. *)
Definition sidecar : dict :=
  [("Modality", VStr "MR");
   ("RepetitionTime", VFloat 2);
   ("TaskName", VStr "rest");
   ("MagneticFieldStrength", VInt 3)].

Definition fs0 : filesystem := mk_fs {[ json_path := FileJson sidecar ]} ∅.

(** What the batch extractor returns on [header]. *)
Definition bids_params : dict :=
  Eval vm_compute in
    @Batch.extract_philips_bids_3sites py_rt (Some header) par_path t1.

(** A participant directory with one session. *)

Definition par_file : Path.attrs :=
  Path.mk_attrs par_path "sub-110520_task-rest_bold.PAR"
    "sub-110520_task-rest_bold" ".PAR" true true false.

Definition json_file : Path.attrs :=
  Path.mk_attrs json_path "sub-110520_task-rest_bold.json"
    "sub-110520_task-rest_bold" ".json" true true false.

Definition survey_par : Path.attrs :=
  Path.mk_attrs "sub-110520/ses-1/func/survey.PAR" "survey.PAR" "survey" ".PAR"
    true true false.

Definition events_json : Path.attrs :=
  Path.mk_attrs "sub-110520/ses-1/func/sub-110520_task-rest_events.json"
    "sub-110520_task-rest_events.json" "sub-110520_task-rest_events" ".json"
    true true false.

Definition backup_file : Path.attrs :=
  Path.mk_attrs (backup_path json_path t1)
    "sub-110520_task-rest_bold.json.backup_20250910_141955"
    "sub-110520_task-rest_bold.json" ".backup_20250910_141955" true true false.

Definition func_dir : Path.t :=
  Path.Entry
    (Path.mk_attrs "sub-110520/ses-1/func" "func" "func" "" true false true)
    [Path.Entry survey_par []; Path.Entry par_file [];
     Path.Entry backup_file []; Path.Entry json_file [];
     Path.Entry events_json []].

Definition session_dir : Path.t :=
  Path.Entry (Path.mk_attrs "sub-110520/ses-1" "ses-1" "ses-1" "" true false true)
             [func_dir].

Definition participant_dir : Path.t :=
  Path.Entry (Path.mk_attrs "sub-110520" "sub-110520" "sub-110520" "" true false true)
             [session_dir].

(** The sidecar and the PAR file it is filled from. *)
Definition fs1 : filesystem :=
  mk_fs {[ json_path := FileJson sidecar;
           par_path := FileOther header ]} ∅.

Definition clock (n : nat) : readings := (t1, t1, t2).

Definition json_text (d : dict) : string := "{}".

End Sample.

(** * Vocabulary of the statements

    Closed forms of the loops, the classification of the fields of a merge
    and the sample inputs the statements below refer to. *)

Definition private (k : string) : bool := Str.startswith "_" k.

(** What one field does to the entry of its own key. *)
Definition merged_value (old : option value) (v : value) : value :=
  match old with
  | None => v
  | Some o => if py_ne o v then v else o
  end.

Definition is_added (doc : dict) (item : string * value) : bool :=
  negb (private (fst item)) && negb (Dict.mem (fst item) doc).

Definition is_updated (doc : dict) (item : string * value) : bool :=
  negb (private (fst item)) &&
  match Dict.get (fst item) doc with
  | Some old => py_ne old (snd item)
  | None => false
  end.

(** The names the loop appends to [added_fields] and [updated_fields]. *)
Definition adds (doc params : dict) : list string := map fst (List.filter (is_added doc) params).
Definition updates (doc params : dict) : list string := map fst (List.filter (is_updated doc) params).


Fixpoint distinct (l : list string) : bool :=
  match l with
  | [] => true
  | x :: l' => negb (Str.mem x l') && distinct l'
  end.

(** The entry [field] of the provenance block stored under [key]. *)
Definition provenance_field (key field : string) (doc : dict) : option value :=
  match Dict.get key doc with
  | Some (VDict info) => Dict.get field info
  | _ => None
  end.

(** The slice acquired at position [j]. *)
Definition slice_at (n : Z) (j : nat) : Z :=
  if (j <? Z.to_nat ((n + 1) / 2))%nat then 2 * Z.of_nat j
  else 2 * Z.of_nat (j - Z.to_nat ((n + 1) / 2)) + 1.

(** The rank of a slice: even slices come first. *)
Definition rank_of (n s : Z) : nat :=
  if Z.even s then Z.to_nat (s / 2)
  else (Z.to_nat ((n + 1) / 2) + Z.to_nat (s / 2))%nat.

(** The worked example of the specification, as a list of floats. *)
Definition spec_example_timing : value :=
  VList (map VFloat [0; 1; 2; 0.5; 1.5; 2.5]%float).

(** The formula of the specification on floats:
    [round(1 / ((434.215 / wfs) * reconY), 8)]. *)
Definition spec_echo_spacing (wfs : float) (recon_y : Z) : float :=
  Fl.round (1 / ((434.215 / wfs) * Fl.of_Z recon_y))%float 8.

(** A header whose water-fat shift is a one followed by four hundred zeros:
    [float] reads it as [inf]. *)
Definition header_huge_shift : string :=
  ".    Water Fat shift [pixels]           :   1" +:+ zeros 400 +:+ "
.    Scan resolution  (x, y)            :   80  80
".

(** The only operation of [detect_nesda_site] that can raise is [int] on the
    three digits captured from the examination name; this is what a run-time
    library must provide for the detection to be free of exceptions. *)
Definition int_accepts_subject_digits (RT : PyRuntime) : Prop :=
  forall text m,
    re_search "110(\d{3})" text [] = Some m -> int_of_str (group m 1) <> None.

(** The expression of the pattern [110(\d{3})]. *)
Definition subject_regex : Re.regex :=
  Re.Seq (Re.Chr (Ascii.eqb "1")) (Re.Seq (Re.Chr (Ascii.eqb "1"))
    (Re.Seq (Re.Chr (Ascii.eqb "0"))
       (Re.Seq (Re.Group 1
                  (Re.Seq (Re.repeat_seq 3 (Re.Chr Str.is_digit)) Re.Eps))
               Re.Eps))).

(** The code of the text a pattern captured, and the first code of a list:
    the loop of the batch extractor in closed form. *)
Definition code_of_match (m : option re_match) : option string :=
  match m with
  | Some m => direction_code (Str.lower (Str.strip (group m 1)))
  | None => None
  end.

Fixpoint first_some {A : Type} (l : list (option A)) : option A :=
  match l with
  | [] => None
  | Some a :: _ => Some a
  | None :: l' => first_some l'
  end.

(** The first match of a list of searches: the loop of the targeted
    extractor, which ends at the first pattern that matches at all. *)
Definition first_match {RT : PyRuntime} (patterns : list string)
  (content : string) : option re_match :=
  first_some (map (fun p => re_search p content [IGNORECASE]) patterns).

(** A header that holds the preparation direction [text] and nothing else. *)
Definition prep_line (text : string) : string :=
  ".    Preparation direction              :   " +:+ text +:+ "
".

(** The same for the line [bids_par_json_updater.py] looks for. *)
Definition phase_line (text : string) : string :=
  ".    Phase encoding direction           :   " +:+ text +:+ "
".

Definition sample_directions : list string :=
  ["Anterior-Posterior"; "Posterior-Anterior"; "Left-Right"; "Right-Left";
   "AP"; "pa"; "Feet-Head"].

(** The first value a pattern list gives that passes [x and x > 0]. *)
Definition positive_value {RT : PyRuntime} (content pattern : string) : option float :=
  match re_search pattern content [IGNORECASE] with
  | Some m =>
      match safe_float (group m 1) with
      | Some x => if positive (Some x) then Some x else None
      | None => None
      end
  | None => None
  end.

(** A header whose series number has four hundred digits: [float] reads it
    as [inf] and [int] of it raises. *)
Definition header_huge_series : string :=
  ".    Series nr                          :   1" +:+ zeros 400 +:+ "
".

(** The five fields of a field set. *)
Definition guaranteed_fields (fields : dict) : list (option value) :=
  map (fun k => Dict.get k fields)
      ["Manufacturer"; "TaskName"; "EchoTime"; "EffectiveEchoSpacing";
       "PhaseEncodingDirection"].

(** ** Vocabulary of the further properties *)


(** What the three methods of the V4.2 branch keep: the version and the
    group, and a site that is undecided with low confidence or decided with
    high or medium confidence. *)
Definition v42_stage (tool_version' : string) (sites : list string)
  (s : site_info) : Prop :=
  tool_version s = tool_version' /\ version s = "V" +:+ tool_version' /\
  site_group s = "AmsLei" /\
  ((actual_site s = "unknown" /\ confidence s = "low") \/
   (In (actual_site s) sites /\ In (confidence s) ["high"; "medium"])).

(** Shapes of values. *)
Definition is_float (v : value) : bool :=
  match v with VFloat _ => true | _ => false end.
Definition is_positive_float (v : value) : bool :=
  match v with VFloat x => positive (Some x) | _ => false end.
Definition is_nonzero_float (v : value) : bool :=
  match v with VFloat x => Fl.truthy x | _ => false end.
Definition is_nonzero_int (v : value) : bool :=
  match v with VInt n => negb (n =? 0) | _ => false end.
Definition is_positive_int (v : value) : bool :=
  match v with VInt n => 0 <? n | _ => false end.
Definition is_one_of (l : list string) (v : value) : bool :=
  match v with VStr s => Str.mem s l | _ => false end.
Definition is_text (v : value) : bool :=
  match v with VStr s => Str.truthy s | _ => false end.
Definition is_float_list (v : value) : bool :=
  match v with VList l => forallb is_float l | _ => false end.
Definition is_dict (v : value) : bool :=
  match v with VDict _ => true | _ => false end.

(** A schema gives the shape of the value of each key it lists. *)
Definition schema : Type := list (string * (value -> bool)).

Fixpoint shape_of (k : string) (s : schema) : option (value -> bool) :=
  match s with
  | [] => None
  | (k', p) :: s' => if String.eqb k k' then Some p else shape_of k s'
  end.

Definition conforms_to (s : schema) (k : string) (v : value) : bool :=
  match shape_of k s with Some p => p v | None => false end.

(** The fields [extract_philips_bids_3sites] can store. *)
Definition batch_schema : schema :=
  [("_SiteInfo", is_dict);
   ("RepetitionTime", is_float);
   ("EchoTime", is_float);
   ("NumberOfSlices", is_positive_int);
   ("SliceTiming", is_float_list);
   ("_SliceTimingMethod", is_one_of ["interleaved_ascending_from_bottom"]);
   ("SliceEncodingDirection", is_one_of ["k"; "i"; "j"]);
   ("PhaseEncodingDirection", is_one_of ["j-"; "j"; "i-"; "i"]);
   ("WaterFatShift", is_positive_float);
   ("ReconMatrixPE", is_nonzero_int);
   ("ReconMatrixFE", is_nonzero_int);
   ("EffectiveEchoSpacing", is_float);
   ("SliceThickness", is_positive_float);
   ("FlipAngle", is_positive_float);
   ("TaskName", is_one_of ["rest"; "nback"; "faces"]);
   ("Manufacturer", is_one_of ["Philips"]);
   ("_ProcessingInfo", is_dict)].

(** [I] survives the assignment of a value of shape [p] to the key [k]. *)
Definition stable (I : dict -> Prop) (k : string) (p : value -> bool) : Prop :=
  forall v g, p v = true -> I g -> I (Dict.set k v g).

(** Every entry of [f] has the shape the schema gives its key. *)
Definition conforms (s : schema) (f : dict) : Prop :=
  forall k v, Dict.get k f = Some v -> conforms_to s k v = true.


Definition is_true (v : value) : bool :=
  match v with VBool true => true | _ => false end.
Definition is_six_floats (v : value) : bool :=
  match v with
  | VList l => Nat.eqb (length l) 6 && forallb is_float l
  | _ => false
  end.

(** The fields [extract_complete_philips_params] of the targeted script
    can store. *)
Definition targeted_schema : schema :=
  [("Manufacturer", is_one_of ["Philips"]);
   ("PatientPosition", is_text);
   ("SeriesDescription", is_text);
   ("ProtocolName", is_text);
   ("SeriesNumber", is_nonzero_int);
   ("AcquisitionNumber", is_nonzero_int);
   ("ImageComments", is_one_of ["NESDA"]);
   ("PhilipsRescaleSlope", is_nonzero_float);
   ("PhilipsRescaleIntercept", is_float);
   ("PhilipsScaleSlope", is_nonzero_float);
   ("UsePhilipsFloatNotDisplayScaling", is_true);
   ("EchoTime", is_float);
   ("ImageOrientationPatientDICOM", is_six_floats);
   ("RepetitionTime", is_float);
   ("SliceTiming", is_float_list);
   ("TaskName", is_one_of ["rest"]);
   ("SliceEncodingDirection", is_one_of ["k"; "i"; "j"]);
   ("PhaseEncodingDirection", is_one_of ["j-"; "j"; "i-"; "i"]);
   ("EffectiveEchoSpacing", is_float);
   ("_ProcessingInfo", is_dict)].

(** The keys it always stores: all but the repetition time and the slice
    timing. *)
Definition targeted_required : list string :=
  ["Manufacturer"; "PatientPosition"; "SeriesDescription"; "ProtocolName";
   "SeriesNumber"; "AcquisitionNumber"; "ImageComments"; "PhilipsRescaleSlope";
   "PhilipsRescaleIntercept"; "PhilipsScaleSlope";
   "UsePhilipsFloatNotDisplayScaling"; "EchoTime";
   "ImageOrientationPatientDICOM"; "TaskName"; "SliceEncodingDirection";
   "PhaseEncodingDirection"; "EffectiveEchoSpacing"; "_ProcessingInfo"].

(** Every key of [l] has an entry. *)
Definition present (l : list string) (g : dict) : Prop :=
  forall k, In k l -> Dict.get k g <> None.

(** The public keys of a field set. *)
Definition public_keys (f : dict) : list string :=
  List.filter (fun k => negb (Str.startswith "_" k)) (Dict.keys f).

(** The sidecars whose stem holds one of the words. *)
Definition task_files (json_words : list string) (json_files : list Path.attrs)
  : list Path.attrs :=
  List.filter (fun f => Str.contains_any json_words (Str.lower (Path.stem f)))
              json_files.

(** What the loop keeps of the statistics. *)
Definition tally_ok (s : stats) : Prop :=
  pairs s = successes s + failures s /\
  0 <= processed s <= pairs s /\ 0 <= skipped s /\
  0 <= successes s /\ 0 <= failures s.

Definition is_string (v : value) : bool :=
  match v with VStr _ => true | _ => false end.

Definition is_float_value (x : float) (v : value) : bool :=
  match v with VFloat y => PrimFloat.eqb y x | _ => false end.

(** The fields [extract_bids_from_par] can store. *)
Definition bidspar_schema : schema :=
  [("RepetitionTime", is_float);
   ("EchoTime", is_float);
   ("SliceThickness", is_nonzero_float);
   ("SpacingBetweenSlices", is_float);
   ("NumberOfSlices", is_nonzero_int);
   ("PhaseEncodingDirection", is_one_of ["j-"; "j"; "i-"; "i"]);
   ("SliceEncodingDirection", is_one_of ["k"]);
   ("EffectiveEchoSpacing", is_float_value 0.00051);
   ("SliceTiming", is_float_list);
   ("TaskName", is_string);
   ("Manufacturer", is_one_of ["Philips"]);
   ("MagneticFieldStrength", is_nonzero_float);
   ("FlipAngle", is_nonzero_float);
   ("WaterFatShift", is_nonzero_float)].

(** The keys it always stores. *)
Definition bidspar_required : list string :=
  ["PhaseEncodingDirection"; "SliceEncodingDirection"; "TaskName"; "Manufacturer"].

(** The fields stored before the slice timing. *)
Definition bidspar_early_schema : schema :=
  [("RepetitionTime", is_float);
   ("EchoTime", is_float);
   ("SliceThickness", is_nonzero_float);
   ("SpacingBetweenSlices", is_float);
   ("NumberOfSlices", is_nonzero_int);
   ("PhaseEncodingDirection", is_one_of ["j-"; "j"; "i-"; "i"]);
   ("SliceEncodingDirection", is_one_of ["k"]);
   ("EffectiveEchoSpacing", is_float_value 0.00051)].

(** Statistics that add up for [n] subjects. *)
Definition stats_add_up (n : Z) (s : stats) : Prop :=
  processed s + skipped s = n /\
  pairs s = successes s + failures s /\
  0 <= processed s <= pairs s /\ 0 <= skipped s /\
  0 <= successes s /\ 0 <= failures s.

(** The keys [extract_philips_bids_w6] always stores. *)
Definition w6_required : list string :=
  ["_SiteInfo"; "SliceEncodingDirection"; "Manufacturer"; "_ProcessingInfo"].

(** * Properties *)

(** ** Dictionaries *)

Section DictFacts.
Implicit Types (d : dict) (k : string) (v : value).

Lemma get_set d k k' v :
  Dict.get k (Dict.set k' v d) = if String.eqb k k' then Some v else Dict.get k d.
Proof.
  induction d as [|[k0 v0] d IH]; simpl.
  - destruct (String.eqb k k'); reflexivity.
  - destruct (String.eqb k' k0) eqn:E0; simpl.
    + apply String.eqb_eq in E0; subst k0.
      destruct (String.eqb k k'); reflexivity.
    + destruct (String.eqb k k0) eqn:E1.
      * apply String.eqb_eq in E1; subst k0.
        rewrite String.eqb_sym, E0; reflexivity.
      * exact IH.
Qed.

Lemma get_set_eq d k v : Dict.get k (Dict.set k v d) = Some v.
Proof. rewrite get_set, String.eqb_refl; reflexivity. Qed.

Lemma get_set_ne d k k' v :
  k <> k' -> Dict.get k (Dict.set k' v d) = Dict.get k d.
Proof.
  intros H; rewrite get_set.
  destruct (String.eqb k k') eqn:E; [apply String.eqb_eq in E; contradiction|reflexivity].
Qed.

(** Storing the value a key already has changes nothing. *)
Lemma set_same d k v : Dict.get k d = Some v -> Dict.set k v d = d.
Proof.
  induction d as [|[k0 v0] d IH]; simpl; [discriminate|].
  destruct (String.eqb k k0) eqn:E.
  - apply String.eqb_eq in E; subst k0. intros [= ->]; reflexivity.
  - intros H; rewrite (IH H); reflexivity.
Qed.

Lemma get_None_keys d k : Dict.get k d = None <-> ~ In k (Dict.keys d).
Proof.
  induction d as [|[k0 v0] d IH]; simpl.
  - split; [intros _ []|reflexivity].
  - destruct (String.eqb k k0) eqn:E.
    + apply String.eqb_eq in E; subst k0.
      split; [discriminate|intros H; exfalso; apply H; left; reflexivity].
    + apply String.eqb_neq in E. rewrite IH. split.
      * intros H [H1|H1]; [congruence|contradiction].
      * intros H H1; apply H; right; exact H1.
Qed.

Lemma get_In d k v : Dict.wf d -> In (k, v) d -> Dict.get k d = Some v.
Proof.
  unfold Dict.wf, Dict.keys.
  induction d as [|[k0 v0] d IH]; simpl; [intros _ []|].
  intros Hnd [H|H].
  - injection H as -> ->. rewrite String.eqb_refl; reflexivity.
  - inversion Hnd as [|? ? Hnotin Hnd']; subst.
    destruct (String.eqb k k0) eqn:E.
    + apply String.eqb_eq in E; subst k0. exfalso; apply Hnotin.
      change k with (fst (k, v)). apply in_map; exact H.
    + apply IH; assumption.
Qed.

(** Keys are replaced in place: a key already present keeps the key list. *)
Lemma keys_set d k v :
  Dict.keys (Dict.set k v d) =
  if Dict.mem k d then Dict.keys d else (Dict.keys d ++ [k])%list.
Proof.
  unfold Dict.mem, Dict.keys.
  induction d as [|[k0 v0] d IH]; simpl; [reflexivity|].
  destruct (String.eqb k k0) eqn:E; simpl.
  - apply String.eqb_eq in E; subst k0; reflexivity.
  - rewrite IH. destruct (Dict.get k d); reflexivity.
Qed.

End DictFacts.

(** ** The merge loop *)

Section MergeFacts.
Implicit Types (doc params : dict) (k : string) (v : value).

Lemma merge_field_own doc a u k v :
  merge_field true (doc, a, u) (k, v) =
  (if private k then doc else Dict.set k (merged_value (Dict.get k doc) v) doc,
   if is_added doc (k, v) then (a ++ [k])%list else a,
   if is_updated doc (k, v) then (u ++ [k])%list else u).
Proof.
  unfold merge_field, is_added, is_updated, private, Dict.mem, merged_value.
  cbn [andb fst snd negb].
  destruct (Str.startswith "_" k); cbn [andb negb]; [reflexivity|].
  destruct (Dict.get k doc) eqn:E; cbn [andb negb]; [|reflexivity].
  destruct (py_ne v0 v); [reflexivity|].
  rewrite (set_same _ _ _ E); reflexivity.
Qed.

Lemma filter_agree {A : Type} (f g : A -> bool) (l : list A) :
  (forall x, In x l -> f x = g x) -> List.filter f l = List.filter g l.
Proof.
  induction l as [|x l IH]; intros H; simpl; [reflexivity|].
  rewrite (H x (or_introl eq_refl)), IH; [reflexivity|].
  intros y Hy; apply H; right; exact Hy.
Qed.

Lemma in_keys (d : dict) k v : In (k, v) d -> In k (Dict.keys d).
Proof. intros H. change k with (fst (k, v)). apply in_map; exact H. Qed.

(** The loop in closed form, for a field set that holds each key once. *)
Lemma merge_fold params : forall doc a u,
  Dict.wf params ->
  exists doc',
    fold_left (merge_field true) params (doc, a, u)
    = (doc', (a ++ adds doc params)%list, (u ++ updates doc params)%list) /\
    (forall k, Dict.get k doc' =
               match Dict.get k params with
               | Some v => if private k then Dict.get k doc
                           else Some (merged_value (Dict.get k doc) v)
               | None => Dict.get k doc
               end) /\
    Dict.keys doc' = (Dict.keys doc ++ adds doc params)%list.
Proof.
  unfold Dict.wf, Dict.keys.
  induction params as [|[k v] tl IH]; intros doc a u Hnd.
  - exists doc. unfold adds, updates; simpl. rewrite !app_nil_r. auto.
  - inversion Hnd as [|? ? Hnotin Hnd']; subst.
    cbn [fold_left]. rewrite merge_field_own.
    set (doc1 := if private k then doc
                 else Dict.set k (merged_value (Dict.get k doc) v) doc).
    assert (Hother : forall k', k' <> k -> Dict.get k' doc1 = Dict.get k' doc).
    { intros k' Hne. unfold doc1. destruct (private k); [reflexivity|].
      apply get_set_ne; exact Hne. }
    assert (Hadds : adds doc1 tl = adds doc tl).
    { unfold adds. f_equal. apply filter_agree. intros [k' v'] Hin.
      unfold is_added, Dict.mem; cbn [fst]. rewrite Hother; [reflexivity|].
      intros ->. apply Hnotin. exact (in_keys _ _ _ Hin). }
    assert (Hupds : updates doc1 tl = updates doc tl).
    { unfold updates. f_equal. apply filter_agree. intros [k' v'] Hin.
      unfold is_updated; cbn [fst snd]. rewrite Hother; [reflexivity|].
      intros ->. apply Hnotin. exact (in_keys _ _ _ Hin). }
    destruct (IH doc1 (if is_added doc (k, v) then (a ++ [k])%list else a)
                 (if is_updated doc (k, v) then (u ++ [k])%list else u) Hnd')
      as (doc' & Hfold & Hget & Hkeys).
    exists doc'. rewrite Hfold, Hadds, Hupds. split; [|split].
    + unfold adds, updates; cbn [List.filter].
      destruct (is_added doc (k, v)), (is_updated doc (k, v)); cbn [map fst];
        rewrite <- ?app_assoc; reflexivity.
    + intros k0. rewrite Hget. cbn [Dict.get].
      destruct (String.eqb k0 k) eqn:E.
      * apply String.eqb_eq in E; subst k0.
        assert (Hnone : Dict.get k tl = None) by (apply get_None_keys; exact Hnotin).
        rewrite Hnone. unfold doc1. destruct (private k); [reflexivity|].
        apply get_set_eq.
      * apply String.eqb_neq in E. rewrite (Hother _ E). reflexivity.
    + rewrite Hkeys, Hadds. unfold doc1, adds; cbn [List.filter].
      unfold is_added at 2; cbn [fst].
      destruct (private k); cbn [negb andb]; [reflexivity|].
      fold (Dict.keys doc). fold (Dict.keys (Dict.set k (merged_value (Dict.get k doc) v) doc)).
      rewrite keys_set. destruct (Dict.mem k doc); cbn [negb map fst];
        rewrite <- ?app_assoc; reflexivity.
Qed.

End MergeFacts.


(** ** The file system *)

Lemma append_length (a b : string) :
  String.length (a +:+ b) = (String.length a + String.length b)%nat.
Proof. induction a as [|c a IH]; simpl; [reflexivity|rewrite IH; reflexivity]. Qed.

(** A backup never lands on the sidecar itself. *)
Lemma backup_path_ne (path : string) (now : datetime) : backup_path path now <> path.
Proof.
  unfold backup_path. intros H.
  apply (f_equal String.length) in H. rewrite append_length in H.
  simpl in H. lia.
Qed.

Lemma make_backup_locked path now fs : locked (make_backup path now fs) = locked fs.
Proof.
  unfold make_backup, copy2, write_file.
  destruct (files fs !! path); [|reflexivity].
  destruct (decide _); reflexivity.
Qed.

Lemma make_backup_other path now fs q :
  q <> backup_path path now -> files (make_backup path now fs) !! q = files fs !! q.
Proof.
  intros Hq. unfold make_backup, copy2, write_file.
  destruct (files fs !! path); [|reflexivity].
  destruct (decide _); [reflexivity|]. cbn.
  apply lookup_insert_ne. congruence.
Qed.

Lemma make_backup_sidecar path now fs :
  files (make_backup path now fs) !! path = files fs !! path.
Proof.
  apply make_backup_other. intros H; symmetry in H; exact (backup_path_ne _ _ H).
Qed.

(** With the sidecar in place and the backup path writable, the backup holds
    the sidecar as it was. *)
Lemma make_backup_done path now fs f :
  files fs !! path = Some f ->
  backup_path path now ∉ locked fs ->
  files (make_backup path now fs) !! backup_path path now = Some f.
Proof.
  intros Hf Hl. unfold make_backup, copy2, write_file. rewrite Hf.
  destruct (decide _); [contradiction|]. cbn.
  apply lookup_insert_eq.
Qed.

(** The two outcomes of the [try] of an [update_*] function: nothing written
    and a failure reported, or the merged document written. *)
Lemma merge_into_file_cases key block path params fs :
  merge_into_file key block path params fs = (fs, (false, 0, 0)) \/
  exists doc doc' a u info,
    files fs !! path = Some (FileJson doc) /\
    (path ∉ locked fs) /\
    merge_fields true params doc = (doc', a, u) /\
    block a u = inr info /\
    merge_into_file key block path params fs =
      (mk_fs (<[path := FileJson (Dict.set key (VDict info) doc')]> (files fs))
             (locked fs),
       (true, len a, len u)).
Proof.
  unfold merge_into_file, json_load, json_dump, write_file.
  destruct (files fs !! path) as [[doc|?]|] eqn:Hf; cbn [bind ret raise]; auto.
  destruct (merge_fields true params doc) as [[doc' a] u] eqn:Hm.
  destruct (block a u) as [e|info] eqn:Hb; cbn [bind ret raise]; auto.
  destruct (decide (path ∈ locked fs)); cbn [bind ret raise]; auto.
  right. exists doc, doc', a, u, info. auto.
Qed.


Lemma backup_if_sidecar (create_backup : bool) path now fs :
  files (if create_backup then make_backup path now fs else fs) !! path
  = files fs !! path.
Proof. destruct create_backup; [apply make_backup_sidecar|reflexivity]. Qed.


(** The [try] succeeds on a readable, writable sidecar when the provenance
    block can be built. *)
Lemma merge_into_file_ok key block path params fs doc info :
  files fs !! path = Some (FileJson doc) ->
  (path ∉ locked fs) ->
  Dict.wf params ->
  block (adds doc params) (updates doc params) = inr info ->
  exists doc',
    merge_into_file key block path params fs =
      (mk_fs (<[path := FileJson (Dict.set key (VDict info) doc')]> (files fs))
             (locked fs),
       (true, len (adds doc params), len (updates doc params))) /\
    (forall k, Dict.get k doc' =
               match Dict.get k params with
               | Some v => if private k then Dict.get k doc
                           else Some (merged_value (Dict.get k doc) v)
               | None => Dict.get k doc
               end) /\
    Dict.keys doc' = (Dict.keys doc ++ adds doc params)%list.
Proof.
  intros Hf Hl Hwf Hb.
  destruct (merge_fold params doc [] [] Hwf) as (doc' & Hfold & Hget & Hkeys).
  cbn [app] in Hfold.
  exists doc'. split; [|split; assumption].
  unfold merge_into_file, json_load, json_dump, write_file, merge_fields.
  rewrite Hf; cbn [bind ret raise]. rewrite Hfold, Hb; cbn [bind ret raise].
  destruct (decide (path ∈ locked fs)); [contradiction|reflexivity].
Qed.



Lemma backup_if_locked (create_backup : bool) path now fs :
  locked (if create_backup then make_backup path now fs else fs) = locked fs.
Proof. destruct create_backup; [apply make_backup_locked|reflexivity]. Qed.


(** ** Checks on concrete field sets *)

Lemma mem_In x l : Str.mem x l = true <-> In x l.
Proof.
  unfold Str.mem. rewrite existsb_exists. split.
  - intros (y & Hy & E). apply String.eqb_eq in E; subst; exact Hy.
  - intros H. exists x. split; [exact H|apply String.eqb_refl].
Qed.

Lemma distinct_NoDup l : distinct l = true -> List.NoDup l.
Proof.
  induction l as [|x l IH]; cbn [distinct]; intros H; constructor.
  - apply andb_true_iff in H as [H _]. intros Hin.
    apply mem_In in Hin. rewrite Hin in H; discriminate.
  - apply IH. apply andb_true_iff in H as [_ H]; exact H.
Qed.

Lemma wf_by_computation (d : dict) : distinct (Dict.keys d) = true -> Dict.wf d.
Proof. apply distinct_NoDup. Qed.




(** ** Backups *)

(** C9 (backup side effect), as the code has it.  The backup path is
    [<original-path>.backup_<YYYYMMDD>_<HHMMSS>].  When the sidecar exists and
    that path can be written, [update_bids_json] (asked for a backup, its
    default) and [update_json_file] first copy the sidecar there, leaving the
    sidecar as it was, then run the merge on that state; the copy of the
    original is still there when they return. *)
Theorem backup_precedes_merge
  (json_file_path : string) (bids_params : dict) (now_backup now_info : datetime)
  (fs : filesystem) (original : file) :
  files fs !! json_file_path = Some original ->
  (backup_path json_file_path now_backup ∉ locked fs) ->
  backup_path json_file_path now_backup =
    json_file_path +:+ ".backup_" +:+
    pad 4 (year now_backup) +:+ pad 2 (month now_backup) +:+
    pad 2 (day now_backup) +:+ "_" +:+
    pad 2 (hour now_backup) +:+ pad 2 (minute now_backup) +:+
    pad 2 (second now_backup) /\
  files (make_backup json_file_path now_backup fs)
    !! backup_path json_file_path now_backup = Some original /\
  files (make_backup json_file_path now_backup fs) !! json_file_path
    = Some original /\
  Batch.update_bids_json json_file_path bids_params true now_backup now_info fs
    = merge_into_file "_BIDSProcessingInfo" (Batch.provenance bids_params now_info)
        json_file_path bids_params (make_backup json_file_path now_backup fs) /\
  SingleSubject.update_json_file json_file_path bids_params now_backup now_info fs
    = merge_into_file "_ProcessingInfo" (SingleSubject.provenance now_info)
        json_file_path bids_params (make_backup json_file_path now_backup fs) /\
  files (fst (Batch.update_bids_json json_file_path bids_params true
                now_backup now_info fs))
    !! backup_path json_file_path now_backup = Some original /\
  files (fst (SingleSubject.update_json_file json_file_path bids_params
                now_backup now_info fs))
    !! backup_path json_file_path now_backup = Some original.
Proof.
  intros Hf Hl.
  assert (Hb := make_backup_done _ _ _ _ Hf Hl).
  assert (Hkept : forall key block,
    files (fst (merge_into_file key block json_file_path bids_params
                  (make_backup json_file_path now_backup fs)))
      !! backup_path json_file_path now_backup = Some original).
  { intros key block.
    destruct (merge_into_file_cases key block json_file_path bids_params
                (make_backup json_file_path now_backup fs))
      as [E|(? & ? & ? & ? & ? & _ & _ & _ & _ & E)]; rewrite E; cbn [fst files].
    - exact Hb.
    - rewrite lookup_insert_ne; [exact Hb|].
      intros H; symmetry in H; exact (backup_path_ne _ _ H). }
  split; [|split; [|split; [|split; [|split; [|split]]]]].
  - reflexivity.
  - exact Hb.
  - rewrite make_backup_sidecar; exact Hf.
  - reflexivity.
  - reflexivity.
  - apply Hkept.
  - apply Hkept.
Qed.

Lemma backup_precedes_merge_witness :
  files (fst (Batch.update_bids_json Sample.json_path Sample.bids_params true
                Sample.t1 Sample.t2 Sample.fs0))
    !! backup_path Sample.json_path Sample.t1 = Some (FileJson Sample.sidecar).
Proof.
  apply (backup_precedes_merge Sample.json_path Sample.bids_params
           Sample.t1 Sample.t2 Sample.fs0 (FileJson Sample.sidecar)).
  - reflexivity.
  - apply not_elem_of_empty.
Defined.

(** C9, the claim as stated.  On the sample sidecar, at 2025-09-10 14:19:55,
    the merge succeeds and rewrites the sidecar, yet no file stands at
    [<path>.backup_20250910141955]: the copy is at
    [<path>.backup_20250910_141955].  And when that path cannot be written
    the merge still rewrites the sidecar, with no backup anywhere. *)
Lemma backup_is_not_at_the_specified_path :
  snd (Batch.update_bids_json Sample.json_path Sample.bids_params true
         Sample.t1 Sample.t2 Sample.fs0) = (true, 9, 1) /\
  spec_backup_path Sample.json_path Sample.t1
    = Sample.json_path +:+ ".backup_20250910141955" /\
  files (fst (Batch.update_bids_json Sample.json_path Sample.bids_params true
                Sample.t1 Sample.t2 Sample.fs0))
    !! spec_backup_path Sample.json_path Sample.t1 = None /\
  files (fst (Batch.update_bids_json Sample.json_path Sample.bids_params true
                Sample.t1 Sample.t2 Sample.fs0))
    !! (Sample.json_path +:+ ".backup_20250910_141955")
    = Some (FileJson Sample.sidecar) /\
  snd (Batch.update_bids_json Sample.json_path Sample.bids_params true
         Sample.t1 Sample.t2
         (mk_fs (files Sample.fs0) {[ backup_path Sample.json_path Sample.t1 ]}))
    = (true, 9, 1) /\
  dom (files (fst (Batch.update_bids_json Sample.json_path Sample.bids_params true
                     Sample.t1 Sample.t2
                     (mk_fs (files Sample.fs0)
                            {[ backup_path Sample.json_path Sample.t1 ]}))))
    = {[ Sample.json_path ]}.
Proof.
  repeat split; vm_compute; reflexivity.
Qed.

(** ** Merging twice *)

Lemma filter_none {A : Type} (f : A -> bool) (l : list A) :
  (forall x, In x l -> f x = false) -> List.filter f l = [].
Proof.
  induction l as [|x l IH]; intros H; cbn [List.filter]; [reflexivity|].
  rewrite (H x (or_introl eq_refl)). apply IH.
  intros y Hy; apply H; right; exact Hy.
Qed.

(** A document that already holds, for every public field, a value the loop
    would store again, comes out of the loop as it went in. *)
Lemma merge_fold_fixed params : forall doc a u,
  (forall k v, In (k, v) params -> private k = false ->
     exists w, Dict.get k doc = Some w /\ (py_ne w v = true -> w = v)) ->
  fst (fst (fold_left (merge_field true) params (doc, a, u))) = doc.
Proof.
  induction params as [|[k v] tl IH]; intros doc a u H; [reflexivity|].
  cbn [fold_left]. rewrite merge_field_own.
  assert (E : (if private k then doc
               else Dict.set k (merged_value (Dict.get k doc) v) doc) = doc).
  { destruct (private k) eqn:Hp; [reflexivity|].
    destruct (H k v (or_introl eq_refl) Hp) as (w & Hw & Hsame).
    rewrite Hw. unfold merged_value.
    destruct (py_ne w v) eqn:Hne.
    - rewrite <- (Hsame eq_refl). apply set_same; exact Hw.
    - apply set_same; exact Hw. }
  rewrite E. apply IH. intros k' v' Hin Hp. apply H; [right; exact Hin|exact Hp].
Qed.

(** After one merge every public field is in the document, with the value
    the loop would store again. *)
Lemma merged_value_stable (old : option value) (v : value) :
  py_ne (merged_value old v) v = true -> merged_value old v = v.
Proof.
  unfold merged_value. destruct old as [o|]; [|reflexivity].
  destruct (py_ne o v) eqn:E; [reflexivity|]. intros H; congruence.
Qed.

(** The second of two merges of the same field set, on the document the
    first one wrote under the provenance key [key]. *)
Lemma second_merge key info1 params doc doc1 :
  private key = true ->
  Dict.wf params ->
  fst (fst (merge_fields true params doc)) = doc1 ->
  merge_fields true params (Dict.set key (VDict info1) doc1)
  = (Dict.set key (VDict info1) doc1, [],
     updates (Dict.set key (VDict info1) doc1) params) /\
  forall k, In k (updates (Dict.set key (VDict info1) doc1) params) ->
            exists v, In (k, v) params /\ py_eq v v = false.
Proof.
  intros Hkey Hwf Hdoc1.
  destruct (merge_fold params doc [] [] Hwf) as (d & Hfold & Hget & _).
  unfold merge_fields in Hdoc1. rewrite Hfold in Hdoc1; cbn [fst] in Hdoc1; subst d.
  set (doc2 := Dict.set key (VDict info1) doc1).
  assert (Hheld : forall k v, In (k, v) params -> private k = false ->
            Dict.get k doc2 = Some (merged_value (Dict.get k doc) v)).
  { intros k v Hin Hp. unfold doc2.
    rewrite get_set_ne by (intros ->; congruence).
    rewrite Hget, (get_In _ _ _ Hwf Hin), Hp. reflexivity. }
  destruct (merge_fold params doc2 [] [] Hwf) as (d & Hfold2 & _ & _).
  cbn [app] in Hfold2.
  assert (Hadds : adds doc2 params = []).
  { unfold adds. rewrite filter_none; [reflexivity|].
    intros [k v] Hin. unfold is_added, Dict.mem; cbn [fst].
    destruct (private k) eqn:Hp; [reflexivity|].
    rewrite (Hheld k v Hin Hp). reflexivity. }
  assert (Hfixed : d = doc2).
  { pose proof (merge_fold_fixed params doc2 [] []) as F.
    rewrite Hfold2 in F; cbn [fst] in F. apply F.
    intros k v Hin Hp. exists (merged_value (Dict.get k doc) v).
    split; [exact (Hheld k v Hin Hp)|apply merged_value_stable]. }
  split.
  - unfold merge_fields. rewrite Hfold2, Hadds, Hfixed. reflexivity.
  - intros k Hk. unfold updates in Hk.
    apply in_map_iff in Hk as ([k' v] & E & Hf). cbn in E; subst k'.
    apply filter_In in Hf as [Hin Hf]. exists v. split; [exact Hin|].
    unfold is_updated in Hf; cbn [fst snd] in Hf.
    destruct (private k) eqn:Hp; [discriminate|]. cbn [negb andb] in Hf.
    rewrite (Hheld k v Hin Hp) in Hf.
    rewrite (merged_value_stable _ _ Hf) in Hf.
    unfold py_ne in Hf. destruct (py_eq v v); [discriminate|reflexivity].
Qed.

Lemma merge_into_file_run key block path params fs doc doc' a u info :
  files fs !! path = Some (FileJson doc) ->
  (path ∉ locked fs) ->
  merge_fields true params doc = (doc', a, u) ->
  block a u = inr info ->
  merge_into_file key block path params fs =
    (mk_fs (<[path := FileJson (Dict.set key (VDict info) doc')]> (files fs))
           (locked fs),
     (true, len a, len u)).
Proof.
  intros Hf Hl Hm Hb.
  unfold merge_into_file, json_load, json_dump, write_file.
  rewrite Hf; cbn [bind ret raise]. rewrite Hm, Hb; cbn [bind ret raise].
  destruct (decide (path ∈ locked fs)); [contradiction|reflexivity].
Qed.

(** C7 (merging twice), as the code has it.  When the first
    [update_bids_json] runs on a readable, writable sidecar, with both
    backup paths writable, a second run on its result succeeds as well and
    - rewrites the provenance block and nothing else: every other key maps
      to what the first run left, in the same order;
    - adds nothing, and records in [FieldsUpdated] only fields whose value is
      not equal to itself (a NaN inside), hence none when every value of the
      field set equals itself;
    - puts a copy of the once-merged sidecar at the backup path of its own
      time stamp, and leaves the first backup, the original sidecar, in place
      when the two time stamps differ. *)
Theorem second_merge_only_rewrites_provenance
  (json_file_path : string) (bids_params : dict)
  (t1 t1' t2 t2' : datetime) (fs : filesystem) (doc site : dict) :
  files fs !! json_file_path = Some (FileJson doc) ->
  (json_file_path ∉ locked fs) ->
  (backup_path json_file_path t1 ∉ locked fs) ->
  (backup_path json_file_path t2 ∉ locked fs) ->
  Dict.wf bids_params ->
  get_dict "_SiteInfo" bids_params = inr site ->
  exists doc1 info2 (added1 updated1 updated2 : list string) fs1 fs2,
    Batch.update_bids_json json_file_path bids_params true t1 t1' fs
      = (fs1, (true, len added1, len updated1)) /\
    Batch.update_bids_json json_file_path bids_params true t2 t2' fs1
      = (fs2, (true, 0, len updated2)) /\
    files fs1 !! json_file_path = Some (FileJson doc1) /\
    files fs2 !! json_file_path
      = Some (FileJson (Dict.set "_BIDSProcessingInfo" (VDict info2) doc1)) /\
    (forall k, k <> "_BIDSProcessingInfo" ->
       Dict.get k (Dict.set "_BIDSProcessingInfo" (VDict info2) doc1)
       = Dict.get k doc1) /\
    Dict.keys (Dict.set "_BIDSProcessingInfo" (VDict info2) doc1) = Dict.keys doc1 /\
    Dict.get "FieldsAdded" info2 = Some (names []) /\
    Dict.get "FieldsUpdated" info2 = Some (names updated2) /\
    (forall k, In k updated2 -> exists v, In (k, v) bids_params /\ py_eq v v = false) /\
    ((forall k v, In (k, v) bids_params -> py_eq v v = true) -> updated2 = []) /\
    files fs2 !! backup_path json_file_path t2 = Some (FileJson doc1) /\
    (backup_path json_file_path t2 <> backup_path json_file_path t1 ->
     files fs2 !! backup_path json_file_path t1 = Some (FileJson doc)).
Proof.
  intros Hf Hl Hl1 Hl2 Hwf Hsite.
  set (key := "_BIDSProcessingInfo").
  assert (Hkey : private key = true) by reflexivity.
  (* the first run *)
  set (fb1 := make_backup json_file_path t1 fs).
  destruct (merge_fields true bids_params doc) as [[d1 a1] u1] eqn:Hm1.
  destruct (Batch.provenance bids_params t1' a1 u1) as [?|info1] eqn:Hp1;
    [unfold Batch.provenance in Hp1; rewrite Hsite in Hp1; discriminate|].
  set (doc1 := Dict.set key (VDict info1) d1).
  assert (E1 := merge_into_file_run key (Batch.provenance bids_params t1')
            json_file_path bids_params fb1 doc d1 a1 u1 info1).
  unfold fb1 in E1 at 1 2. rewrite make_backup_sidecar, make_backup_locked in E1.
  specialize (E1 Hf Hl Hm1 Hp1). fold doc1 in E1.
  set (fs1 := mk_fs (<[json_file_path := FileJson doc1]> (files fb1)) (locked fb1)) in E1.
  assert (Hf1 : files fs1 !! json_file_path = Some (FileJson doc1))
    by apply lookup_insert_eq.
  assert (Hlk1 : locked fs1 = locked fs) by apply make_backup_locked.
  (* the second run *)
  destruct (second_merge key info1 bids_params doc d1 Hkey Hwf) as [Hm2 Hre];
    [rewrite Hm1; reflexivity|]. fold doc1 in Hm2, Hre.
  set (u2 := updates doc1 bids_params) in Hm2, Hre.
  set (fb2 := make_backup json_file_path t2 fs1).
  destruct (Batch.provenance bids_params t2' [] u2) as [?|info2] eqn:Hp2;
    [unfold Batch.provenance in Hp2; rewrite Hsite in Hp2; discriminate|].
  assert (E2 := merge_into_file_run key (Batch.provenance bids_params t2')
            json_file_path bids_params fb2 doc1 doc1 [] u2 info2).
  unfold fb2 in E2 at 1 2. rewrite make_backup_sidecar, make_backup_locked in E2.
  rewrite Hlk1 in E2. specialize (E2 Hf1 Hl Hm2 Hp2).
  exists doc1, info2, a1, u1, u2, fs1. eexists.
  unfold Batch.provenance in Hp2. rewrite Hsite in Hp2.
  cbn [bind ret] in Hp2. injection Hp2 as <-.
  split; [exact E1|]. split; [exact E2|]. split; [exact Hf1|].
  cbn [files].
  assert (Hne : forall t, json_file_path <> backup_path json_file_path t)
    by (intros t H; symmetry in H; exact (backup_path_ne _ _ H)).
  split; [apply lookup_insert_eq|].
  split; [intros k Hk; apply get_set_ne; exact Hk|].
  split.
  { rewrite keys_set. unfold Dict.mem, doc1. rewrite get_set_eq. reflexivity. }
  split; [reflexivity|]. split; [reflexivity|]. split; [exact Hre|].
  split.
  { intros Hself. destruct u2 as [|k u2'] eqn:Eu; [reflexivity|].
    destruct (Hre k (or_introl eq_refl)) as (v & Hin & Hv).
    rewrite (Hself k v Hin) in Hv. discriminate. }
  split.
  { rewrite lookup_insert_ne by apply Hne.
    apply make_backup_done; [exact Hf1|]. rewrite Hlk1; exact Hl2. }
  intros Hdiff. rewrite lookup_insert_ne by apply Hne.
  unfold fb2. rewrite make_backup_other by congruence.
  unfold fs1; cbn [files]. rewrite lookup_insert_ne by apply Hne.
  apply make_backup_done; assumption.
Qed.

Lemma second_merge_only_rewrites_provenance_witness :
  exists fs1 fs2 (n1 m1 m2 : Z),
    Batch.update_bids_json Sample.json_path Sample.bids_params true
      Sample.t1 Sample.t1 Sample.fs0 = (fs1, (true, n1, m1)) /\
    Batch.update_bids_json Sample.json_path Sample.bids_params true
      Sample.t2 Sample.t2 fs1 = (fs2, (true, 0, m2)).
Proof.
  destruct (second_merge_only_rewrites_provenance Sample.json_path
              Sample.bids_params Sample.t1 Sample.t1 Sample.t2 Sample.t2
              Sample.fs0 Sample.sidecar
              (site_info_dict None
                 (mk_site_info "V4.2" "4.2" "AmsLei" "Leiden"
                    ["V4.2_format"; "ASL_capable"; "SENSE_acceleration"] "high")))
    as (doc1 & info2 & a1 & u1 & u2 & fs1 & fs2 & E1 & E2 & _).
  - reflexivity.
  - apply not_elem_of_empty.
  - apply not_elem_of_empty.
  - apply not_elem_of_empty.
  - apply wf_by_computation. vm_compute. reflexivity.
  - vm_compute. reflexivity.
  - exists fs1, fs2, (len a1), (len u1), (len u2). split; assumption.
Defined.

(** C7, the claim as stated.  On the sample sidecar two merges in a row, even
    with the same reading of the clock for the provenance block, do not
    leave the same document: the first records nine added fields and one
    updated field, the second none. *)
Lemma second_merge_rewrites_the_document :
  exists doc1 doc2,
    files (fst (Batch.update_bids_json Sample.json_path Sample.bids_params true
                  Sample.t1 Sample.t1 Sample.fs0)) !! Sample.json_path
      = Some (FileJson doc1) /\
    files (fst (Batch.update_bids_json Sample.json_path Sample.bids_params true
                  Sample.t2 Sample.t1
                  (fst (Batch.update_bids_json Sample.json_path
                          Sample.bids_params true Sample.t1 Sample.t1
                          Sample.fs0)))) !! Sample.json_path
      = Some (FileJson doc2) /\
    provenance_field "_BIDSProcessingInfo" "FieldsAdded" doc1
      = Some (names ["NumberOfSlices"; "SliceTiming"; "SliceEncodingDirection";
                     "PhaseEncodingDirection"; "WaterFatShift"; "ReconMatrixPE";
                     "ReconMatrixFE"; "EffectiveEchoSpacing"; "Manufacturer"]) /\
    provenance_field "_BIDSProcessingInfo" "FieldsUpdated" doc1
      = Some (names ["RepetitionTime"]) /\
    provenance_field "_BIDSProcessingInfo" "FieldsAdded" doc2 = Some (names []) /\
    provenance_field "_BIDSProcessingInfo" "FieldsUpdated" doc2 = Some (names []) /\
    doc1 <> doc2.
Proof.
  eexists. eexists.
  split; [vm_compute; reflexivity|].
  split; [vm_compute; reflexivity|].
  split; [vm_compute; reflexivity|].
  split; [vm_compute; reflexivity|].
  split; [vm_compute; reflexivity|].
  split; [vm_compute; reflexivity|].
  intros H.
  apply (f_equal (provenance_field "_BIDSProcessingInfo" "FieldsAdded")) in H.
  vm_compute in H. discriminate H.
Qed.

(** ** Integers read from the header *)

Lemma digits2_pos_bound (m : BinNums.positive) :
  Zpos m < 2 ^ Zpos (digits2_pos m).
Proof.
  induction m as [m IH|m IH|]; cbn [digits2_pos]; [| |reflexivity];
    rewrite Pos2Z.inj_succ, Z.pow_succ_r by lia; lia.
Qed.

(** Every integer [int(x)] returns converts back to a float: a finite float
    is below [2^1024 - 2^971] in absolute value. *)
Lemma to_int_in_range (x : float) (n : Z) :
  Fl.to_int x = inr n -> Z.abs n < Fl.int_max.
Proof.
  unfold Fl.to_int. pose proof (Prim2SF_valid x) as Hv.
  destruct (Prim2SF x) as [s|s| |s m e]; try discriminate.
  - intros [= <-]. reflexivity.
  - intros [= <-]. cbn [valid_binary SpecFloat.valid_binary] in Hv.
    unfold bounded in Hv. apply andb_prop in Hv as [Hc He].
    unfold canonical_mantissa, fexp in Hc.
    apply Z.eqb_eq in Hc. apply Z.leb_le in He.
    assert (Hd : Zpos (digits2_pos m) <= 53).
    { change prec with 53 in Hc. lia. }
    assert (Hm : Zpos m < 2 ^ 53).
    { apply Z.lt_le_trans with (1 := digits2_pos_bound m).
      apply Z.pow_le_mono_r; lia. }
    change (emax - prec) with 971 in He.
    assert (Ha : 0 <= (if 0 <=? e then Zpos m * 2 ^ e else Zpos m / 2 ^ (- e))
                 <= (2 ^ 53 - 1) * 2 ^ 971).
    { destruct (Z.leb_spec 0 e).
      - assert (0 < 2 ^ e <= 2 ^ 971)
          by (split; [apply Z.pow_pos_nonneg; lia|apply Z.pow_le_mono_r; lia]).
        split; [lia|]. apply Z.mul_le_mono_nonneg; lia.
      - assert (0 < 2 ^ (- e)) by (apply Z.pow_pos_nonneg; lia).
        split; [apply Z.div_pos; lia|].
        apply Z.le_trans with (Zpos m).
        + apply Z.div_le_upper_bound; [lia|]. nia.
        + assert (0 < 2 ^ 971) by (apply Z.pow_pos_nonneg; lia). nia. }
    assert (Hmax : (2 ^ 53 - 1) * 2 ^ 971 < Fl.int_max) by reflexivity.
    destruct s; lia.
Qed.

(** So is every integer [safe_int] reads. *)
Lemma safe_int_in_range {RT : PyRuntime} (value_str : string) (n : Z) :
  safe_int value_str = inr (Some n) -> Z.abs n < Fl.int_max.
Proof.
  unfold safe_int. destruct (safe_float value_str) as [val|]; [|discriminate].
  destruct (Fl.to_int val) as [e|z] eqn:E; cbn [bind ret]; [discriminate|].
  intros [= <-]. exact (to_int_in_range val z E).
Qed.

(** ** Slice timing *)

Section SliceTimingFacts.

(** Both passes in closed form. *)
Lemma acquisition_order_closed (n : Z) :
  acquisition_order n =
  (map (fun i => 2 * Z.of_nat i) (seq 0 (Z.to_nat ((n + 1) / 2))) ++
   map (fun i => 2 * Z.of_nat i + 1) (seq 0 (Z.to_nat (n / 2))))%list.
Proof.
  unfold acquisition_order, py_range. rewrite !map_map. f_equal.
  - replace ((n + 1 - 1 + 2 - 1) / 2) with ((n + 1) / 2) by (f_equal; lia).
    apply map_ext; intros i; lia.
  - replace ((n + 1 - 2 + 2 - 1) / 2) with (n / 2) by (f_equal; lia).
    apply map_ext; intros i; lia.
Qed.




Lemma lookup_map {A B : Type} (f : A -> B) (l : list A) (i : nat) :
  map f l !! i = option_map f (l !! i).
Proof.
  revert i; induction l as [|x l IH]; intros [|i]; cbn; auto.
Qed.

Lemma halves (n : Z) :
  0 <= n -> (Z.to_nat ((n + 1) / 2) + Z.to_nat (n / 2))%nat = Z.to_nat n.
Proof.
  intros Hn.
  assert (0 <= (n + 1) / 2) by (apply Z.div_pos; lia).
  assert (0 <= n / 2) by (apply Z.div_pos; lia).
  assert ((n + 1) / 2 + n / 2 = n).
  { pose proof (Z.div_mod n 2 ltac:(lia)). pose proof (Z.div_mod (n + 1) 2 ltac:(lia)).
    pose proof (Z.mod_pos_bound n 2 ltac:(lia)).
    pose proof (Z.mod_pos_bound (n + 1) 2 ltac:(lia)).
    lia. }
  lia.
Qed.

Lemma acquisition_order_length (n : Z) :
  0 <= n -> length (acquisition_order n) = Z.to_nat n.
Proof.
  intros Hn. rewrite acquisition_order_closed, length_app, !length_map, !length_seq.
  apply halves; exact Hn.
Qed.

Lemma acquisition_order_lookup (n : Z) (j : nat) :
  0 <= n -> (j < Z.to_nat n)%nat ->
  acquisition_order n !! j = Some (slice_at n j).
Proof.
  intros Hn Hj. rewrite acquisition_order_closed. unfold slice_at.
  pose proof (halves n Hn) as Hh.
  destruct (Nat.ltb_spec j (Z.to_nat ((n + 1) / 2))) as [Hlt|Hge].
  - rewrite lookup_app_l by (rewrite length_map, length_seq; exact Hlt).
    rewrite lookup_map, lookup_seq_lt by exact Hlt. reflexivity.
  - rewrite lookup_app_r by (rewrite length_map, length_seq; exact Hge).
    rewrite length_map, length_seq, lookup_map, lookup_seq_lt by lia.
    reflexivity.
Qed.

Lemma slice_at_range (n : Z) (j : nat) :
  0 <= n -> (j < Z.to_nat n)%nat -> 0 <= slice_at n j < n.
Proof.
  intros Hn Hj. unfold slice_at. pose proof (halves n Hn) as Hh.
  assert (0 <= (n + 1) / 2) by (apply Z.div_pos; lia).
  assert (0 <= n / 2) by (apply Z.div_pos; lia).
  pose proof (Z.div_mod n 2 ltac:(lia)). pose proof (Z.div_mod (n + 1) 2 ltac:(lia)).
  pose proof (Z.mod_pos_bound n 2 ltac:(lia)).
  pose proof (Z.mod_pos_bound (n + 1) 2 ltac:(lia)).
  destruct (Nat.ltb_spec j (Z.to_nat ((n + 1) / 2))); lia.
Qed.

Lemma slice_at_rank (n s : Z) :
  0 <= s < n -> (rank_of n s < Z.to_nat n)%nat /\ slice_at n (rank_of n s) = s.
Proof.
  intros Hs. unfold slice_at, rank_of.
  assert (Hn : 0 <= n) by lia. pose proof (halves n Hn) as Hh.
  assert (0 <= (n + 1) / 2) by (apply Z.div_pos; lia).
  assert (0 <= n / 2) by (apply Z.div_pos; lia).
  assert (0 <= s / 2) by (apply Z.div_pos; lia).
  pose proof (Z.div_mod n 2 ltac:(lia)). pose proof (Z.div_mod (n + 1) 2 ltac:(lia)).
  pose proof (Z.div_mod s 2 ltac:(lia)).
  pose proof (Z.mod_pos_bound n 2 ltac:(lia)).
  pose proof (Z.mod_pos_bound (n + 1) 2 ltac:(lia)).
  rewrite Zmod_even in *.
  destruct (Z.even s) eqn:Es.
  - destruct (Nat.ltb_spec (Z.to_nat (s / 2)) (Z.to_nat ((n + 1) / 2)));
      destruct (Z.even n), (Z.even (n + 1)); lia.
  - destruct (Nat.ltb_spec (Z.to_nat ((n + 1) / 2) + Z.to_nat (s / 2))
                           (Z.to_nat ((n + 1) / 2)));
      destruct (Z.even n), (Z.even (n + 1)); lia.
Qed.

Lemma acquisition_order_NoDup (n : Z) : 0 <= n -> NoDup (acquisition_order n).
Proof.
  intros Hn. apply NoDup_alt. intros i j x Hi Hj.
  pose proof (lookup_lt_Some _ _ _ Hi) as Li.
  pose proof (lookup_lt_Some _ _ _ Hj) as Lj.
  rewrite acquisition_order_length in Li, Lj by exact Hn.
  rewrite acquisition_order_lookup in Hi, Hj by assumption.
  injection Hi as Hi; injection Hj as Hj. subst x.
  unfold slice_at in Hj.
  destruct (Nat.ltb_spec i (Z.to_nat ((n + 1) / 2)));
    destruct (Nat.ltb_spec j (Z.to_nat ((n + 1) / 2))); lia.
Qed.

Lemma index_of_lookup (l : list Z) : forall (j : nat) (s : Z),
  NoDup l -> l !! j = Some s -> index_of s l = Some j.
Proof.
  induction l as [|x l IH]; intros j s Hnd Hj; [discriminate|].
  apply NoDup_cons in Hnd as [Hx Hnd]. cbn [index_of].
  destruct j as [|j]; cbn in Hj.
  - injection Hj as ->. rewrite Z.eqb_refl. reflexivity.
  - destruct (Z.eqb_spec x s) as [->|Hne].
    + exfalso. apply Hx. apply list_elem_of_lookup. exists j; exact Hj.
    + rewrite (IH j s Hnd Hj). reflexivity.
Qed.

(** The assignment loop over an order without repetition: the slice at
    position [j] of the order receives the time of rank [off + j], the other
    entries keep their value. *)
Lemma assign_all (tps : float) (acq : list Z) : forall (off : nat) (st : list float),
  NoDup acq ->
  (forall x, x ∈ acq -> 0 <= x < Z.of_nat (length st)) ->
  Z.of_nat (off + length acq) <= Fl.int_max ->
  exists st',
    for_each (assign_slice tps)
             (combine (map Z.of_nat (seq off (length acq))) acq) st = inr st' /\
    length st' = length st /\
    (forall j x, acq !! j = Some x ->
       st' !! Z.to_nat x
       = Some (Fl.round (Fl.of_Z (Z.of_nat (off + j)) * tps)%float 6)) /\
    (forall i, Z.of_nat i ∉ acq -> st' !! i = st !! i).
Proof.
  induction acq as [|x acq IH]; intros off st Hnd Hin Hmax.
  - exists st. cbn. repeat split; auto. intros j x H; discriminate H.
  - apply NoDup_cons in Hnd as [Hx Hnd].
    assert (Hxr : 0 <= x < Z.of_nat (length st)) by (apply Hin; left).
    cbn [length seq map combine for_each].
    unfold assign_slice at 1, Fl.int_times, Fl.of_int, list_assign.
    cbn [length] in Hmax.
    replace (Z.abs (Z.of_nat off) <? Fl.int_max) with true
      by (symmetry; apply Z.ltb_lt; lia).
    cbn [bind ret].
    replace ((0 <=? x) && (x <? Z.of_nat (length st))) with true
      by (symmetry; apply andb_true_iff; split; [apply Z.leb_le|apply Z.ltb_lt]; lia).
    cbn [bind ret].
    set (st1 := <[Z.to_nat x := Fl.round (Fl.of_Z (Z.of_nat off) * tps)%float 6]> st).
    assert (Hlen1 : length st1 = length st) by apply length_insert.
    destruct (IH (S off) st1 Hnd) as (st' & Hrun & Hlen & Hset & Hkeep).
    { intros y Hy. rewrite Hlen1. apply Hin. right; exact Hy. }
    { lia. }
    exists st'. split; [exact Hrun|]. split; [congruence|]. split.
    + intros [|j] y Hj; cbn in Hj.
      * injection Hj as <-. rewrite Hkeep by (rewrite Z2Nat.id by lia; exact Hx).
        unfold st1. rewrite Nat.add_0_r.
        apply list_lookup_insert_eq. lia.
      * rewrite (Hset j y Hj). do 4 f_equal. lia.
    + intros i Hi. rewrite Hkeep.
      * unfold st1. apply list_lookup_insert_ne.
        intros E. apply Hi. replace (Z.of_nat i) with x by lia. left.
      * intros H. apply Hi. right; exact H.
Qed.

Lemma div_int_ok (a : float) (n : Z) :
  0 < n < Fl.int_max -> Fl.div_int a n = inr (a / Fl.of_Z n)%float.
Proof.
  intros Hn. unfold Fl.div_int, Fl.of_int.
  replace (Z.abs n <? Fl.int_max) with true by (symmetry; apply Z.ltb_lt; lia).
  cbn [bind ret].
  replace (n =? 0) with false by (symmetry; apply Z.eqb_neq; lia).
  reflexivity.
Qed.

(** The slice-timing block in closed form. *)
Lemma interleaved_slice_timing_ok (tr : float) (n : Z) :
  0 < n < Fl.int_max ->
  exists st,
    interleaved_slice_timing tr n = inr st /\
    length st = Z.to_nat n /\
    forall s, 0 <= s < n ->
      index_of s (acquisition_order n) = Some (rank_of n s) /\
      st !! Z.to_nat s
      = Some (Fl.round (Fl.of_Z (Z.of_nat (rank_of n s)) * (tr / Fl.of_Z n))%float 6).
Proof.
  intros Hn. assert (Hn0 : 0 <= n) by lia.
  unfold interleaved_slice_timing, enumerate. rewrite (div_int_ok tr n Hn).
  cbn [bind ret].
  destruct (assign_all (tr / Fl.of_Z n)%float (acquisition_order n) 0
              (repeat 0%float (Z.to_nat n)))
    as (st & Hrun & Hlen & Hset & _).
  - apply acquisition_order_NoDup; exact Hn0.
  - intros x Hx. apply list_elem_of_lookup in Hx as [j Hj].
    pose proof (lookup_lt_Some _ _ _ Hj) as Lj.
    rewrite acquisition_order_length in Lj by exact Hn0.
    rewrite acquisition_order_lookup in Hj by assumption.
    injection Hj as <-. rewrite repeat_length, Z2Nat.id by exact Hn0.
    apply slice_at_range; assumption.
  - rewrite acquisition_order_length by exact Hn0. lia.
  - exists st. split; [exact Hrun|]. split; [rewrite Hlen; apply repeat_length|].
    intros s Hs. destruct (slice_at_rank n s Hs) as [Hr Hat].
    assert (Hl : acquisition_order n !! rank_of n s = Some s)
      by (rewrite acquisition_order_lookup by assumption; congruence).
    split.
    + apply index_of_lookup; [apply acquisition_order_NoDup; exact Hn0|exact Hl].
    + exact (Hset _ _ Hl).
Qed.

End SliceTimingFacts.



(** C2, the claim as stated.  On the sample header the batch extractor
    finds six slices and a repetition time of 3.0 s, and the [SliceTiming] it
    returns is not the sequence of the worked example: the example lists the
    times in acquisition order, not by slice. *)
Lemma worked_example_is_not_what_is_stored :
  Dict.get "NumberOfSlices" (@Batch.extract_philips_bids_3sites py_rt
     (Some Sample.header) Sample.par_path Sample.t1) = Some (VInt 6) /\
  Dict.get "RepetitionTime" (@Batch.extract_philips_bids_3sites py_rt
     (Some Sample.header) Sample.par_path Sample.t1) = Some (VFloat 3) /\
  exists stored,
    Dict.get "SliceTiming" (@Batch.extract_philips_bids_3sites py_rt
       (Some Sample.header) Sample.par_path Sample.t1) = Some stored /\
    py_eq stored spec_example_timing = false /\
    stored <> spec_example_timing.
Proof.
  split; [vm_compute; reflexivity|]. split; [vm_compute; reflexivity|].
  eexists. split; [vm_compute; reflexivity|].
  split; [vm_compute; reflexivity|].
  intros H. apply (f_equal (fun v => py_eq v spec_example_timing)) in H.
  vm_compute in H. discriminate H.
Qed.

(** C2 (worked example), as the code has it.  For six slices and a
    repetition time of 3.0 s the acquisition order is [0,2,4,1,3,5] and
    [SliceTiming] is [0.0, 1.5, 0.5, 2.0, 1.0, 2.5]: slice [s] holds the time
    of its rank.  The block stores it in every field set with that
    repetition time, and the batch and the targeted extractor return it on
    the sample header. *)
Theorem worked_example_by_slice :
  acquisition_order 6 = [0; 2; 4; 1; 3; 5] /\
  interleaved_slice_timing 3 6 = inr [0; 1.5; 0.5; 2; 1; 2.5]%float /\
  (forall method bids_fields,
     Dict.get "RepetitionTime" bids_fields = Some (VFloat 3) ->
     exists bids_fields',
       slice_timing_block method (Some 6) bids_fields = inr bids_fields' /\
       Dict.get "SliceTiming" bids_fields'
       = Some (VList (map VFloat [0; 1.5; 0.5; 2; 1; 2.5]%float))) /\
  Dict.get "SliceTiming" (@Batch.extract_philips_bids_3sites py_rt
     (Some Sample.header) Sample.par_path Sample.t1)
  = Some (VList (map VFloat [0; 1.5; 0.5; 2; 1; 2.5]%float)) /\
  Dict.get "SliceTiming" (@Targeted.extract_complete_philips_params py_rt
     (Some Sample.header) Sample.t1)
  = Some (VList (map VFloat [0; 1.5; 0.5; 2; 1; 2.5]%float)).
Proof.
  split; [reflexivity|]. split; [vm_compute; reflexivity|].
  split; [|split; vm_compute; reflexivity].
  intros method bids_fields Htr.
  unfold slice_timing_block, Dict.mem. rewrite Htr. cbn [truthy_int Z.eqb negb andb].
  replace (interleaved_slice_timing 3 6) with
    (inr [0; 1.5; 0.5; 2; 1; 2.5]%float : py (list float))
    by (vm_compute; reflexivity).
  cbn [bind ret]. eexists. split; [reflexivity|].
  destruct method; rewrite ?get_set_ne by discriminate; apply get_set_eq.
Qed.

(** ** Effective echo spacing *)

Lemma bandwidth_factor_constant (site : site_info) :
  Batch.bandwidth_factor site = 434.215%float.
Proof.
  unfold Batch.bandwidth_factor.
  repeat match goal with |- context [String.eqb ?a ?b] =>
    destruct (String.eqb a b) end; reflexivity.
Qed.

Lemma of_int_in_range (n : Z) :
  Z.abs n < Fl.int_max -> Fl.of_int n = inr (Fl.of_Z n).
Proof.
  intros H. unfold Fl.of_int.
  destruct (Z.ltb_spec (Z.abs n) Fl.int_max); [reflexivity|lia].
Qed.

(** The [try] body on a non-zero shift and a matrix size in the range of
    [float]. *)
Lemma echo_spacing_cases (factor wfs : float) (recon_y : Z) :
  Fl.truthy wfs = true -> Z.abs recon_y < Fl.int_max ->
  echo_spacing factor wfs recon_y
  = if ((factor / wfs) * Fl.of_Z recon_y =? 0)%float
    then inl ZeroDivisionError
    else inr (Fl.round (1 / ((factor / wfs) * Fl.of_Z recon_y))%float 8).
Proof.
  intros Ht Hr. unfold echo_spacing, Fl.div at 1, Fl.times_int.
  unfold Fl.truthy in Ht. destruct (wfs =? 0)%float; [discriminate Ht|].
  cbn [bind ret raise]. rewrite of_int_in_range by exact Hr.
  cbn [bind ret raise]. unfold Fl.div.
  destruct ((factor / wfs) * Fl.of_Z recon_y =? 0)%float; reflexivity.
Qed.

(** C3, the claim as stated.  [header_huge_shift] gives a water-fat shift of
    [inf], which is positive, and a phase-encode dimension of 80; the
    bandwidth [434.215 / inf * 80] is zero, the division by it raises, and the
    batch extractor returns a field set without [EffectiveEchoSpacing], while
    the targeted extractor stores its fallback 0.0005. *)
Lemma echo_spacing_not_set_for_huge_shift :
  Dict.get "WaterFatShift" (@Batch.extract_philips_bids_3sites py_rt
     (Some header_huge_shift) Sample.par_path Sample.t1)
  = Some (VFloat infinity) /\
  positive (Some infinity) = true /\
  Dict.get "ReconMatrixPE" (@Batch.extract_philips_bids_3sites py_rt
     (Some header_huge_shift) Sample.par_path Sample.t1) = Some (VInt 80) /\
  Dict.get "EffectiveEchoSpacing" (@Batch.extract_philips_bids_3sites py_rt
     (Some header_huge_shift) Sample.par_path Sample.t1) = None /\
  echo_spacing 434.215 infinity 80 = inl ZeroDivisionError /\
  Dict.get "EffectiveEchoSpacing" (@Targeted.extract_complete_philips_params
     py_rt (Some header_huge_shift) Sample.t1) = Some (VFloat 0.0005).
Proof.
  remember (@Batch.extract_philips_bids_3sites py_rt
     (Some header_huge_shift) Sample.par_path Sample.t1) as fields eqn:E.
  vm_compute in E. subst fields.
  repeat split; vm_compute; reflexivity.
Qed.

(** C3 (effective echo spacing), amended.  For a positive water-fat shift
    and a non-zero phase-encode dimension read by [safe_int]: when the
    bandwidth [(434.215 / wfs) * reconY] is not zero, the
    batch extractor stores [round(1 / ((434.215 / wfs) * reconY), 8)] under
    [EffectiveEchoSpacing] and the targeted extractor has the same value;
    when the bandwidth is zero the batch extractor leaves the field out and
    the targeted one takes 0.0005.  With an input missing the batch extractor
    leaves the fields as they are and the targeted one takes 0.0005.  For
    [wfs = 10.0] and [reconY = 80] the value is 0.00028788, which is what both
    extractors return on the sample header. *)
Theorem echo_spacing_from_shift_and_matrix {RT : PyRuntime}
  (site : site_info) (wfs : float) (text : string) (recon_y : Z)
  (bids_fields : dict) :
  positive (Some wfs) = true ->
  safe_int text = inr (Some recon_y) ->
  recon_y <> 0 ->
  (((434.215 / wfs) * Fl.of_Z recon_y =? 0)%float = false ->
   Batch.effective_echo_spacing site (Some wfs) (Some recon_y) bids_fields
   = Dict.set "EffectiveEchoSpacing" (VFloat (spec_echo_spacing wfs recon_y))
       bids_fields /\
   Targeted.effective_echo_spacing_value (Some wfs) (Some recon_y)
   = spec_echo_spacing wfs recon_y) /\
  (((434.215 / wfs) * Fl.of_Z recon_y =? 0)%float = true ->
   Batch.effective_echo_spacing site (Some wfs) (Some recon_y) bids_fields
   = bids_fields /\
   Targeted.effective_echo_spacing_value (Some wfs) (Some recon_y)
   = 0.0005%float) /\
  (forall pe, Batch.effective_echo_spacing site None pe bids_fields
              = bids_fields) /\
  (forall shift, Batch.effective_echo_spacing site shift None bids_fields
                 = bids_fields) /\
  (forall pe, Targeted.effective_echo_spacing_value None pe = 0.0005%float) /\
  (forall shift,
     Targeted.effective_echo_spacing_value shift None = 0.0005%float) /\
  spec_echo_spacing 10 80 = 0.00028788%float /\
  Dict.get "EffectiveEchoSpacing" (@Batch.extract_philips_bids_3sites py_rt
     (Some Sample.header) Sample.par_path Sample.t1)
  = Some (VFloat (spec_echo_spacing 10 80)) /\
  Dict.get "EffectiveEchoSpacing" (@Targeted.extract_complete_philips_params
     py_rt (Some Sample.header) Sample.t1)
  = Some (VFloat (spec_echo_spacing 10 80)).
Proof.
  intros Hpos Hint Hpe. unfold positive in Hpos.
  apply andb_prop in Hpos as [Ht _].
  assert (Hnz : (recon_y =? 0) = false) by (apply Z.eqb_neq; exact Hpe).
  assert (Hr : Z.abs recon_y < Fl.int_max) by exact (safe_int_in_range _ _ Hint).
  unfold Batch.effective_echo_spacing, Targeted.effective_echo_spacing_value,
    truthy_float, truthy_int, spec_echo_spacing.
  rewrite Ht, Hnz, bandwidth_factor_constant. cbn [negb andb].
  rewrite (echo_spacing_cases 434.215 wfs recon_y Ht Hr).
  split; [intros ->; split; reflexivity|].
  split; [intros ->; split; reflexivity|].
  split; [reflexivity|].
  split; [intros shift; rewrite andb_false_r; reflexivity|].
  split; [reflexivity|].
  split; [intros shift; rewrite andb_false_r; reflexivity|].
  split; [vm_compute; reflexivity|].
  split; vm_compute; reflexivity.
Qed.

Lemma echo_spacing_from_shift_and_matrix_witness :
  Batch.effective_echo_spacing site_info_init (Some 10%float) (Some 80) []
  = [("EffectiveEchoSpacing", VFloat (spec_echo_spacing 10 80))] /\
  Targeted.effective_echo_spacing_value (Some 10%float) (Some 80)
  = spec_echo_spacing 10 80.
Proof.
  apply (proj1 (@echo_spacing_from_shift_and_matrix py_rt site_info_init
                  10 "80" 80 [] eq_refl eq_refl ltac:(discriminate))).
  vm_compute. reflexivity.
Defined.

(** ** Site detection *)

Lemma compile_subject :
  Re.compile (Re.mk_flags false false) "110(\d{3})" = Some (subject_regex, 1%nat).
Proof. reflexivity. Qed.

Lemma skip_next (text : string) : forall pos a s,
  Re.skip pos text = String a s -> Re.skip (S pos) text = s.
Proof.
  induction text as [|b text IH]; intros pos a s H.
  - destruct pos; discriminate H.
  - destruct pos as [|pos]; cbn [Re.skip] in *.
    + injection H as _ ->. destruct s; reflexivity.
    + destruct pos as [|pos]; cbn [Re.skip] in *.
      * rewrite H. reflexivity.
      * apply (IH (S pos) a s). exact H.
Qed.

Lemma digit_cases (a : ascii) :
  Str.is_digit a = true ->
  In a ["0"; "1"; "2"; "3"; "4"; "5"; "6"; "7"; "8"; "9"]%char.
Proof.
  destruct a as [[] [] [] [] [] [] [] []]; intros H;
    try discriminate H; cbn; tauto.
Qed.

Lemma int_of_three_digits (d1 d2 d3 : ascii) :
  Str.is_digit d1 = true -> Str.is_digit d2 = true -> Str.is_digit d3 = true ->
  Parse.int_of_str (String d1 (String d2 (String d3 ""))) <> None.
Proof.
  intros H1 H2 H3.
  apply digit_cases in H1, H2, H3. cbn [In] in H1, H2, H3.
  repeat match goal with
         | H : _ \/ _ |- _ => destruct H as [H|H]
         | H : False |- _ => destruct H
         | H : _ = _ |- _ => subst
         end; vm_compute; discriminate.
Qed.

Lemma match_at_subject (text s : string) (pos : nat) (c : Re.caps) :
  Re.skip pos text = s ->
  Re.match_at text subject_regex s pos = Some c ->
  exists d1 d2 d3,
    Str.is_digit d1 = true /\ Str.is_digit d2 = true /\ Str.is_digit d3 = true /\
    Re.lookup 1 c = String d1 (String d2 (String d3 "")).
Proof.
  intros Hs H. unfold Re.match_at, subject_regex in H.
  cbn [Re.run Re.repeat_seq] in H.
  destruct s as [|a1 s]; [discriminate H|].
  destruct (Ascii.eqb "1" a1); [|discriminate H].
  destruct s as [|a2 s]; [discriminate H|].
  destruct (Ascii.eqb "1" a2); [|discriminate H].
  destruct s as [|a3 s]; [discriminate H|].
  destruct (Ascii.eqb "0" a3); [|discriminate H].
  destruct s as [|d1 s]; [discriminate H|].
  destruct (Str.is_digit d1) eqn:E1; [|discriminate H].
  destruct s as [|d2 s]; [discriminate H|].
  destruct (Str.is_digit d2) eqn:E2; [|discriminate H].
  destruct s as [|d3 s]; [discriminate H|].
  destruct (Str.is_digit d3) eqn:E3; [|discriminate H].
  injection H as <-.
  exists d1, d2, d3. repeat split; try assumption.
  change (Re.take (S (S (S pos)) - pos) (Re.skip (S (S (S pos))) text)
          = String d1 (String d2 (String d3 ""))).
  rewrite (skip_next text _ a3 (String d1 (String d2 (String d3 s)))).
  - replace (S (S (S pos)) - pos)%nat with 3%nat by lia. reflexivity.
  - apply (skip_next text _ a2). apply (skip_next text _ a1). exact Hs.
Qed.

Lemma search_from_subject (text : string) : forall s pos c,
  Re.skip pos text = s ->
  Re.search_from text subject_regex s pos = Some c ->
  exists d1 d2 d3,
    Str.is_digit d1 = true /\ Str.is_digit d2 = true /\ Str.is_digit d3 = true /\
    Re.lookup 1 c = String d1 (String d2 (String d3 "")).
Proof.
  induction s as [|a s IH]; intros pos c Hs H; cbn [Re.search_from] in H.
  - destruct (Re.match_at text subject_regex "" pos) eqn:E; [|discriminate H].
    injection H as ->. exact (match_at_subject _ _ _ _ Hs E).
  - destruct (Re.match_at text subject_regex (String a s) pos) eqn:E.
    + injection H as ->. exact (match_at_subject _ _ _ _ Hs E).
    + apply (IH (S pos) c); [|exact H]. apply (skip_next text pos a). exact Hs.
Qed.

Lemma py_rt_accepts_subject_digits : int_accepts_subject_digits py_rt.
Proof.
  intros text m H. cbn [re_search py_rt] in H. unfold Re.search in H.
  cbn [existsb] in H. rewrite compile_subject in H.
  destruct (Re.search_from text subject_regex text 0) as [c|] eqn:E;
    [|discriminate H].
  injection H as <-.
  destruct (search_from_subject text text 0%nat c eq_refl E)
    as (d1 & d2 & d3 & H1 & H2 & H3 & Hc).
  cbn [int_of_str py_rt]. unfold group, Re.groups. cbn [seq map nth].
  rewrite Hc. apply int_of_three_digits; assumption.
Qed.

Lemma additional_characteristics_site (content : string) (s : site_info) :
  tool_version (additional_characteristics content s) = tool_version s /\
  site_group (additional_characteristics content s) = site_group s /\
  actual_site (additional_characteristics content s) = actual_site s /\
  confidence (additional_characteristics content s) = confidence s.
Proof.
  unfold additional_characteristics.
  repeat match goal with |- context [Str.contains ?a ?b] =>
    destruct (Str.contains a b) end; repeat split; reflexivity.
Qed.

Ltac site_cases :=
  repeat (match goal with
          | |- context [match re_search ?a ?b ?c with _ => _ end] =>
              destruct (re_search a b c) eqn:?
          | |- context [match int_of_str ?a with _ => _ end] =>
              destruct (int_of_str a) eqn:?
          | |- context [if ?b then _ else _] => destruct b eqn:?
          end; cbn [bind ret raise]).

Ltac site_fields :=
  cbn [tool_version site_group actual_site confidence set_confidence
       set_actual_site set_site_group add_characteristic set_version
       set_tool_version] in *.

Section Detection.
Context {RT : PyRuntime}.

(** The three methods that tell Amsterdam from Leiden, and the default. *)
Ltac name_stages :=
  match goal with
  | |- context [match re_search "Patient name\s*:\s*(.+?)(?:\n|$)" ?c ?f with
                | Some m => @?a m | None => ?b end] =>
      remember (match re_search "Patient name\s*:\s*(.+?)(?:\n|$)" c f with
                | Some m => a m | None => b end) as by_patient eqn:Hpatient
  end;
  match goal with
  | p : site_info
    |- context [if String.eqb (actual_site ?p) "unknown" && ?t
                then ?a else ?p] =>
      remember (if String.eqb (actual_site p) "unknown" && t
                then a else p) as by_path eqn:Hpath
  end.

Lemma detect_nesda_site_version (content file_path : string) (s : site_info) :
  Batch.detect_nesda_site content file_path = inr s ->
  tool_version s = "4.1" ->
  site_group s = "Groningen" /\ actual_site s = "Groningen" /\
  confidence s = "high".
Proof.
  unfold Batch.detect_nesda_site.
  destruct (re_search "Research image export tool\s+V([\d.]+)" content [])
    as [m|]; cbn [bind ret raise].
  - destruct (String.eqb (group m 1) "4.1") eqn:E41; cbn [bind ret raise].
    + intros H _. injection H as <-.
      destruct (additional_characteristics_site content
        (set_confidence "high" (add_characteristic "V4.1_format"
           (set_actual_site "Groningen" (set_site_group "Groningen"
              (set_version ("V" +:+ group m 1)
                 (set_tool_version (group m 1) site_info_init)))))))
        as (_ & -> & -> & ->).
      repeat split; reflexivity.
    + apply String.eqb_neq in E41.
      destruct (String.eqb (group m 1) "4.2"); cbn [bind ret raise].
      * name_stages.
        assert (H1 : tool_version by_patient = group m 1)
          by (subst by_patient; site_cases; reflexivity).
        assert (H2 : tool_version by_path = group m 1)
          by (subst by_path; site_cases; assumption).
        clear Hpatient Hpath.
        site_cases; intros H Htv; try discriminate H; injection H as <-;
          rewrite (proj1 (additional_characteristics_site _ _)) in Htv;
          site_fields; congruence.
      * intros H Htv. injection H as <-.
        rewrite (proj1 (additional_characteristics_site _ _)) in Htv.
        site_fields; contradiction.
  - intros H Htv. injection H as <-.
    rewrite (proj1 (additional_characteristics_site _ _)) in Htv.
    discriminate Htv.
Qed.

Lemma detect_nesda_site_returns (content file_path : string) :
  int_accepts_subject_digits RT ->
  exists s, Batch.detect_nesda_site content file_path = inr s.
Proof.
  intros Hint. unfold Batch.detect_nesda_site.
  destruct (re_search "Research image export tool\s+V([\d.]+)" content [])
    as [m|]; cbn [bind ret raise]; [|eexists; reflexivity].
  destruct (String.eqb (group m 1) "4.1"); cbn [bind ret raise];
    [eexists; reflexivity|].
  destruct (String.eqb (group m 1) "4.2"); cbn [bind ret raise];
    [|eexists; reflexivity].
  name_stages. clear Hpatient Hpath.
  site_cases; try (eexists; reflexivity).
  all: match goal with
       | H : re_search "110(\d{3})" _ [] = Some _, E : int_of_str _ = None |- _ =>
           destruct (Hint _ _ H E)
       end.
Qed.

Lemma detect_nesda_site_w6_version (content file_path : string) :
  tool_version (W6.detect_nesda_site_w6 content file_path) = "4.1" ->
  site_group (W6.detect_nesda_site_w6 content file_path) = "Groningen" /\
  actual_site (W6.detect_nesda_site_w6 content file_path) = "Groningen" /\
  confidence (W6.detect_nesda_site_w6 content file_path) = "high".
Proof.
  unfold W6.detect_nesda_site_w6. cbv zeta.
  match goal with |- context [additional_characteristics content ?x] =>
    destruct (additional_characteristics_site content x) as (E1 & E2 & E3 & E4);
    rewrite E1, E2, E3, E4; clear E1 E2 E3 E4
  end.
  destruct (re_search "Research image export tool\s+V([\d.]+)" content [])
    as [m|]; [|intros H; discriminate H].
  destruct (String.eqb (group m 1) "4.1") eqn:E41;
    [intros _; repeat split; reflexivity|].
  apply String.eqb_neq in E41.
  destruct (String.eqb (group m 1) "4.2"); [|intros H; contradiction].
  name_stages.
  assert (H1 : tool_version by_patient = group m 1)
    by (subst by_patient; site_cases; reflexivity).
  assert (H2 : tool_version by_path = group m 1)
    by (subst by_path; site_cases; assumption).
  clear Hpatient Hpath. site_cases; intros Htv; site_fields; congruence.
Qed.

End Detection.

(** C4 (site detection).  For every run-time library, header and path:
    a result of [detect_nesda_site] or [detect_nesda_site_w6] whose tool
    version is "4.1" has site group and site Groningen and confidence high,
    whatever the patient name; a header whose version line reads 4.1 gets
    such a result; a header without a version line gets the initial record,
    of low confidence, with the characteristics found.  [detect_nesda_site]
    returns a record for every library whose [int] accepts the three digits
    captured from the examination name, and so for the library of this
    development on every input; [detect_nesda_site_w6] has no operation that
    can raise.  A version 4.1 header with an Amsterdam patient name is
    Groningen for both. *)
Theorem version_4_1_is_groningen {RT : PyRuntime} (content file_path : string) :
  (forall s, Batch.detect_nesda_site content file_path = inr s ->
     tool_version s = "4.1" ->
     site_group s = "Groningen" /\ actual_site s = "Groningen" /\
     confidence s = "high") /\
  (tool_version (W6.detect_nesda_site_w6 content file_path) = "4.1" ->
   site_group (W6.detect_nesda_site_w6 content file_path) = "Groningen" /\
   actual_site (W6.detect_nesda_site_w6 content file_path) = "Groningen" /\
   confidence (W6.detect_nesda_site_w6 content file_path) = "high") /\
  (forall m,
     re_search "Research image export tool\s+V([\d.]+)" content [] = Some m ->
     group m 1 = "4.1" ->
     (exists s, Batch.detect_nesda_site content file_path = inr s /\
                tool_version s = "4.1") /\
     tool_version (W6.detect_nesda_site_w6 content file_path) = "4.1") /\
  (re_search "Research image export tool\s+V([\d.]+)" content [] = None ->
   Batch.detect_nesda_site content file_path
   = inr (additional_characteristics content site_info_init) /\
   W6.detect_nesda_site_w6 content file_path
   = additional_characteristics content site_info_init /\
   actual_site (additional_characteristics content site_info_init) = "unknown" /\
   confidence (additional_characteristics content site_info_init) = "low") /\
  (int_accepts_subject_digits RT ->
   exists s, Batch.detect_nesda_site content file_path = inr s) /\
  (exists s, @Batch.detect_nesda_site py_rt content file_path = inr s) /\
  @Batch.detect_nesda_site py_rt Sample.header_v41 Sample.par_path
  = inr (mk_site_info "V4.1" "4.1" "Groningen" "Groningen" ["V4.1_format"] "high") /\
  @W6.detect_nesda_site_w6 py_rt Sample.header_v41 Sample.par_path
  = mk_site_info "V4.1" "4.1" "Groningen" "Groningen" ["V4.1_format"] "high".
Proof.
  split; [intros s; apply detect_nesda_site_version|].
  split; [apply detect_nesda_site_w6_version|].
  split.
  { intros m Hm H41.
    unfold Batch.detect_nesda_site, W6.detect_nesda_site_w6.
    rewrite Hm, H41. cbn [String.eqb Ascii.eqb Bool.eqb bind ret].
    split; [eexists; split; [reflexivity|]|];
      rewrite (proj1 (additional_characteristics_site _ _)); reflexivity. }
  split.
  { intros Hm. unfold Batch.detect_nesda_site, W6.detect_nesda_site_w6.
    rewrite Hm. cbn [bind ret].
    destruct (additional_characteristics_site content site_info_init)
      as (_ & _ & -> & ->).
    repeat split; reflexivity. }
  split; [apply detect_nesda_site_returns|].
  split; [apply detect_nesda_site_returns, py_rt_accepts_subject_digits|].
  split; vm_compute; reflexivity.
Qed.

(** ** Phase-encoding direction *)

Lemma direction_code_cases (d : string) :
  (Str.contains "anterior-posterior" d = true -> direction_code d = Some "j-") /\
  (Str.contains "anterior-posterior" d = false -> d <> "ap" ->
   Str.contains "posterior-anterior" d = true -> direction_code d = Some "j") /\
  (Str.contains "anterior-posterior" d = false -> d <> "ap" ->
   Str.contains "posterior-anterior" d = false -> d <> "pa" ->
   Str.contains "left-right" d = true -> direction_code d = Some "i-") /\
  (Str.contains "anterior-posterior" d = false -> d <> "ap" ->
   Str.contains "posterior-anterior" d = false -> d <> "pa" ->
   Str.contains "left-right" d = false -> d <> "lr" ->
   Str.contains "right-left" d = true -> direction_code d = Some "i") /\
  (Str.contains "anterior-posterior" d = false -> d <> "ap" ->
   Str.contains "posterior-anterior" d = false -> d <> "pa" ->
   Str.contains "left-right" d = false -> d <> "lr" ->
   Str.contains "right-left" d = false -> d <> "rl" ->
   direction_code d = None).
Proof.
  unfold direction_code.
  repeat split; intros;
    repeat match goal with
           | H : Str.contains _ _ = _ |- _ => rewrite H; clear H
           | H : _ <> _ |- _ => apply String.eqb_neq in H; rewrite H; clear H
           end; reflexivity.
Qed.

Lemma direction_code_range (d c : string) :
  direction_code d = Some c -> In c ["j-"; "j"; "i-"; "i"].
Proof.
  unfold direction_code.
  repeat match goal with |- context [if ?b then _ else _] => destruct b end;
    intros H; try discriminate H; injection H as <-; cbn; tauto.
Qed.

Section PhaseEncodingFacts.
Context {RT : PyRuntime}.

(** The loop of the batch extractor goes on until a pattern gives a code. *)
Lemma batch_phase_loop (content : string) (bids_fields : dict) :
  forall patterns,
    for_break_pure (Batch.phase_body content) patterns (None, bids_fields)
    = match first_some
              (map (fun p => code_of_match (re_search p content [IGNORECASE]))
                   patterns) with
      | Some c => (Some c, Dict.set "PhaseEncodingDirection" (VStr c) bids_fields)
      | None => (None, bids_fields)
      end.
Proof.
  induction patterns as [|p ps IH]; [reflexivity|].
  cbn [for_break_pure map first_some].
  remember (Batch.phase_body content p (None, bids_fields)) as r eqn:Hr.
  unfold Batch.phase_body in Hr.
  destruct (re_search p content [IGNORECASE]) as [m|]; cbn [code_of_match];
    [|subst r; exact IH].
  destruct (direction_code (Str.lower (Str.strip (group m 1))));
    cbn [fst snd] in Hr; subst r; cbn [fst snd]; [reflexivity|exact IH].
Qed.

(** The loop of the targeted extractor ends at the first pattern that
    matches, with or without a code. *)
Lemma targeted_phase_loop (content : string) :
  forall patterns,
    for_break_pure (Targeted.phase_body content) patterns None
    = code_of_match (first_match patterns content).
Proof.
  unfold first_match.
  induction patterns as [|p ps IH]; [reflexivity|].
  cbn [for_break_pure map first_some].
  remember (Targeted.phase_body content p None) as r eqn:Hr.
  unfold Targeted.phase_body in Hr.
  destruct (re_search p content [IGNORECASE]) as [m|]; subst r; cbn [fst snd];
    [|exact IH].
  cbn [code_of_match].
  destruct (direction_code (Str.lower (Str.strip (group m 1)))); reflexivity.
Qed.

End PhaseEncodingFacts.

(** C8 (phase-encoding direction).  The lowercased text is tested for the
    phrases in the order anterior-posterior, posterior-anterior, left-right,
    right-left (or the abbreviations ap, pa, lr, rl as the whole text), the
    first test that holds giving "j-", "j", "i-", "i"; a text that passes
    none has no code.  The batch extractor stores the code of the first of
    its patterns whose text has one and leaves the fields as they are when
    there is none; the targeted and the single-subject extractor take the
    first pattern that matches and store "j-" when it has no code or nothing
    matches; [bids_par_json_updater.py] tests the first word for ap/anterior,
    pa/posterior, lr/left, rl/right in that order and stores "j-" otherwise.
    The last conjuncts run the four extractors on sample lines. *)
Theorem phase_direction_by_first_phrase {RT : PyRuntime}
  (content : string) (bids_fields : dict) :
  (forall d,
     (Str.contains "anterior-posterior" d = true -> direction_code d = Some "j-") /\
     (Str.contains "anterior-posterior" d = false -> d <> "ap" ->
      Str.contains "posterior-anterior" d = true -> direction_code d = Some "j") /\
     (Str.contains "anterior-posterior" d = false -> d <> "ap" ->
      Str.contains "posterior-anterior" d = false -> d <> "pa" ->
      Str.contains "left-right" d = true -> direction_code d = Some "i-") /\
     (Str.contains "anterior-posterior" d = false -> d <> "ap" ->
      Str.contains "posterior-anterior" d = false -> d <> "pa" ->
      Str.contains "left-right" d = false -> d <> "lr" ->
      Str.contains "right-left" d = true -> direction_code d = Some "i") /\
     (Str.contains "anterior-posterior" d = false -> d <> "ap" ->
      Str.contains "posterior-anterior" d = false -> d <> "pa" ->
      Str.contains "left-right" d = false -> d <> "lr" ->
      Str.contains "right-left" d = false -> d <> "rl" ->
      direction_code d = None)) /\
  map direction_code ["ap"; "pa"; "lr"; "rl"]
  = [Some "j-"; Some "j"; Some "i-"; Some "i"] /\
  (forall d c, direction_code d = Some c -> In c ["j-"; "j"; "i-"; "i"]) /\
  Batch.phase_encoding_direction content bids_fields
  = match first_some
            (map (fun p => code_of_match (re_search p content [IGNORECASE]))
                 Batch.prep_patterns) with
    | Some c => Dict.set "PhaseEncodingDirection" (VStr c) bids_fields
    | None => bids_fields
    end /\
  Targeted.phase_encoding_direction content bids_fields
  = Dict.set "PhaseEncodingDirection"
      (VStr match code_of_match (first_match Targeted.prep_patterns content) with
            | Some c => c
            | None => "j-"
            end) bids_fields /\
  SingleSubject.phase_encoding_direction content bids_fields
  = Dict.set "PhaseEncodingDirection"
      (VStr match code_of_match
                    (re_search "Preparation direction\s*:\s*([^\n\r]+)" content
                               [IGNORECASE]) with
            | Some c => c
            | None => "j-"
            end) bids_fields /\
  (forall w,
     (Str.contains "ap" w || Str.contains "anterior" w = true ->
      BidsPar.direction_code w = Some "j-") /\
     (Str.contains "ap" w || Str.contains "anterior" w = false ->
      Str.contains "pa" w || Str.contains "posterior" w = true ->
      BidsPar.direction_code w = Some "j") /\
     (Str.contains "ap" w || Str.contains "anterior" w = false ->
      Str.contains "pa" w || Str.contains "posterior" w = false ->
      Str.contains "lr" w || Str.contains "left" w = true ->
      BidsPar.direction_code w = Some "i-") /\
     (Str.contains "ap" w || Str.contains "anterior" w = false ->
      Str.contains "pa" w || Str.contains "posterior" w = false ->
      Str.contains "lr" w || Str.contains "left" w = false ->
      Str.contains "rl" w || Str.contains "right" w = true ->
      BidsPar.direction_code w = Some "i")) /\
  (forall c,
     Dict.get "PhaseEncodingDirection"
       (BidsPar.phase_encoding_direction content bids_fields) = Some (VStr c) ->
     In c ["j-"; "j"; "i-"; "i"]) /\
  (re_search "phase encoding direction\s*:\s*(\w+)" content [IGNORECASE] = None ->
   BidsPar.phase_encoding_direction content bids_fields
   = Dict.set "PhaseEncodingDirection" (VStr "j-") bids_fields) /\
  map (fun t => Dict.get "PhaseEncodingDirection"
                  (@Batch.phase_encoding_direction py_rt (prep_line t) []))
      sample_directions
  = [Some (VStr "j-"); Some (VStr "j"); Some (VStr "i-"); Some (VStr "i");
     Some (VStr "j-"); Some (VStr "j"); None] /\
  map (fun t => Dict.get "PhaseEncodingDirection"
                  (@Targeted.phase_encoding_direction py_rt (prep_line t) []))
      sample_directions
  = [Some (VStr "j-"); Some (VStr "j"); Some (VStr "i-"); Some (VStr "i");
     Some (VStr "j-"); Some (VStr "j"); Some (VStr "j-")] /\
  map (fun t => Dict.get "PhaseEncodingDirection"
                  (@SingleSubject.phase_encoding_direction py_rt (prep_line t) []))
      sample_directions
  = [Some (VStr "j-"); Some (VStr "j"); Some (VStr "i-"); Some (VStr "i");
     Some (VStr "j-"); Some (VStr "j"); Some (VStr "j-")] /\
  map (fun t => Dict.get "PhaseEncodingDirection"
                  (@BidsPar.phase_encoding_direction py_rt (phase_line t) []))
      sample_directions
  = [Some (VStr "j-"); Some (VStr "j"); Some (VStr "i-"); Some (VStr "i");
     Some (VStr "j-"); Some (VStr "j"); Some (VStr "j-")] /\
  Dict.get "PhaseEncodingDirection"
    (@Batch.extract_philips_bids_3sites py_rt (Some (prep_line "Feet-Head"))
       Sample.par_path Sample.t1) = None /\
  Dict.get "PhaseEncodingDirection"
    (@Targeted.extract_complete_philips_params py_rt
       (Some (prep_line "Feet-Head")) Sample.t1) = Some (VStr "j-").
Proof.
  split; [exact direction_code_cases|].
  split; [reflexivity|].
  split; [exact direction_code_range|].
  split.
  { unfold Batch.phase_encoding_direction. rewrite batch_phase_loop.
    destruct (first_some _); reflexivity. }
  split.
  { unfold Targeted.phase_encoding_direction. cbv zeta.
    rewrite targeted_phase_loop. reflexivity. }
  split.
  { unfold SingleSubject.phase_encoding_direction. cbv zeta.
    cbn [for_break_pure]. unfold SingleSubject.phase_body.
    destruct (re_search _ content [IGNORECASE]) as [m|]; cbn [code_of_match fst snd];
      [|reflexivity].
    destruct (direction_code _); reflexivity. }
  split.
  { intros w. unfold BidsPar.direction_code.
    repeat split; intros;
      repeat match goal with H : _ || _ = _ |- _ => rewrite H; clear H end;
      reflexivity. }
  split.
  { intros c. unfold BidsPar.phase_encoding_direction. cbv zeta.
    rewrite get_set_eq. unfold BidsPar.direction_code.
    destruct (re_search _ content [IGNORECASE]) as [m|];
      repeat match goal with |- context [if ?b then _ else _] => destruct b end;
      intros H; injection H as <-; cbn; tauto. }
  split.
  { intros H. unfold BidsPar.phase_encoding_direction. rewrite H. reflexivity. }
  repeat split; vm_compute; reflexivity.
Qed.

(** ** The targeted extractor *)

Lemma bind_inr {A B : Type} (m : py A) (k : A -> py B) (r : B) :
  bind m k = inr r -> exists a, m = inr a /\ k a = inr r.
Proof.
  destruct m as [e|a]; cbn [bind]; [discriminate|].
  intros H. exists a. split; [reflexivity|exact H].
Qed.

Lemma set_not_empty (k : string) (v : value) (d : dict) : Dict.set k v d <> [].
Proof.
  destruct d as [|[k' v'] d]; cbn [Dict.set]; [discriminate|].
  destruct (String.eqb k k'); discriminate.
Qed.

(** An invariant of the state holds after a loop when every pass keeps it. *)
Lemma for_break_pure_inv {S X : Type} (I : S -> Prop) (body : X -> S -> S * bool) :
  (forall x s, I s -> I (fst (body x s))) ->
  forall xs s, I s -> I (for_break_pure body xs s).
Proof.
  intros Hbody. induction xs as [|x xs IH]; intros s Hs; cbn [for_break_pure];
    [exact Hs|].
  destruct (snd (body x s)); [|apply IH]; apply Hbody; exact Hs.
Qed.

Lemma for_break_inv {S X : Type} (I : S -> Prop) (body : X -> S -> py (S * bool)) :
  (forall x s r, I s -> body x s = inr r -> I (fst r)) ->
  forall xs s r, I s -> for_break body xs s = inr r -> I r.
Proof.
  intros Hbody. induction xs as [|x xs IH]; intros s r Hs H; cbn [for_break] in H.
  - injection H as <-. exact Hs.
  - apply bind_inr in H as (a & Ha & H). pose proof (Hbody x s a Hs Ha) as Hi.
    destruct (snd a); [injection H as <-; exact Hi|exact (IH _ _ Hi H)].
Qed.

Section TargetedFacts.
Context {RT : PyRuntime}.
Implicit Types (k key : string) (f g : dict).

Lemma str_field_keeps k patterns key default content f :
  k <> key ->
  Dict.get k (Targeted.str_field patterns key default content f) = Dict.get k f.
Proof.
  intros Hk. unfold Targeted.str_field. cbv zeta.
  assert (H : Dict.get k (for_break_pure (Targeted.str_field_body content key)
                            patterns f) = Dict.get k f).
  { apply (for_break_pure_inv (fun g => Dict.get k g = Dict.get k f));
      [|reflexivity].
    intros p g Hg. unfold Targeted.str_field_body.
    destruct (re_search p content [IGNORECASE]); [|exact Hg].
    destruct (Str.truthy _); cbn [fst]; [|exact Hg].
    rewrite get_set_ne by exact Hk. exact Hg. }
  destruct (negb _); [rewrite get_set_ne by exact Hk|]; exact H.
Qed.

Lemma int_field_keeps k patterns key default content f g :
  Targeted.int_field patterns key default content f = inr g ->
  k <> key -> Dict.get k g = Dict.get k f.
Proof.
  intros H Hk. unfold Targeted.int_field in H.
  apply bind_inr in H as (h & Hh & H). injection H as <-.
  assert (E : Dict.get k h = Dict.get k f).
  { revert Hh. apply (for_break_inv (fun g => Dict.get k g = Dict.get k f));
      [|reflexivity].
    intros p s r Hs Hr. unfold Targeted.int_field_body in Hr.
    destruct (re_search p content [IGNORECASE]);
      [|injection Hr as <-; exact Hs].
    apply bind_inr in Hr as ([n|] & _ & Hr);
      [|injection Hr as <-; exact Hs].
    destruct (negb (n =? 0)); injection Hr as <-; cbn [fst]; [|exact Hs].
    rewrite get_set_ne by exact Hk. exact Hs. }
  destruct (negb _); [rewrite get_set_ne by exact Hk|]; exact E.
Qed.

Lemma default_float_keeps k key x f :
  k <> key -> Dict.get k (Targeted.default_float key x f) = Dict.get k f.
Proof.
  intros Hk. unfold Targeted.default_float.
  destruct (negb _); [apply get_set_ne; exact Hk|reflexivity].
Qed.

Lemma rescale_parameters_keeps k content f :
  k <> "PhilipsRescaleSlope" -> k <> "PhilipsRescaleIntercept" ->
  k <> "PhilipsScaleSlope" ->
  Dict.get k (Targeted.rescale_parameters content f) = Dict.get k f.
Proof.
  intros H1 H2 H3. unfold Targeted.rescale_parameters. cbv zeta.
  rewrite !default_float_keeps by assumption.
  apply (for_break_pure_inv (fun g => Dict.get k g = Dict.get k f));
    [|reflexivity].
  intros line g Hg. unfold Targeted.rescale_body. cbv zeta.
  destruct (_ && _); cbn [fst]; [|exact Hg].
  repeat match goal with
         | |- context [match ?x with Some _ => _ | None => _ end] => destruct x
         | |- context [if ?b then _ else _] => destruct b
         end; rewrite ?get_set_ne by assumption; exact Hg.
Qed.

Lemma positive_float_loop_keeps k patterns content store f :
  (forall x g, Dict.get k (store x g) = Dict.get k g) ->
  Dict.get k (snd (positive_float_loop patterns content store f)) = Dict.get k f.
Proof.
  intros Hstore. unfold positive_float_loop.
  apply (for_break_pure_inv (fun st => Dict.get k (snd st) = Dict.get k f));
    [|reflexivity].
  intros p st Hst. unfold positive_float_body.
  destruct (re_search p content [IGNORECASE]); [|exact Hst].
  destruct (safe_float _); cbn [fst snd]; [|exact Hst].
  destruct (positive _); cbn [fst snd]; [|exact Hst].
  rewrite Hstore. exact Hst.
Qed.

Lemma echo_time_keeps k content f :
  k <> "EchoTime" -> Dict.get k (Targeted.echo_time content f) = Dict.get k f.
Proof.
  intros Hk. unfold Targeted.echo_time. cbv zeta.
  rewrite default_float_keeps by exact Hk.
  apply positive_float_loop_keeps. intros x g. apply get_set_ne. exact Hk.
Qed.

Lemma repetition_time_keeps k content f :
  k <> "RepetitionTime" ->
  Dict.get k (Targeted.repetition_time content f) = Dict.get k f.
Proof.
  intros Hk. unfold Targeted.repetition_time.
  apply positive_float_loop_keeps. intros x g. apply get_set_ne. exact Hk.
Qed.

Lemma slice_timing_block_keeps k n_slices f g :
  slice_timing_block None n_slices f = inr g ->
  k <> "SliceTiming" -> Dict.get k g = Dict.get k f.
Proof.
  intros H Hk. unfold slice_timing_block in H.
  destruct (_ && _); [|injection H as <-; reflexivity].
  destruct (Dict.get "RepetitionTime" f) as [[]|]; try discriminate H.
  destruct n_slices as [n|]; [|discriminate H].
  apply bind_inr in H as (t & _ & H). injection H as <-.
  apply get_set_ne. exact Hk.
Qed.

Lemma slice_encoding_direction_keeps k content f g :
  Targeted.slice_encoding_direction content f = inr g ->
  k <> "SliceEncodingDirection" -> Dict.get k g = Dict.get k f.
Proof.
  intros H Hk. unfold Targeted.slice_encoding_direction in H.
  apply bind_inr in H as (d & _ & H). injection H as <-.
  apply get_set_ne. exact Hk.
Qed.

Lemma image_orientation_keeps k content f :
  k <> "ImageOrientationPatientDICOM" ->
  Dict.get k (Targeted.image_orientation content f) = Dict.get k f.
Proof. intros Hk. unfold Targeted.image_orientation. apply get_set_ne, Hk. Qed.

Lemma phase_encoding_direction_keeps k content f :
  k <> "PhaseEncodingDirection" ->
  Dict.get k (Targeted.phase_encoding_direction content f) = Dict.get k f.
Proof. intros Hk. unfold Targeted.phase_encoding_direction. apply get_set_ne, Hk. Qed.

Lemma effective_echo_spacing_sets content f g :
  Targeted.effective_echo_spacing content f = inr g ->
  exists recon_matrix_pe,
    for_break (Targeted.recon_body content) Targeted.recon_patterns None
    = inr recon_matrix_pe /\
    g = Dict.set "EffectiveEchoSpacing"
          (VFloat (Targeted.effective_echo_spacing_value
                     (for_break_pure (Targeted.wfs_body content)
                                     Targeted.wfs_patterns None)
                     recon_matrix_pe)) f.
Proof.
  intros H. unfold Targeted.effective_echo_spacing in H. cbv zeta in H.
  apply bind_inr in H as (pe & Hpe & H). injection H as <-.
  exists pe. split; [exact Hpe|reflexivity].
Qed.

Lemma positive_float_loop_fields content store f : forall patterns x0,
  snd (for_break_pure (positive_float_body content store) patterns (x0, f))
  = match first_some (map (positive_value content) patterns) with
    | Some x => store x f
    | None => f
    end.
Proof.
  induction patterns as [|p ps IH]; intros x0; [reflexivity|].
  cbn [for_break_pure map first_some].
  remember (positive_float_body content store p (x0, f)) as r eqn:Hr.
  unfold positive_float_body in Hr. unfold positive_value at 1.
  destruct (re_search p content [IGNORECASE]) as [m|];
    [|subst r; cbn [fst snd]; apply IH].
  destruct (safe_float (group m 1)) as [x|];
    [|subst r; cbn [fst snd]; apply IH].
  destruct (positive (Some x)); subst r; cbn [fst snd]; [reflexivity|apply IH].
Qed.

Lemma first_some_none {A B : Type} (h : A -> option B) (l : list A) :
  (forall a, In a l -> h a = None) -> first_some (map h l) = None.
Proof.
  induction l as [|a l IH]; intros H; cbn [map first_some]; [reflexivity|].
  rewrite (H a (or_introl eq_refl)). apply IH. intros b Hb. apply H. right; exact Hb.
Qed.

Lemma echo_time_sets content f :
  Dict.get "EchoTime" f = None ->
  Dict.get "EchoTime" (Targeted.echo_time content f)
  = Some (VFloat match first_some (map (positive_value content)
                                       Targeted.te_patterns) with
                 | Some te_ms => seconds te_ms
                 | None => 0.028%float
                 end).
Proof.
  intros Hf. unfold Targeted.echo_time, positive_float_loop. cbv zeta.
  rewrite positive_float_loop_fields. unfold Targeted.default_float, Dict.mem.
  destruct (first_some _) as [te_ms|].
  - rewrite get_set_eq. cbn [negb]. apply get_set_eq.
  - rewrite Hf. cbn [negb]. apply get_set_eq.
Qed.

Lemma wfs_loop content : forall patterns,
  for_break_pure (Targeted.wfs_body content) patterns None
  = match first_match patterns content with
    | Some m => safe_float (group m 1)
    | None => None
    end.
Proof.
  unfold first_match.
  induction patterns as [|p ps IH]; [reflexivity|].
  cbn [for_break_pure map first_some].
  remember (Targeted.wfs_body content p None) as r eqn:Hr.
  unfold Targeted.wfs_body in Hr.
  destruct (re_search p content [IGNORECASE]); subst r; cbn [fst snd];
    [reflexivity|exact IH].
Qed.

Lemma recon_loop_none content : forall patterns,
  (forall p, In p patterns -> re_search p content [IGNORECASE] = None) ->
  for_break (Targeted.recon_body content) patterns None = inr None.
Proof.
  induction patterns as [|p ps IH]; intros H; [reflexivity|].
  cbn [for_break]. unfold Targeted.recon_body at 1.
  rewrite (H p (or_introl eq_refl)). cbn [bind ret fst snd].
  apply IH. intros q Hq. apply H. right; exact Hq.
Qed.

End TargetedFacts.

Ltac keep_fields E1 E2 E3 E4 :=
  repeat first
    [ rewrite get_set_ne by discriminate
    | rewrite str_field_keeps by discriminate
    | rewrite rescale_parameters_keeps by discriminate
    | rewrite echo_time_keeps by discriminate
    | rewrite image_orientation_keeps by discriminate
    | rewrite repetition_time_keeps by discriminate
    | rewrite phase_encoding_direction_keeps by discriminate
    | rewrite (int_field_keeps _ _ _ _ _ _ _ E1) by discriminate
    | rewrite (int_field_keeps _ _ _ _ _ _ _ E2) by discriminate
    | rewrite (slice_timing_block_keeps _ _ _ _ E3) by discriminate
    | rewrite (slice_encoding_direction_keeps _ _ _ _ E4) by discriminate ].

(** C10 (defaults of the targeted extractor).  On every header
    [extract_complete_philips_params] either returns the empty mapping, and
    then the body of its [try] raised, or returns the field set the body
    built, which is not empty and holds [Manufacturer = "Philips"],
    [TaskName = "rest"], [EchoTime] (the first positive echo time in seconds,
    0.028 when there is none, so when no pattern matches),
    [PhaseEncodingDirection] (the code of the first preparation line, "j-"
    without one) and [EffectiveEchoSpacing], which is 0.0005 when the
    water-fat shift or the matrix size is missing or the computation raises.
    An unreadable file gives the empty mapping.  The empty header gives the
    five defaults; a header whose series number [float] reads as [inf]
    raises and gives the empty mapping. *)
Theorem targeted_extractor_defaults {RT : PyRuntime}
  (content : string) (now : datetime) :
  ((exists e, Targeted.extract_from_text content now = inl e /\
              Targeted.extract_complete_philips_params (Some content) now = []) \/
   (exists fields water_fat_shift recon_matrix_pe,
      Targeted.extract_from_text content now = inr fields /\
      Targeted.extract_complete_philips_params (Some content) now = fields /\
      fields <> [] /\
      Dict.get "Manufacturer" fields = Some (VStr "Philips") /\
      Dict.get "TaskName" fields = Some (VStr "rest") /\
      Dict.get "EchoTime" fields
      = Some (VFloat match first_some (map (positive_value content)
                                           Targeted.te_patterns) with
                     | Some te_ms => seconds te_ms
                     | None => 0.028%float
                     end) /\
      ((forall p, In p Targeted.te_patterns ->
                  re_search p content [IGNORECASE] = None) ->
       Dict.get "EchoTime" fields = Some (VFloat 0.028)) /\
      Dict.get "PhaseEncodingDirection" fields
      = Some (VStr match code_of_match
                           (first_match Targeted.prep_patterns content) with
                   | Some c => c
                   | None => "j-"
                   end) /\
      Dict.get "EffectiveEchoSpacing" fields
      = Some (VFloat (Targeted.effective_echo_spacing_value
                        water_fat_shift recon_matrix_pe)) /\
      water_fat_shift
      = match first_match Targeted.wfs_patterns content with
        | Some m => safe_float (group m 1)
        | None => None
        end /\
      ((forall p, In p Targeted.recon_patterns ->
                  re_search p content [IGNORECASE] = None) ->
       recon_matrix_pe = None))) /\
  Targeted.extract_complete_philips_params None now = [] /\
  (forall pe, Targeted.effective_echo_spacing_value None pe = 0.0005%float) /\
  (forall shift, Targeted.effective_echo_spacing_value shift None = 0.0005%float) /\
  (forall wfs pe e,
     echo_spacing 434.215 wfs pe = inl e ->
     Targeted.effective_echo_spacing_value (Some wfs) (Some pe) = 0.0005%float) /\
  guaranteed_fields (@Targeted.extract_complete_philips_params py_rt (Some "") now)
  = [Some (VStr "Philips"); Some (VStr "rest"); Some (VFloat 0.028);
     Some (VFloat 0.0005); Some (VStr "j-")] /\
  @Targeted.extract_complete_philips_params py_rt (Some header_huge_series) now
  = [].
Proof.
  split.
  { unfold Targeted.extract_complete_philips_params.
    destruct (Targeted.extract_from_text content now) as [e|fields] eqn:E;
      [left; exists e; split; reflexivity|right].
    unfold Targeted.extract_from_text in E. cbv zeta in E.
    apply bind_inr in E as (f1 & E1 & E).
    apply bind_inr in E as (f2 & E2 & E).
    apply bind_inr in E as (n_slices & _ & E).
    apply bind_inr in E as (f3 & E3 & E).
    apply bind_inr in E as (f4 & E4 & E).
    apply bind_inr in E as (f5 & E5 & E).
    injection E as <-.
    apply effective_echo_spacing_sets in E5 as (pe & Hpe & ->).
    assert (Hte : Dict.get "EchoTime"
                    (Dict.set "_ProcessingInfo"
                       (VDict (Targeted.processing_info
                          (Dict.set "EffectiveEchoSpacing"
                             (VFloat (Targeted.effective_echo_spacing_value
                                (for_break_pure (Targeted.wfs_body content)
                                   Targeted.wfs_patterns None) pe))
                             (Targeted.phase_encoding_direction content f4)) now))
                       (Dict.set "EffectiveEchoSpacing"
                          (VFloat (Targeted.effective_echo_spacing_value
                             (for_break_pure (Targeted.wfs_body content)
                                Targeted.wfs_patterns None) pe))
                          (Targeted.phase_encoding_direction content f4)))
                  = Some (VFloat match first_some (map (positive_value content)
                                                       Targeted.te_patterns) with
                                 | Some te_ms => seconds te_ms
                                 | None => 0.028%float
                                 end)).
    { keep_fields E1 E2 E3 E4. rewrite echo_time_sets; [reflexivity|].
      keep_fields E1 E2 E3 E4. reflexivity. }
    eexists. exists (for_break_pure (Targeted.wfs_body content)
                       Targeted.wfs_patterns None), pe.
    split; [reflexivity|]. split; [reflexivity|].
    split; [apply set_not_empty|].
    split; [keep_fields E1 E2 E3 E4; reflexivity|].
    split; [keep_fields E1 E2 E3 E4; apply get_set_eq|].
    split; [exact Hte|].
    split; [intros Hnone; rewrite Hte, first_some_none; [reflexivity|];
            intros p Hp; unfold positive_value; rewrite (Hnone p Hp); reflexivity|].
    split.
    { keep_fields E1 E2 E3 E4. unfold Targeted.phase_encoding_direction.
      cbv zeta. rewrite get_set_eq, targeted_phase_loop. reflexivity. }
    split; [keep_fields E1 E2 E3 E4; apply get_set_eq|].
    split; [apply wfs_loop|].
    intros Hnone. rewrite (recon_loop_none content _ Hnone) in Hpe.
    injection Hpe as <-. reflexivity. }
  split; [reflexivity|].
  split; [reflexivity|].
  split; [intros shift; unfold Targeted.effective_echo_spacing_value;
          rewrite andb_false_r; reflexivity|].
  split.
  { intros wfs pe e H. unfold Targeted.effective_echo_spacing_value.
    rewrite H. destruct (_ && _); reflexivity. }
  split; vm_compute; reflexivity.
Qed.

(** * Further properties of the code *)

(** ** Failures of the update functions *)


Lemma merge_into_file_fails key block path params fs :
  (files fs !! path = None \/
   (exists s, files fs !! path = Some (FileOther s)) \/
   path ∈ locked fs \/
   (forall a u, exists e, block a u = inl e)) ->
  merge_into_file key block path params fs = (fs, (false, 0, 0)).
Proof.
  intros H. unfold merge_into_file, json_load, json_dump, write_file.
  destruct (files fs !! path) as [[doc|s]|] eqn:Hf; cbn [bind ret raise];
    try reflexivity.
  destruct (merge_fields true params doc) as [[doc' a] u].
  destruct H as [H|[(s & H)|[H|H]]]; try discriminate H.
  - destruct (block a u); cbn [bind ret raise]; [reflexivity|].
    destruct (decide (path ∈ locked fs)); [reflexivity|contradiction].
  - destruct (H a u) as [e ->]. reflexivity.
Qed.


(** X2 (when an update fails).  With no file at the sidecar path
    [update_bids_json] and [update_json_file] return [(False, 0, 0)] and
    change nothing, not even by a backup.  [update_bids_json] also fails when
    the sidecar is not JSON, when it cannot be written, and when the field
    set holds something other than a dictionary under [_SiteInfo].
    [update_json_with_complete_params], whose provenance block reads nothing
    from the field set, succeeds on every readable, writable sidecar. *)
Theorem update_failure_conditions
  (json_file_path : string) (bids_params : dict) (create_backup : bool)
  (now_backup now_info : datetime) (fs : filesystem) :
  (files fs !! json_file_path = None ->
   Batch.update_bids_json json_file_path bids_params create_backup
     now_backup now_info fs = (fs, (false, 0, 0)) /\
   SingleSubject.update_json_file json_file_path bids_params
     now_backup now_info fs = (fs, (false, 0, 0))) /\
  ((exists s, files fs !! json_file_path = Some (FileOther s)) \/
   json_file_path ∈ locked fs \/
   (exists v, Dict.get "_SiteInfo" bids_params = Some v /\
              forall d, v <> VDict d) ->
   snd (Batch.update_bids_json json_file_path bids_params create_backup
          now_backup now_info fs) = (false, 0, 0)) /\
  ((exists doc, files fs !! json_file_path = Some (FileJson doc)) ->
   (json_file_path ∉ locked fs) ->
   exists added updated,
     snd (Targeted.update_json_with_complete_params json_file_path bids_params
            create_backup now_backup now_info fs) = (true, added, updated)).
Proof.
  assert (Hb := backup_if_sidecar create_backup json_file_path now_backup fs).
  assert (Hl := backup_if_locked create_backup json_file_path now_backup fs).
  split.
  { intros Hnone.
    assert (Hmb : make_backup json_file_path now_backup fs = fs)
      by (unfold make_backup, copy2; rewrite Hnone; reflexivity).
    unfold Batch.update_bids_json, SingleSubject.update_json_file.
    rewrite Hmb. destruct create_backup;
      (split; apply merge_into_file_fails; left; exact Hnone). }
  split.
  { intros H. unfold Batch.update_bids_json.
    set (fs1 := if create_backup then _ else _) in *.
    rewrite merge_into_file_fails.
    - destruct (merge_into_file_cases "_BIDSProcessingInfo"
        (Batch.provenance bids_params now_info) json_file_path bids_params fs1)
        as [E|(? & ? & ? & ? & ? & _)]; reflexivity.
    - destruct H as [(s & H)|[H|(v & Hv & Hd)]].
      + right; left. exists s. rewrite Hb. exact H.
      + right; right; left. rewrite Hl. exact H.
      + right; right; right. intros a u. unfold Batch.provenance, get_dict.
        rewrite Hv. destruct v; try (eexists; reflexivity).
        destruct (Hd d eq_refl). }
  intros (doc & Hdoc) Hw.
  unfold Targeted.update_json_with_complete_params.
  set (fs1 := if create_backup then _ else _) in *.
  destruct (merge_fields true bids_params doc) as [[doc' a] u] eqn:Hm.
  rewrite (merge_into_file_run _ _ _ _ fs1 doc doc' a u
             (match Targeted.provenance now_info a u with inr i => i | inl _ => [] end)).
  - eexists. eexists. reflexivity.
  - rewrite Hb. exact Hdoc.
  - rewrite Hl. exact Hw.
  - exact Hm.
  - reflexivity.
Qed.

(** ** What an update writes *)




(** X4 (key order of the written document).  The document
    [update_json_with_complete_params] writes has the keys of the sidecar in
    their order, then the added fields in the order of the field set, then
    the provenance key when the sidecar did not have it; no key is removed,
    and the added fields are the public keys of the field set that the
    sidecar lacked. *)
Theorem update_keeps_key_order
  (json_file_path : string) (bids_params : dict) (create_backup : bool)
  (now_backup now_info : datetime) (fs : filesystem) (doc : dict) :
  files fs !! json_file_path = Some (FileJson doc) ->
  (json_file_path ∉ locked fs) ->
  Dict.wf bids_params ->
  exists doc',
    files (fst (Targeted.update_json_with_complete_params json_file_path
                  bids_params create_backup now_backup now_info fs))
      !! json_file_path = Some (FileJson doc') /\
    Dict.keys doc'
    = (Dict.keys doc ++ adds doc bids_params ++
       if Dict.mem "_NESDAProcessingInfo" doc then []
       else ["_NESDAProcessingInfo"])%list /\
    (forall k, In k (Dict.keys doc) -> In k (Dict.keys doc')) /\
    (forall k, In k (adds doc bids_params) <->
               exists v, In (k, v) bids_params /\
                         Str.startswith "_" k = false /\ Dict.get k doc = None).
Proof.
  intros Hf Hw Hwf.
  unfold Targeted.update_json_with_complete_params.
  set (fs1 := if create_backup then _ else _).
  assert (Hf1 : files fs1 !! json_file_path = Some (FileJson doc))
    by (unfold fs1; rewrite backup_if_sidecar; exact Hf).
  assert (Hw1 : json_file_path ∉ locked fs1)
    by (unfold fs1; rewrite backup_if_locked; exact Hw).
  destruct (merge_into_file_ok "_NESDAProcessingInfo"
              (Targeted.provenance now_info) json_file_path bids_params fs1 doc
              _ Hf1 Hw1 Hwf eq_refl) as (doc' & E & Hget & Hkeys).
  rewrite E. cbn [fst files]. eexists. split; [apply lookup_insert_eq|].
  assert (Hmem : Dict.mem "_NESDAProcessingInfo" doc'
                 = Dict.mem "_NESDAProcessingInfo" doc).
  { unfold Dict.mem. rewrite Hget.
    destruct (Dict.get "_NESDAProcessingInfo" bids_params); reflexivity. }
  split; [|split].
  - rewrite keys_set, Hmem, Hkeys.
    destruct (Dict.mem "_NESDAProcessingInfo" doc);
      rewrite <- ?app_assoc, ?app_nil_r; reflexivity.
  - intros k Hk. rewrite keys_set, Hkeys.
    destruct (Dict.mem _ doc'); rewrite ?in_app_iff; auto.
  - intros k. unfold adds. rewrite in_map_iff. split.
    + intros ([k' v] & Hk & Hin). cbn [fst] in Hk; subst k'.
      apply filter_In in Hin as [Hin Ha]. exists v. split; [exact Hin|].
      unfold is_added, private, Dict.mem in Ha; cbn [fst] in Ha.
      apply andb_prop in Ha as [H1 H2].
      destruct (Str.startswith "_" k); [discriminate H1|].
      destruct (Dict.get k doc); [discriminate H2|]. auto.
    + intros (v & Hin & Hp & Hn). exists (k, v). split; [reflexivity|].
      apply filter_In. split; [exact Hin|].
      unfold is_added, private, Dict.mem; cbn [fst]. rewrite Hp, Hn. reflexivity.
Qed.

Lemma update_keeps_key_order_witness :
  exists doc',
    files (fst (Targeted.update_json_with_complete_params Sample.json_path
                  Sample.bids_params true Sample.t1 Sample.t2 Sample.fs0))
      !! Sample.json_path = Some (FileJson doc') /\
    Dict.keys doc'
    = ["Modality"; "RepetitionTime"; "TaskName"; "MagneticFieldStrength";
       "NumberOfSlices"; "SliceTiming"; "SliceEncodingDirection";
       "PhaseEncodingDirection"; "WaterFatShift"; "ReconMatrixPE";
       "ReconMatrixFE"; "EffectiveEchoSpacing"; "Manufacturer";
       "_NESDAProcessingInfo"].
Proof.
  destruct (update_keeps_key_order Sample.json_path Sample.bids_params true
              Sample.t1 Sample.t2 Sample.fs0 Sample.sidecar)
    as (doc' & Hf & Hk & _).
  - reflexivity.
  - apply not_elem_of_empty.
  - apply wf_by_computation. vm_compute. reflexivity.
  - exists doc'. split; [exact Hf|]. rewrite Hk. vm_compute. reflexivity.
Defined.

(** ** Slice acquisition order *)

(** X5 (acquisition order).  For every slice count, negative ones and zero
    included, the acquisition order the slice-timing block builds lists each
    slice index from [0] to [n_slices - 1] exactly once, and nothing else. *)
Theorem acquisition_order_is_permutation (n_slices : Z) :
  NoDup (acquisition_order n_slices) /\
  length (acquisition_order n_slices) = Z.to_nat n_slices /\
  (forall s, s ∈ acquisition_order n_slices <-> 0 <= s < n_slices).
Proof.
  destruct (Z.le_gt_cases 0 n_slices) as [Hn|Hn].
  - split; [apply acquisition_order_NoDup; exact Hn|].
    split; [apply acquisition_order_length; exact Hn|].
    intros s. split.
    + intros H. apply list_elem_of_lookup in H as [j Hj].
      pose proof (lookup_lt_Some _ _ _ Hj) as Lj.
      rewrite acquisition_order_length in Lj by exact Hn.
      rewrite acquisition_order_lookup in Hj by assumption.
      injection Hj as <-. apply slice_at_range; assumption.
    + intros Hs. destruct (slice_at_rank n_slices s Hs) as [Hr Hsl].
      apply list_elem_of_lookup. exists (rank_of n_slices s).
      rewrite acquisition_order_lookup by assumption. rewrite Hsl. reflexivity.
  - assert (E : acquisition_order n_slices = []).
    { rewrite acquisition_order_closed.
      assert ((n_slices + 1) / 2 <= 0) by (apply Z.div_le_upper_bound; lia).
      assert (n_slices / 2 < 0) by (apply Z.div_lt_upper_bound; lia).
      replace (Z.to_nat ((n_slices + 1) / 2)) with 0%nat by lia.
      replace (Z.to_nat (n_slices / 2)) with 0%nat by lia. reflexivity. }
    rewrite E. split; [constructor|]. split; [cbn; lia|].
    intros s. split; [intros H; inversion H|lia].
Qed.

(** ** Sites *)

Lemma additional_characteristics_version (content : string) (s : site_info) :
  version (additional_characteristics content s) = version s.
Proof.
  unfold additional_characteristics.
  repeat match goal with |- context [Str.contains ?a ?b] =>
    destruct (Str.contains a b) end; reflexivity.
Qed.

Section SiteFacts.
Context {RT : PyRuntime}.

Ltac name_stages :=
  match goal with
  | |- context [match re_search "Patient name\s*:\s*(.+?)(?:\n|$)" ?c ?f with
                | Some m => @?a m | None => ?b end] =>
      remember (match re_search "Patient name\s*:\s*(.+?)(?:\n|$)" c f with
                | Some m => a m | None => b end) as by_patient eqn:Hpatient
  end;
  match goal with
  | p : site_info
    |- context [if String.eqb (actual_site ?p) "unknown" && ?t
                then ?a else ?p] =>
      remember (if String.eqb (actual_site p) "unknown" && t
                then a else p) as by_path eqn:Hpath
  end.

Ltac stage_ok :=
  unfold v42_stage; site_fields; cbn [In];
  repeat split; auto 10.

(** X6 (site record of the batch script).  Whatever the header and the
    path, a site record that [detect_nesda_site] returns has the site
    Groningen exactly for tool version 4.1; for tool version 4.2 it has the
    group AmsLei and either Amsterdam or Leiden with confidence high or
    medium, or [AmsLei_unspecified] with confidence low; for any other
    version the group and the site are unknown and the confidence is low.
    The version is the tool version after a [V], or both are unknown. *)
Theorem batch_site_invariants (content file_path : string) (s : site_info) :
  Batch.detect_nesda_site content file_path = inr s ->
  (actual_site s = "Groningen" <-> tool_version s = "4.1") /\
  (tool_version s = "4.2" ->
   site_group s = "AmsLei" /\
   ((In (actual_site s) ["Amsterdam"; "Leiden"] /\
     In (confidence s) ["high"; "medium"]) \/
    (actual_site s = "AmsLei_unspecified" /\ confidence s = "low"))) /\
  (tool_version s <> "4.1" -> tool_version s <> "4.2" ->
   site_group s = "unknown" /\ actual_site s = "unknown" /\
   confidence s = "low") /\
  (version s = "V" +:+ tool_version s \/
   (version s = "unknown" /\ tool_version s = "unknown")).
Proof.
  unfold Batch.detect_nesda_site.
  destruct (re_search "Research image export tool\s+V([\d.]+)" content [])
    as [m|]; cbn [bind ret raise].
  2:{ intros H. injection H as <-.
      destruct (additional_characteristics_site content site_info_init)
        as (-> & -> & -> & ->).
      rewrite additional_characteristics_version. cbn.
      repeat split; try discriminate; auto. }
  destruct (String.eqb (group m 1) "4.1") eqn:E41; cbn [bind ret raise].
  { intros H. injection H as <-. apply String.eqb_eq in E41.
    match goal with |- context [additional_characteristics content ?x] =>
      destruct (additional_characteristics_site content x) as (-> & -> & -> & ->);
      rewrite (additional_characteristics_version content x)
    end.
    site_fields. rewrite E41.
    repeat split; try discriminate; auto; intros; congruence. }
  apply String.eqb_neq in E41.
  destruct (String.eqb (group m 1) "4.2") eqn:E42; cbn [bind ret raise].
  2:{ apply String.eqb_neq in E42. intros H. injection H as <-.
      match goal with |- context [additional_characteristics content ?x] =>
        destruct (additional_characteristics_site content x) as (-> & -> & -> & ->);
        rewrite (additional_characteristics_version content x)
      end.
      site_fields. repeat split; try discriminate; try contradiction; auto. }
  apply String.eqb_eq in E42.
  name_stages.
  assert (H1 : v42_stage (group m 1) ["Amsterdam"; "Leiden"] by_patient)
    by (subst by_patient; site_cases; stage_ok).
  assert (H2 : v42_stage (group m 1) ["Amsterdam"; "Leiden"] by_path).
  { subst by_path. destruct H1 as (T & V & G & S).
    site_cases; unfold v42_stage; site_fields; cbn [In]; auto 10. }
  clear Hpatient Hpath H1. destruct H2 as (T & V & G & S).
  site_cases; intros H; try discriminate H; injection H as <-;
    match goal with |- context [additional_characteristics content ?x] =>
      destruct (additional_characteristics_site content x) as (-> & -> & -> & ->);
      rewrite (additional_characteristics_version content x)
    end; site_fields; cbn [version set_confidence set_actual_site];
    rewrite ?T, ?V, ?G, ?E42;
    repeat match goal with
           | H : String.eqb _ _ = true |- _ => apply String.eqb_eq in H
           | H : String.eqb _ _ = false |- _ => apply String.eqb_neq in H
           end;
    try discriminate; cbn [In] in *;
    (split; [split; intros; [exfalso|]; intuition congruence|]);
    (split; [intros _; split; [reflexivity|]; intuition congruence|]);
    (split; [intros; congruence|left; reflexivity]).
Qed.

End SiteFacts.

Lemma batch_site_invariants_witness :
  exists s,
    Batch.detect_nesda_site (RT := py_rt) Sample.header Sample.par_path = inr s /\
    (actual_site s = "Groningen" <-> tool_version s = "4.1").
Proof.
  eexists. split; [vm_compute; reflexivity|].
  apply (@batch_site_invariants py_rt Sample.header Sample.par_path).
  vm_compute. reflexivity.
Defined.

Lemma conforms_set (s : schema) (f : dict) (k : string) (v : value) :
  conforms s f -> conforms_to s k v = true -> conforms s (Dict.set k v f).
Proof.
  intros Hf Hv k' v'. rewrite get_set.
  destruct (String.eqb k' k) eqn:E; [|apply Hf].
  apply String.eqb_eq in E; subst k'. intros [= <-]. exact Hv.
Qed.

(** A key keeps its entry under assignments to other keys. *)
Lemma stable_other (f : dict) (k k' : string) (p : value -> bool) :
  k <> k' -> stable (fun g => Dict.get k g = Dict.get k f) k' p.
Proof. intros Hk v g _ Hg. rewrite get_set_ne by exact Hk. exact Hg. Qed.

Section BatchFacts.
Context {RT : PyRuntime}.
Variable I : dict -> Prop.
Implicit Types (f g : dict) (k : string).

(** The loop over patterns that stores the first positive value. *)
Lemma positive_float_loop_post patterns content key (h : float -> float) f :
  stable I key is_float ->
  I f ->
  I (snd (positive_float_loop patterns content
            (fun x => Dict.set key (VFloat (h x))) f)).
Proof.
  intros Hstore Hf. unfold positive_float_loop.
  apply (for_break_pure_inv (fun st => I (snd st))); [|exact Hf].
  intros p st Hst. unfold positive_float_body.
  destruct (re_search p content [IGNORECASE]); [|exact Hst].
  destruct (safe_float _) as [x|]; cbn [fst snd]; [|exact Hst].
  destruct (positive (Some x)) eqn:E; cbn [fst snd]; [|exact Hst].
  apply Hstore; [reflexivity|exact Hst].
Qed.

Lemma positive_float_loop_positive patterns content key f :
  stable I key is_positive_float ->
  I f ->
  I (snd (positive_float_loop patterns content
            (fun x => Dict.set key (VFloat x)) f)).
Proof.
  intros Hstore Hf. unfold positive_float_loop.
  apply (for_break_pure_inv (fun st => I (snd st))); [|exact Hf].
  intros p st Hst. unfold positive_float_body.
  destruct (re_search p content [IGNORECASE]); [|exact Hst].
  destruct (safe_float _) as [x|]; cbn [fst snd]; [|exact Hst].
  destruct (positive (Some x)) eqn:E; cbn [fst snd]; [|exact Hst].
  apply Hstore; [exact E|exact Hst].
Qed.

Lemma number_of_slices_keeps content f r :
  Batch.number_of_slices content f = inr r ->
  stable I "NumberOfSlices" is_positive_int ->
  I f -> I (snd r).
Proof.
  intros H Hs Hf. revert H. unfold Batch.number_of_slices.
  apply (for_break_inv (fun st => I (snd st))); [|exact Hf].
  intros p st r' Hst Hr. unfold Batch.number_of_slices_body in Hr.
  destruct (re_search p content [IGNORECASE]); [|injection Hr as <-; exact Hst].
  apply bind_inr in Hr as ([n|] & _ & Hr); [|injection Hr as <-; exact Hst].
  destruct (negb (n =? 0) && (0 <? n)) eqn:E; injection Hr as <-; cbn [fst snd];
    [|exact Hst].
  apply Hs; [|exact Hst]. apply andb_prop in E as [_ E]. exact E.
Qed.

Lemma slice_timing_block_keeps_batch n_slices f g :
  slice_timing_block (Some "interleaved_ascending_from_bottom") n_slices f
  = inr g ->
  stable I "SliceTiming" is_float_list ->
  stable I "_SliceTimingMethod" (is_one_of ["interleaved_ascending_from_bottom"]) ->
  I f -> I g.
Proof.
  intros H Ht Hm Hf. unfold slice_timing_block in H.
  destruct (_ && _); [|injection H as <-; exact Hf].
  destruct (Dict.get "RepetitionTime" f) as [[]|]; try discriminate H.
  destruct n_slices as [n|]; [|discriminate H].
  apply bind_inr in H as (t & _ & H). injection H as <-.
  apply Hm; [reflexivity|]. apply Ht; [|exact Hf].
  cbn. clear. induction t; cbn; auto.
Qed.

Lemma orientation_code_range code d :
  orientation_code code = Some d -> Str.mem d ["k"; "i"; "j"] = true.
Proof.
  unfold orientation_code.
  destruct code as [[|[[]|[]| ]|]|]; intros H; try discriminate H;
    injection H as <-; reflexivity.
Qed.

Lemma batch_slice_encoding_direction_keeps content f g :
  Batch.slice_encoding_direction content f = inr g ->
  stable I "SliceEncodingDirection" (is_one_of ["k"; "i"; "j"]) ->
  I f -> I g.
Proof.
  intros H Hk Hf. unfold Batch.slice_encoding_direction in H.
  apply bind_inr in H as (st & Hst & H). injection H as <-.
  set (J := fun st : option string * dict =>
              I (snd st) /\
              forall d, fst st = Some d -> Str.mem d ["k"; "i"; "j"] = true).
  assert (H1 : J st).
  { revert Hst. apply (for_break_inv J); [|split; [exact Hf|intros d Hd; discriminate Hd]].
    intros p s r [Hs Hd] Hr. unfold Batch.orientation_body in Hr.
    destruct (re_search p content [IGNORECASE]); [|injection Hr as <-; split; assumption].
    apply bind_inr in Hr as (code & _ & Hr). cbv zeta in Hr.
    destruct (orientation_code code) as [d|] eqn:Ec.
    - injection Hr as <-. cbn [fst snd]. split.
      + apply Hk; [|exact Hs]. exact (orientation_code_range _ _ Ec).
      + intros d' [= <-]. exact (orientation_code_range _ _ Ec).
    - destruct (fst s) as [d|] eqn:Ed; injection Hr as <-; cbn [fst snd]; split;
        try exact Hs.
      + apply Hk; [|exact Hs]. apply Hd. reflexivity.
      + intros d' [= <-]. apply Hd. reflexivity.
      + intros d' Hd'. discriminate Hd'. }
  assert (H2 : J (Batch.image_data_orientation content st)).
  { unfold Batch.image_data_orientation. destruct (fst st); [exact H1|].
    destruct (re_search _ content [DOTALL]); [|exact H1].
    apply (for_break_pure_inv J); [|exact H1].
    intros line s [Hs Hd]. unfold Batch.image_line_body.
    destruct (_ <? _)%nat; [|split; assumption].
    destruct (int_of_str _) as [v|]; [|split; assumption].
    destruct (orientation_code (Some v)) as [d|] eqn:Ec; [|split; assumption].
    cbn [fst snd]. split.
    - apply Hk; [|exact Hs]. exact (orientation_code_range _ _ Ec).
    - intros d' [= <-]. exact (orientation_code_range _ _ Ec). }
  assert (H3 : J (Batch.position_orientation content
                    (Batch.image_data_orientation content st))).
  { unfold Batch.position_orientation. destruct (fst _); [exact H2|].
    apply (for_break_pure_inv J); [|exact H2].
    intros p s [Hs Hd]. unfold Batch.position_body.
    destruct (re_search p content [IGNORECASE]); [|split; assumption].
    destruct (Str.contains_any _ _); [|split; assumption].
    cbn [fst snd]. split.
    - apply Hk; [reflexivity|exact Hs].
    - intros d' [= <-]. reflexivity. }
  unfold Batch.fmri_default. destruct (fst _); [exact (proj1 H3)|].
  destruct (re_search _ content [IGNORECASE]); [|exact (proj1 H3)].
  cbn [snd]. apply Hk; [reflexivity|exact (proj1 H3)].
Qed.

Lemma phase_encoding_direction_keeps_batch content f :
  stable I "PhaseEncodingDirection" (is_one_of ["j-"; "j"; "i-"; "i"]) ->
  I f -> I (Batch.phase_encoding_direction content f).
Proof.
  intros Hk Hf. unfold Batch.phase_encoding_direction.
  set (J := fun st : option string * dict =>
              I (snd st) /\
              forall c, fst st = Some c -> Str.mem c ["j-"; "j"; "i-"; "i"] = true).
  apply (for_break_pure_inv J); [|split; [exact Hf|intros c Hc; discriminate Hc]].
  intros p s [Hs Hc]. unfold Batch.phase_body.
  destruct (re_search p content [IGNORECASE]); [|split; assumption].
  cbv zeta.
  destruct (direction_code _) as [c|] eqn:Ec.
  - assert (Hm : Str.mem c ["j-"; "j"; "i-"; "i"] = true)
      by (apply mem_In; exact (direction_code_range _ _ Ec)).
    cbn [fst snd]. split; [apply Hk; assumption|].
    intros c' [= <-]. exact Hm.
  - destruct (fst s) as [c|] eqn:E; cbn [fst snd]; split; try exact Hs.
    + apply Hk; [|exact Hs]. apply Hc. reflexivity.
    + intros c' [= <-]. apply Hc. reflexivity.
    + intros c' Hc'. discriminate Hc'.
Qed.

Lemma recon_matrix_keeps content f r :
  Batch.recon_matrix content f = inr r ->
  stable I "ReconMatrixPE" is_nonzero_int ->
  stable I "ReconMatrixFE" is_nonzero_int ->
  I f -> I (snd r).
Proof.
  intros H Hpe Hfe Hf. revert H. unfold Batch.recon_matrix.
  apply (for_break_inv (fun st => I (snd st))); [|exact Hf].
  intros p st r' Hst Hr. unfold Batch.recon_body in Hr.
  destruct (re_search p content [IGNORECASE]); [|injection Hr as <-; exact Hst].
  apply bind_inr in Hr as (x & _ & Hr). apply bind_inr in Hr as (y & _ & Hr).
  destruct x as [x|]; [|injection Hr as <-; exact Hst].
  destruct y as [y|]; [|injection Hr as <-; exact Hst].
  destruct (negb (x =? 0)) eqn:Ex; cbn [andb] in Hr;
    [|injection Hr as <-; exact Hst].
  destruct (negb (y =? 0)) eqn:Ey; injection Hr as <-; [|exact Hst].
  cbn [fst snd]. apply Hfe; [exact Ex|]. apply Hpe; [exact Ey|exact Hst].
Qed.

Lemma effective_echo_spacing_keeps site wfs pe f :
  stable I "EffectiveEchoSpacing" is_float ->
  I f -> I (Batch.effective_echo_spacing site wfs pe f).
Proof.
  intros Hk Hf. unfold Batch.effective_echo_spacing.
  destruct (_ && _); [|exact Hf].
  destruct wfs as [wfs|]; [|exact Hf]. destruct pe as [pe|]; [|exact Hf].
  destruct (echo_spacing _ wfs pe); [exact Hf|].
  apply Hk; [reflexivity|exact Hf].
Qed.

Lemma task_of_protocol_range protocol :
  Str.mem (Batch.task_of_protocol protocol) ["rest"; "nback"; "faces"] = true.
Proof.
  unfold Batch.task_of_protocol.
  repeat match goal with |- context [if ?b then _ else _] => destruct b end;
    reflexivity.
Qed.

Lemma task_name_keeps content f :
  stable I "TaskName" (is_one_of ["rest"; "nback"; "faces"]) ->
  I f -> I (Batch.task_name content f).
Proof.
  intros Hk Hf. unfold Batch.task_name.
  apply (for_break_pure_inv I); [|exact Hf].
  intros p g Hg. unfold Batch.task_body.
  destruct (re_search p content [IGNORECASE]); [|exact Hg].
  cbn [fst]. apply Hk; [apply task_of_protocol_range|exact Hg].
Qed.

(** The blocks that follow the slice timing. *)
Lemma after_slice_timing content now site f3 fields :
  (f4 <- Batch.slice_encoding_direction content f3 ;;
   let f5 := Batch.phase_encoding_direction content f4 in
   let (water_fat_shift, f6) := Batch.water_fat_shift_loop content f5 in
   r <- Batch.recon_matrix content f6 ;;
   let (recon_matrix_pe, f7) := r in
   let f8 := Batch.effective_echo_spacing site water_fat_shift recon_matrix_pe f7 in
   let f9 := Batch.slice_thickness content f8 in
   let f10 := Batch.flip_angle content f9 in
   let f11 := Batch.task_name content f10 in
   let f12 := Dict.set "Manufacturer" (VStr "Philips") f11 in
   ret (Dict.set "_ProcessingInfo" (VDict (Batch.processing_info site now)) f12))
  = inr fields ->
  stable I "SliceEncodingDirection" (is_one_of ["k"; "i"; "j"]) ->
  stable I "PhaseEncodingDirection" (is_one_of ["j-"; "j"; "i-"; "i"]) ->
  stable I "WaterFatShift" is_positive_float ->
  stable I "ReconMatrixPE" is_nonzero_int ->
  stable I "ReconMatrixFE" is_nonzero_int ->
  stable I "EffectiveEchoSpacing" is_float ->
  stable I "SliceThickness" is_positive_float ->
  stable I "FlipAngle" is_positive_float ->
  stable I "TaskName" (is_one_of ["rest"; "nback"; "faces"]) ->
  stable I "Manufacturer" (is_one_of ["Philips"]) ->
  stable I "_ProcessingInfo" is_dict ->
  I f3 -> I fields.
Proof.
  intros E S1 S2 S3 S4 S5 S6 S7 S8 S9 S10 S11 Hf. cbv zeta in E.
  apply bind_inr in E as (f4 & E4 & E).
  destruct (Batch.water_fat_shift_loop content _) as [wfs f6] eqn:E6.
  apply bind_inr in E as ([pe f7] & E7 & E).
  injection E as <-.
  apply S11; [reflexivity|]. apply S10; [reflexivity|].
  apply task_name_keeps; [exact S9|].
  apply positive_float_loop_positive; [exact S8|].
  apply positive_float_loop_positive; [exact S7|].
  apply effective_echo_spacing_keeps; [exact S6|].
  change f7 with (snd (pe, f7)).
  apply (recon_matrix_keeps _ _ _ E7); [exact S4|exact S5|].
  change f6 with (snd (wfs, f6)). rewrite <- E6.
  apply positive_float_loop_positive; [exact S3|].
  apply phase_encoding_direction_keeps_batch; [exact S2|].
  apply (batch_slice_encoding_direction_keeps _ _ _ E4); [exact S1|exact Hf].
Qed.

End BatchFacts.

Lemma stable_conforms (s : schema) (k : string) (p : value -> bool) :
  shape_of k s = Some p -> stable (conforms s) k p.
Proof.
  intros Hk v g Hv Hg. apply conforms_set; [exact Hg|].
  unfold conforms_to. rewrite Hk. exact Hv.
Qed.

(** X7 (shape of the extracted fields).  Every entry of the field set
    [extract_philips_bids_3sites] returns has a key of [batch_schema] and a
    value of the shape given there: the slice count is a positive integer,
    the matrix sizes are non-zero integers, the water-fat shift, the slice
    thickness and the flip angle are positive floats, the directions and the
    task name are among the listed codes. *)
Theorem batch_fields_conform {RT : PyRuntime} (file : option string)
  (par_file_path : string) (now : datetime) (k : string) (v : value) :
  Dict.get k (Batch.extract_philips_bids_3sites file par_file_path now) = Some v ->
  conforms_to batch_schema k v = true.
Proof.
  unfold Batch.extract_philips_bids_3sites.
  destruct file as [content|]; [|discriminate].
  destruct (Batch.extract_from_text content par_file_path now) as [e|fields] eqn:E;
    [discriminate|].
  revert k v. change (conforms batch_schema fields).
  unfold Batch.extract_from_text in E. cbv zeta in E.
  apply bind_inr in E as (site & _ & E).
  apply bind_inr in E as ([n_slices f2] & E2 & E).
  apply bind_inr in E as (f3 & E3 & E).
  apply (after_slice_timing _ _ _ _ _ _ E); try (apply stable_conforms; reflexivity).
  apply (slice_timing_block_keeps_batch _ _ _ _ E3);
    try (apply stable_conforms; reflexivity).
  change f2 with (snd (n_slices, f2)).
  apply (number_of_slices_keeps _ _ _ _ E2); [apply stable_conforms; reflexivity|].
  unfold Batch.echo_time, Batch.repetition_time.
  apply positive_float_loop_post; [apply stable_conforms; reflexivity|].
  apply positive_float_loop_post; [apply stable_conforms; reflexivity|].
  apply conforms_set; [|reflexivity]. intros k v H. discriminate H.
Qed.

Lemma batch_fields_conform_witness :
  Dict.get "SliceEncodingDirection"
    (Batch.extract_philips_bids_3sites (RT := py_rt) (Some Sample.header)
       Sample.par_path Sample.t1) = Some (VStr "k") /\
  conforms_to batch_schema "SliceEncodingDirection" (VStr "k") = true.
Proof.
  assert (H : Dict.get "SliceEncodingDirection"
                (Batch.extract_philips_bids_3sites (RT := py_rt)
                   (Some Sample.header) Sample.par_path Sample.t1)
              = Some (VStr "k")) by (vm_compute; reflexivity).
  split; [exact H|].
  exact (@batch_fields_conform py_rt (Some Sample.header) Sample.par_path
           Sample.t1 _ _ H).
Defined.

Lemma for_break_post {S X : Type} (I Q : S -> Prop)
  (body : X -> S -> py (S * bool)) :
  (forall x s r, I s -> body x s = inr r ->
                 if snd r then Q (fst r) else I (fst r)) ->
  forall xs s r, I s -> for_break body xs s = inr r -> I r \/ Q r.
Proof.
  intros Hbody. induction xs as [|x xs IH]; intros s r Hs H; cbn [for_break] in H.
  - injection H as <-. left; exact Hs.
  - apply bind_inr in H as (a & Ha & H). specialize (Hbody x s a Hs Ha).
    destruct (snd a); [injection H as <-; right; exact Hbody|].
    exact (IH _ _ Hbody H).
Qed.

(** The slice count the loop leaves in its variable and the one it stored:
    the field is there exactly when the last count read is positive. *)
Lemma number_of_slices_stored {RT : PyRuntime} content f n_slices g :
  Batch.number_of_slices content f = inr (n_slices, g) ->
  Dict.get "NumberOfSlices" f = None ->
  (forall n, n_slices = Some n -> Z.abs n < Fl.int_max) /\
  ((Dict.get "NumberOfSlices" g = None /\
    forall n, n_slices = Some n -> n <= 0) \/
   (exists n, 0 < n /\ n_slices = Some n /\
              Dict.get "NumberOfSlices" g = Some (VInt n))).
Proof.
  intros H Hf. unfold Batch.number_of_slices in H.
  set (R := fun st : option Z * dict =>
              forall n, fst st = Some n -> Z.abs n < Fl.int_max).
  set (I := fun st : option Z * dict =>
              R st /\ Dict.get "NumberOfSlices" (snd st) = None /\
              forall n, fst st = Some n -> n <= 0).
  set (Q := fun st : option Z * dict =>
              R st /\ exists n, 0 < n /\ fst st = Some n /\
                                Dict.get "NumberOfSlices" (snd st) = Some (VInt n)).
  assert (HIQ : I (n_slices, g) \/ Q (n_slices, g)).
  { revert H. apply (for_break_post I Q).
    - intros p st r (HR & Hn & Hle) Hr. unfold Batch.number_of_slices_body in Hr.
      destruct (re_search p content [IGNORECASE]) as [m|];
        [|injection Hr as <-; cbn [snd fst]; repeat split; assumption].
      apply bind_inr in Hr as (x & Hx & Hr).
      destruct x as [n|].
      + pose proof (safe_int_in_range _ _ Hx) as Hrange.
        destruct (negb (n =? 0) && (0 <? n)) eqn:E; injection Hr as <-;
          cbn [fst snd].
        * apply andb_prop in E as [_ E]. apply Z.ltb_lt in E.
          split; [intros n' [= <-]; exact Hrange|].
          exists n. repeat split; [exact E|apply get_set_eq].
        * split; [intros n' [= <-]; exact Hrange|]. split; [exact Hn|].
          intros n' [= <-].
          destruct (Z.eqb_spec n 0); [lia|]. cbn [negb andb] in E.
          apply Z.ltb_ge in E. exact E.
      + injection Hr as <-. cbn [fst snd].
        split; [intros n Hn'; discriminate Hn'|]. split; [exact Hn|].
        intros n Hn'; discriminate Hn'.
    - split; [intros n Hn; discriminate Hn|]. split; [exact Hf|].
      intros n Hn; discriminate Hn. }
  destruct HIQ as [(HR & Hn & Hle)|(HR & n & Hpos & Hn & Hg)]; cbn [fst snd] in *.
  - split; [exact HR|]. left. split; assumption.
  - split; [exact HR|]. right. exists n. repeat split; assumption.
Qed.

(** X8 (slice timing and slice count).  In the field set
    [extract_philips_bids_3sites] returns the slice timing has as many
    entries as [NumberOfSlices] says; it is there whenever the slice count
    and the repetition time are, and only with a repetition time and the
    method recorded under [_SliceTimingMethod]. *)
Theorem batch_slice_timing_matches_slices {RT : PyRuntime}
  (file : option string) (par_file_path : string) (now : datetime) :
  (forall n l,
     Dict.get "NumberOfSlices"
       (Batch.extract_philips_bids_3sites file par_file_path now) = Some (VInt n) ->
     Dict.get "SliceTiming"
       (Batch.extract_philips_bids_3sites file par_file_path now) = Some (VList l) ->
     Z.of_nat (length l) = n) /\
  (Dict.get "NumberOfSlices"
     (Batch.extract_philips_bids_3sites file par_file_path now) <> None ->
   Dict.get "RepetitionTime"
     (Batch.extract_philips_bids_3sites file par_file_path now) <> None ->
   Dict.get "SliceTiming"
     (Batch.extract_philips_bids_3sites file par_file_path now) <> None) /\
  (Dict.get "SliceTiming"
     (Batch.extract_philips_bids_3sites file par_file_path now) <> None ->
   Dict.get "RepetitionTime"
     (Batch.extract_philips_bids_3sites file par_file_path now) <> None /\
   Dict.get "_SliceTimingMethod"
     (Batch.extract_philips_bids_3sites file par_file_path now)
   = Some (VStr "interleaved_ascending_from_bottom")).
Proof.
  unfold Batch.extract_philips_bids_3sites.
  destruct file as [content|]; [|cbn; repeat split; intros; congruence].
  destruct (Batch.extract_from_text content par_file_path now) as [e|fields] eqn:E;
    [cbn; repeat split; intros; congruence|].
  unfold Batch.extract_from_text in E. cbv zeta in E.
  apply bind_inr in E as (site & _ & E).
  apply bind_inr in E as ([n_slices f2] & E2 & E).
  apply bind_inr in E as (f3 & E3 & E).
  set (f1 := Batch.echo_time content _) in E2.
  (* the fields before the slice count *)
  assert (Hnone : forall k, k <> "_SiteInfo" -> k <> "RepetitionTime" ->
                            k <> "EchoTime" -> Dict.get k f1 = None).
  { intros k K1 K2 K3. unfold f1, Batch.echo_time, Batch.repetition_time.
    apply (positive_float_loop_post (fun g => Dict.get k g = None));
      [intros v g _ Hg; rewrite get_set_ne by exact K3; exact Hg|].
    apply (positive_float_loop_post (fun g => Dict.get k g = None));
      [intros v g _ Hg; rewrite get_set_ne by exact K2; exact Hg|].
    apply get_set_ne. exact K1. }
  (* the slice count *)
  destruct (number_of_slices_stored content f1 n_slices f2 E2
              (Hnone "NumberOfSlices" ltac:(discriminate) ltac:(discriminate)
                 ltac:(discriminate)))
    as (Hrange & Hstored).
  assert (H2 : forall k, k <> "NumberOfSlices" -> Dict.get k f2 = Dict.get k f1).
  { intros k Hk. change f2 with (snd (n_slices, f2)).
    apply (number_of_slices_keeps (fun g => Dict.get k g = Dict.get k f1) _ _ _ E2);
      [apply stable_other; exact Hk|reflexivity]. }
  (* the blocks after the slice timing *)
  assert (H4 : forall k, In k ["NumberOfSlices"; "SliceTiming"; "RepetitionTime";
                               "_SliceTimingMethod"] ->
                         Dict.get k fields = Dict.get k f3).
  { intros k Hk.
    apply (after_slice_timing (fun g => Dict.get k g = Dict.get k f3)
             _ _ _ _ _ E); try reflexivity;
      apply stable_other; cbn [In] in Hk; intros ->;
      repeat destruct Hk as [Hk|Hk]; try discriminate Hk; exact Hk. }
  rewrite !H4 by (cbn; auto). clear H4 E.
  (* the slice timing *)
  assert (Hst1 : Dict.get "SliceTiming" f2 = None)
    by (rewrite H2 by discriminate; apply Hnone; discriminate).
  unfold slice_timing_block in E3. unfold Dict.mem in E3.
  destruct (Dict.get "RepetitionTime" f2) as [tr|] eqn:Etr;
    cbn [andb] in E3.
  2:{ injection E3 as <-. rewrite Etr, Hst1.
      repeat split; intros; congruence. }
  destruct (truthy_int n_slices) eqn:Et.
  2:{ injection E3 as <-. rewrite Etr, Hst1.
      split; [intros; congruence|]. split; [|intros; congruence].
      intros HN _. exfalso.
      destruct Hstored as [[Hn _]|(n & Hpos & -> & _)]; [congruence|].
      cbn in Et. destruct (Z.eqb_spec n 0); [lia|discriminate Et]. }
  destruct tr as [| | |tr| | |]; try discriminate E3.
  destruct n_slices as [n|]; [|discriminate Et].
  apply bind_inr in E3 as (t & Ht & E3). injection E3 as <-.
  rewrite !get_set_eq, !(get_set_ne _ _ "_SliceTimingMethod") by discriminate.
  rewrite get_set_eq, !(get_set_ne _ _ "SliceTiming") by discriminate.
  rewrite Etr.
  split; [|split; [intros; congruence|intros _; split; [congruence|reflexivity]]].
  intros n' l Hn' Hl.
  assert (l = map VFloat t) by congruence. subst l. rewrite length_map.
  destruct Hstored as [[Hn _]|(n0 & Hpos & [= <-] & Hg)]; [congruence|].
  assert (n' = n) by congruence. subst n'.
  destruct (interleaved_slice_timing_ok tr n) as (t' & Ht' & Hlen & _).
  { split; [exact Hpos|]. pose proof (Hrange n eq_refl). lia. }
  rewrite Ht in Ht'. injection Ht' as <-. rewrite Hlen. lia.
Qed.

Lemma stable_none (k k' : string) (p : value -> bool) :
  k <> k' -> stable (fun g => Dict.get k g = None) k' p.
Proof. intros Hk v g _ Hg. rewrite get_set_ne by exact Hk. exact Hg. Qed.

(** The matrix size the loop leaves in its variable is the one it stored,
    with the other dimension. *)
Lemma recon_matrix_stored {RT : PyRuntime} content f pe g :
  Batch.recon_matrix content f = inr (pe, g) ->
  Dict.get "ReconMatrixPE" f = None -> Dict.get "ReconMatrixFE" f = None ->
  (pe = None /\ Dict.get "ReconMatrixPE" g = None /\
   Dict.get "ReconMatrixFE" g = None) \/
  (exists x y, pe = Some y /\ Dict.get "ReconMatrixPE" g = Some (VInt y) /\
               Dict.get "ReconMatrixFE" g = Some (VInt x)).
Proof.
  intros H Hpe Hfe. unfold Batch.recon_matrix in H.
  revert H.
  apply (for_break_post
           (fun st : option Z * dict =>
              fst st = None /\ Dict.get "ReconMatrixPE" (snd st) = None /\
              Dict.get "ReconMatrixFE" (snd st) = None)
           (fun st : option Z * dict =>
              exists x y, fst st = Some y /\
                Dict.get "ReconMatrixPE" (snd st) = Some (VInt y) /\
                Dict.get "ReconMatrixFE" (snd st) = Some (VInt x)));
    [|repeat split; assumption].
  intros p st r (H0 & H1 & H2) Hr. unfold Batch.recon_body in Hr.
  destruct (re_search p content [IGNORECASE]);
    [|injection Hr as <-; repeat split; assumption].
  apply bind_inr in Hr as (x & _ & Hr). apply bind_inr in Hr as (y & _ & Hr).
  destruct x as [x|]; [|injection Hr as <-; repeat split; assumption].
  destruct y as [y|]; [|injection Hr as <-; repeat split; assumption].
  destruct (negb (x =? 0) && negb (y =? 0)); injection Hr as <-; cbn [fst snd];
    [|repeat split; assumption].
  exists x, y. split; [reflexivity|]. split.
  - rewrite get_set_ne by discriminate. apply get_set_eq.
  - apply get_set_eq.
Qed.

(** X9 (echo spacing and the matrix).  In the field set
    [extract_philips_bids_3sites] returns, [ReconMatrixPE] and
    [ReconMatrixFE] are both there or both missing, and an
    [EffectiveEchoSpacing] is only there with a non-zero [ReconMatrixPE]. *)
Theorem batch_echo_spacing_needs_matrix {RT : PyRuntime}
  (file : option string) (par_file_path : string) (now : datetime) :
  (Dict.get "ReconMatrixPE"
     (Batch.extract_philips_bids_3sites file par_file_path now) = None <->
   Dict.get "ReconMatrixFE"
     (Batch.extract_philips_bids_3sites file par_file_path now) = None) /\
  (Dict.get "EffectiveEchoSpacing"
     (Batch.extract_philips_bids_3sites file par_file_path now) <> None ->
   exists y, y <> 0 /\
     Dict.get "ReconMatrixPE"
       (Batch.extract_philips_bids_3sites file par_file_path now)
     = Some (VInt y)).
Proof.
  unfold Batch.extract_philips_bids_3sites.
  destruct file as [content|]; [|cbn; split; [tauto|congruence]].
  destruct (Batch.extract_from_text content par_file_path now) as [e|fields] eqn:E;
    [cbn; split; [tauto|congruence]|].
  unfold Batch.extract_from_text in E. cbv zeta in E.
  apply bind_inr in E as (site & _ & E).
  apply bind_inr in E as ([n_slices f2] & E2 & E).
  apply bind_inr in E as (f3 & E3 & E).
  apply bind_inr in E as (f4 & E4 & E).
  destruct (Batch.water_fat_shift_loop content _) as [wfs f6] eqn:E6.
  apply bind_inr in E as ([pe f7] & E7 & E).
  injection E as <-.
  (* none of the three keys is set before the matrix is read *)
  assert (Hnone : forall k, In k ["ReconMatrixPE"; "ReconMatrixFE";
                                  "EffectiveEchoSpacing"] ->
                            Dict.get k f6 = None).
  { intros k Hk.
    assert (Hs : forall k' p,
              In k' ["_SiteInfo"; "RepetitionTime"; "EchoTime"; "NumberOfSlices";
                     "SliceTiming"; "_SliceTimingMethod"; "SliceEncodingDirection";
                     "PhaseEncodingDirection"; "WaterFatShift"] ->
              stable (fun g => Dict.get k g = None) k' p).
    { intros k' p Hk'. apply stable_none. intros E'. subst k'.
      cbn [In] in Hk, Hk'. intuition (subst; discriminate). }
    set (I0 := fun g => Dict.get k g = None) in *. change (I0 f6).
    change f6 with (snd (wfs, f6)). rewrite <- E6. unfold Batch.water_fat_shift_loop.
    apply positive_float_loop_positive; [apply Hs; cbn; auto 10|].
    apply phase_encoding_direction_keeps_batch; [apply Hs; cbn; auto 10|].
    apply (batch_slice_encoding_direction_keeps _ _ _ _ E4); [apply Hs; cbn; auto 10|].
    apply (slice_timing_block_keeps_batch _ _ _ _ E3); try (apply Hs; cbn; auto 10).
    change f2 with (snd (n_slices, f2)).
    apply (number_of_slices_keeps _ _ _ _ E2); [apply Hs; cbn; auto 10|].
    unfold Batch.echo_time, Batch.repetition_time.
    apply positive_float_loop_post; [apply Hs; cbn; auto 10|].
    apply positive_float_loop_post; [apply Hs; cbn; auto 10|].
    apply (Hs "_SiteInfo" is_dict); [cbn; auto|reflexivity|reflexivity]. }
  (* the blocks after the echo spacing *)
  set (f8 := Batch.effective_echo_spacing site wfs pe f7).
  assert (Hlater : forall k, In k ["ReconMatrixPE"; "ReconMatrixFE";
                                   "EffectiveEchoSpacing"] ->
            Dict.get k
              (Dict.set "_ProcessingInfo" (VDict (Batch.processing_info site now))
                 (Dict.set "Manufacturer" (VStr "Philips")
                    (Batch.task_name content
                       (Batch.flip_angle content
                          (Batch.slice_thickness content f8)))))
            = Dict.get k f8).
  { intros k Hk.
    assert (Hs : forall k' p,
              In k' ["SliceThickness"; "FlipAngle"; "TaskName"; "Manufacturer";
                     "_ProcessingInfo"] ->
              stable (fun g => Dict.get k g = Dict.get k f8) k' p).
    { intros k' p Hk'. apply stable_other. intros E'. subst k'.
      cbn [In] in Hk, Hk'. intuition (subst; discriminate). }
    set (I0 := fun g => Dict.get k g = Dict.get k f8) in *.
    match goal with |- Dict.get k ?g = _ => change (I0 g) end.
    apply (Hs "_ProcessingInfo" is_dict); [cbn; auto 10|reflexivity|].
    apply (Hs "Manufacturer" is_text); [cbn; auto 10|reflexivity|].
    apply task_name_keeps; [apply Hs; cbn; auto 10|].
    unfold Batch.flip_angle, Batch.slice_thickness.
    apply positive_float_loop_positive; [apply Hs; cbn; auto 10|].
    apply positive_float_loop_positive; [apply Hs; cbn; auto 10|reflexivity]. }
  rewrite !Hlater by (cbn; auto). clear Hlater.
  (* the matrix and the echo spacing *)
  assert (Hees7 : Dict.get "EffectiveEchoSpacing" f7 = None).
  { change f7 with (snd (pe, f7)).
    apply (recon_matrix_keeps (fun g => Dict.get "EffectiveEchoSpacing" g = None)
             _ _ _ E7); try (apply stable_none; discriminate).
    apply Hnone; cbn; auto. }
  assert (H8 : forall k, k <> "EffectiveEchoSpacing" ->
                         Dict.get k f8 = Dict.get k f7).
  { intros k Hk. unfold f8.
    apply (effective_echo_spacing_keeps (fun g => Dict.get k g = Dict.get k f7));
      [apply stable_other; exact Hk|reflexivity]. }
  rewrite !H8 by discriminate.
  destruct (recon_matrix_stored content f6 pe f7 E7
              (Hnone "ReconMatrixPE" ltac:(cbn; auto))
              (Hnone "ReconMatrixFE" ltac:(cbn; auto)))
    as [(-> & Hpe & Hfe)|(x & y & -> & Hpe & Hfe)]; rewrite Hpe, Hfe.
  - split; [tauto|]. intros H. exfalso. apply H. unfold f8.
    unfold Batch.effective_echo_spacing, truthy_int.
    rewrite andb_false_r. exact Hees7.
  - split; [split; discriminate|]. intros H. exists y. split; [|reflexivity].
    intros ->. apply H. unfold f8, Batch.effective_echo_spacing, truthy_int.
    cbn [Z.eqb negb]. rewrite andb_false_r. exact Hees7.
Qed.

(** ** Failures of the batch extractor *)






Section BatchFailures.
Context {RT : PyRuntime}.





End BatchFailures.



Section TargetedBlocks.
Context {RT : PyRuntime}.
Variable I : dict -> Prop.
Implicit Types (f g : dict) (k key : string).

Lemma safe_str_text (value_str : string) :
  Str.truthy (safe_str value_str) = true -> is_text (VStr (safe_str value_str)) = true.
Proof. intros H. exact H. Qed.

Lemma str_field_stable patterns key default content f :
  Str.truthy default = true ->
  stable I key is_text -> I f ->
  I (Targeted.str_field patterns key default content f).
Proof.
  intros Hd Hk Hf. unfold Targeted.str_field. cbv zeta.
  assert (H : I (for_break_pure (Targeted.str_field_body content key) patterns f)).
  { apply (for_break_pure_inv I); [|exact Hf].
    intros p g Hg. unfold Targeted.str_field_body.
    destruct (re_search p content [IGNORECASE]); [|exact Hg].
    destruct (Str.truthy (safe_str _)) eqn:E; cbn [fst]; [|exact Hg].
    apply Hk; [exact E|exact Hg]. }
  destruct (negb _); [|exact H]. apply Hk; [exact Hd|exact H].
Qed.

Lemma int_field_stable patterns key default content f g :
  Targeted.int_field patterns key default content f = inr g ->
  default <> 0 ->
  stable I key is_nonzero_int -> I f -> I g.
Proof.
  intros H Hd Hk Hf. unfold Targeted.int_field in H.
  apply bind_inr in H as (h & Hh & H). injection H as <-.
  assert (E : I h).
  { revert Hh. apply (for_break_inv I); [|exact Hf].
    intros p s r Hs Hr. unfold Targeted.int_field_body in Hr.
    destruct (re_search p content [IGNORECASE]);
      [|injection Hr as <-; exact Hs].
    apply bind_inr in Hr as ([n|] & _ & Hr);
      [|injection Hr as <-; exact Hs].
    destruct (negb (n =? 0)) eqn:En; injection Hr as <-; cbn [fst]; [|exact Hs].
    apply Hk; [exact En|exact Hs]. }
  destruct (negb _); [|exact E]. apply Hk; [|exact E].
  cbn. destruct (Z.eqb_spec default 0); [contradiction|reflexivity].
Qed.

Lemma default_float_stable key (p : value -> bool) x f :
  p (VFloat x) = true -> stable I key p -> I f ->
  I (Targeted.default_float key x f).
Proof.
  intros Hx Hk Hf. unfold Targeted.default_float.
  destruct (negb _); [apply Hk; assumption|exact Hf].
Qed.

Lemma rescale_parameters_stable content f :
  stable I "PhilipsRescaleSlope" is_nonzero_float ->
  stable I "PhilipsRescaleIntercept" is_float ->
  stable I "PhilipsScaleSlope" is_nonzero_float ->
  I f -> I (Targeted.rescale_parameters content f).
Proof.
  intros H1 H2 H3 Hf. unfold Targeted.rescale_parameters. cbv zeta.
  apply (default_float_stable _ is_nonzero_float); [reflexivity|exact H3|].
  apply (default_float_stable _ is_float); [reflexivity|exact H2|].
  apply (default_float_stable _ is_nonzero_float); [reflexivity|exact H1|].
  apply (for_break_pure_inv I); [|exact Hf].
  intros line g Hg. unfold Targeted.rescale_body. cbv zeta.
  destruct (_ && _); cbn [fst]; [|exact Hg].
  assert (Ha : I match Targeted.part_or (Str.split (Str.strip line)) 10 1 with
                 | Some x => if Fl.truthy x
                             then Dict.set "PhilipsRescaleSlope" (VFloat x) g else g
                 | None => g
                 end).
  { destruct (Targeted.part_or _ 10 1) as [x|]; [|exact Hg].
    destruct (Fl.truthy x) eqn:E; [|exact Hg]. apply H1; [exact E|exact Hg]. }
  revert Ha. generalize (match Targeted.part_or (Str.split (Str.strip line)) 10 1 with
                 | Some x => if Fl.truthy x
                             then Dict.set "PhilipsRescaleSlope" (VFloat x) g else g
                 | None => g
                 end). intros g1 Hg1.
  assert (Hb : I match Targeted.part_or (Str.split (Str.strip line)) 11 0 with
                 | Some x => Dict.set "PhilipsRescaleIntercept" (VFloat x) g1
                 | None => g1
                 end).
  { destruct (Targeted.part_or _ 11 0) as [x|]; [|exact Hg1].
    apply H2; [reflexivity|exact Hg1]. }
  revert Hb. generalize (match Targeted.part_or (Str.split (Str.strip line)) 11 0 with
                 | Some x => Dict.set "PhilipsRescaleIntercept" (VFloat x) g1
                 | None => g1
                 end). intros g2 Hg2.
  destruct (Targeted.part_or _ 12 1) as [x|]; [|exact Hg2].
  destruct (Fl.truthy x) eqn:E; [|exact Hg2]. apply H3; [exact E|exact Hg2].
Qed.

Lemma echo_time_stable content f :
  stable I "EchoTime" is_float -> I f -> I (Targeted.echo_time content f).
Proof.
  intros Hk Hf. unfold Targeted.echo_time. cbv zeta.
  apply (default_float_stable _ is_float); [reflexivity|exact Hk|].
  apply positive_float_loop_post; assumption.
Qed.

Lemma all_some_length {A : Type} (l : list (option A)) (r : list A) :
  Targeted.all_some l = Some r -> length r = length l.
Proof.
  revert r. induction l as [|[a|] l IH]; intros r H; cbn in H;
    [injection H as <-; reflexivity| |discriminate H].
  destruct (Targeted.all_some l) as [r'|]; [|discriminate H].
  injection H as <-. cbn. rewrite (IH r' eq_refl). reflexivity.
Qed.

Lemma floats_are_floats (l : list float) : forallb is_float (map VFloat l) = true.
Proof. induction l; cbn; auto. Qed.

Lemma image_orientation_stable content f :
  stable I "ImageOrientationPatientDICOM" is_six_floats ->
  I f -> I (Targeted.image_orientation content f).
Proof.
  intros Hk Hf. unfold Targeted.image_orientation. cbv zeta.
  apply Hk; [|exact Hf].
  assert (H : for_break_pure Targeted.orientation_body
                (Targeted.image_lines content) [] = [] \/
              length (for_break_pure Targeted.orientation_body
                        (Targeted.image_lines content) []) = 6%nat).
  { apply (for_break_pure_inv (fun m => m = [] \/ length m = 6%nat));
      [|left; reflexivity].
    intros line m Hm. unfold Targeted.orientation_body. cbv zeta.
    repeat match goal with
           | |- context [if ?b then _ else _] => destruct b
           end; cbn [fst]; try exact Hm.
    destruct (Targeted.all_some _) as [r|] eqn:E; cbn [fst]; [|exact Hm].
    right. rewrite (all_some_length _ _ E). reflexivity. }
  destruct (for_break_pure _ _ _) as [|x m]; [reflexivity|].
  destruct H as [H|H]; [discriminate H|].
  unfold is_six_floats. rewrite length_map, H, floats_are_floats. reflexivity.
Qed.

Lemma repetition_time_stable content f :
  stable I "RepetitionTime" is_float -> I f ->
  I (Targeted.repetition_time content f).
Proof.
  intros Hk Hf. unfold Targeted.repetition_time.
  apply positive_float_loop_post; assumption.
Qed.

Lemma slice_timing_block_stable n_slices f g :
  slice_timing_block None n_slices f = inr g ->
  stable I "SliceTiming" is_float_list -> I f -> I g.
Proof.
  intros H Hk Hf. unfold slice_timing_block in H.
  destruct (_ && _); [|injection H as <-; exact Hf].
  destruct (Dict.get "RepetitionTime" f) as [[]|]; try discriminate H.
  destruct n_slices as [n|]; [|discriminate H].
  apply bind_inr in H as (t & _ & H). injection H as <-.
  apply Hk; [apply floats_are_floats|exact Hf].
Qed.

Lemma slice_encoding_direction_stable content f g :
  Targeted.slice_encoding_direction content f = inr g ->
  stable I "SliceEncodingDirection" (is_one_of ["k"; "i"; "j"]) -> I f -> I g.
Proof.
  intros H Hk Hf. unfold Targeted.slice_encoding_direction in H.
  apply bind_inr in H as (d & Hd & H). injection H as <-.
  apply Hk; [|exact Hf].
  assert (Hr : forall c, d = Some c -> Str.mem c ["k"; "i"; "j"] = true).
  { revert Hd.
    apply (for_break_inv
             (fun d => forall c, d = Some c -> Str.mem c ["k"; "i"; "j"] = true));
      [|intros c Hc; discriminate Hc].
    intros p s r Hs Hr. unfold Targeted.slice_encoding_body in Hr.
    destruct (re_search p content [IGNORECASE]); [|injection Hr as <-; exact Hs].
    apply bind_inr in Hr as (code & _ & Hr). injection Hr as <-. cbn [fst].
    destruct (orientation_code code) as [c|] eqn:Ec; [|exact Hs].
    intros c' [= <-]. exact (orientation_code_range _ _ Ec). }
  destruct d as [c|]; [apply Hr; reflexivity|reflexivity].
Qed.

Lemma phase_encoding_direction_stable content f :
  stable I "PhaseEncodingDirection" (is_one_of ["j-"; "j"; "i-"; "i"]) ->
  I f -> I (Targeted.phase_encoding_direction content f).
Proof.
  intros Hk Hf. unfold Targeted.phase_encoding_direction. cbv zeta.
  apply Hk; [|exact Hf]. rewrite targeted_phase_loop.
  destruct (code_of_match _) as [c|] eqn:E; [|reflexivity].
  unfold code_of_match in E. destruct (first_match _ _); [|discriminate E].
  apply mem_In. exact (direction_code_range _ _ E).
Qed.

Lemma effective_echo_spacing_stable content f g :
  Targeted.effective_echo_spacing content f = inr g ->
  stable I "EffectiveEchoSpacing" is_float -> I f -> I g.
Proof.
  intros H Hk Hf. unfold Targeted.effective_echo_spacing in H. cbv zeta in H.
  apply bind_inr in H as (pe & _ & H). injection H as <-.
  apply Hk; [reflexivity|exact Hf].
Qed.

End TargetedBlocks.

Lemma stable_present (l : list string) (k : string) (p : value -> bool) :
  stable (present l) k p.
Proof.
  intros v g _ Hg k' Hk'. rewrite get_set.
  destruct (String.eqb k' k); [discriminate|]. apply Hg. exact Hk'.
Qed.

Lemma present_cons (l : list string) (k : string) (g : dict) :
  Dict.get k g <> None -> present l g -> present (k :: l) g.
Proof. intros Hk Hl k' [<-|Hk']; [exact Hk|apply Hl; exact Hk']. Qed.

Lemma present_set (l : list string) (k : string) (v : value) (g : dict) :
  present l g -> present (k :: l) (Dict.set k v g).
Proof.
  intros Hl. apply present_cons; [rewrite get_set_eq; discriminate|].
  apply (stable_present l k (fun _ => true)); [reflexivity|exact Hl].
Qed.

Section TargetedPresence.
Context {RT : PyRuntime}.

Lemma default_float_sets key x f :
  Dict.get key (Targeted.default_float key x f) <> None.
Proof.
  unfold Targeted.default_float, Dict.mem.
  destruct (Dict.get key f) eqn:E; cbn [negb];
    [rewrite E; discriminate|rewrite get_set_eq; discriminate].
Qed.

Lemma str_field_sets patterns key default content f :
  Dict.get key (Targeted.str_field patterns key default content f) <> None.
Proof.
  unfold Targeted.str_field, Dict.mem. cbv zeta.
  destruct (Dict.get key (for_break_pure _ _ _)) eqn:E; cbn [negb];
    [rewrite E; discriminate|rewrite get_set_eq; discriminate].
Qed.

Lemma int_field_sets patterns key default content f g :
  Targeted.int_field patterns key default content f = inr g ->
  Dict.get key g <> None.
Proof.
  intros H. unfold Targeted.int_field in H.
  apply bind_inr in H as (h & _ & H). injection H as <-. unfold Dict.mem.
  destruct (Dict.get key h) eqn:E; cbn [negb];
    [rewrite E; discriminate|rewrite get_set_eq; discriminate].
Qed.

Lemma rescale_parameters_sets content f k :
  In k ["PhilipsRescaleSlope"; "PhilipsRescaleIntercept"; "PhilipsScaleSlope"] ->
  Dict.get k (Targeted.rescale_parameters content f) <> None.
Proof.
  intros Hk. unfold Targeted.rescale_parameters. cbv zeta.
  set (P := fun g : dict => Dict.get k g <> None).
  assert (HP : forall k' p, stable P k' p).
  { intros k' p v g _ Hg. unfold P. rewrite get_set.
    destruct (String.eqb k k'); [discriminate|exact Hg]. }
  cbn [In] in Hk. destruct Hk as [<-|[<-|[<-|[]]]].
  - apply (default_float_stable P _ is_nonzero_float); [reflexivity|apply HP|].
    apply (default_float_stable P _ is_float); [reflexivity|apply HP|].
    apply default_float_sets.
  - apply (default_float_stable P _ is_nonzero_float); [reflexivity|apply HP|].
    apply default_float_sets.
  - apply default_float_sets.
Qed.

Lemma slice_encoding_direction_sets content f g :
  Targeted.slice_encoding_direction content f = inr g ->
  Dict.get "SliceEncodingDirection" g <> None.
Proof.
  intros H. unfold Targeted.slice_encoding_direction in H.
  apply bind_inr in H as (d & _ & H). injection H as <-.
  rewrite get_set_eq. discriminate.
Qed.

Lemma effective_echo_spacing_present content f g :
  Targeted.effective_echo_spacing content f = inr g ->
  Dict.get "EffectiveEchoSpacing" g <> None.
Proof.
  intros H. unfold Targeted.effective_echo_spacing in H. cbv zeta in H.
  apply bind_inr in H as (pe & _ & H). injection H as <-.
  rewrite get_set_eq. discriminate.
Qed.

(** An invariant of every assignment the targeted extractor makes holds of
    the field set it returns. *)
Lemma targeted_extract_stable (I : dict -> Prop) content now fields :
  Targeted.extract_from_text content now = inr fields ->
  (forall k p, In (k, p) targeted_schema -> stable I k p) ->
  I [] -> I fields.
Proof.
  intros E HJ H0. unfold Targeted.extract_from_text in E. cbv zeta in E.
  apply bind_inr in E as (f1 & E1 & E).
  apply bind_inr in E as (f2 & E2 & E).
  apply bind_inr in E as (n_slices & _ & E).
  apply bind_inr in E as (f3 & E3 & E).
  apply bind_inr in E as (f4 & E4 & E).
  apply bind_inr in E as (f5 & E5 & E).
  injection E as <-.
  assert (S : forall k p, In (k, p) targeted_schema ->
                forall v g, p v = true -> I g -> I (Dict.set k v g))
    by exact HJ.
  apply (S "_ProcessingInfo" is_dict); [cbn; auto 30|reflexivity|].
  apply (effective_echo_spacing_stable I _ _ _ E5); [apply HJ; cbn; auto 30|].
  apply phase_encoding_direction_stable; [apply HJ; cbn; auto 30|].
  apply (slice_encoding_direction_stable I _ _ _ E4); [apply HJ; cbn; auto 30|].
  apply (S "TaskName" (is_one_of ["rest"])); [cbn; auto 30|reflexivity|].
  apply (slice_timing_block_stable I _ _ _ E3); [apply HJ; cbn; auto 30|].
  apply repetition_time_stable; [apply HJ; cbn; auto 30|].
  apply image_orientation_stable; [apply HJ; cbn; auto 30|].
  apply echo_time_stable; [apply HJ; cbn; auto 30|].
  apply (S "UsePhilipsFloatNotDisplayScaling" is_true);
    [cbn; auto 30|reflexivity|].
  apply rescale_parameters_stable; try (apply HJ; cbn; auto 30).
  apply (S "ImageComments" (is_one_of ["NESDA"])); [cbn; auto 30|reflexivity|].
  apply (int_field_stable I _ _ _ _ _ _ E2); [discriminate|apply HJ; cbn; auto 30|].
  apply (int_field_stable I _ _ _ _ _ _ E1); [discriminate|apply HJ; cbn; auto 30|].
  apply str_field_stable; [reflexivity|apply HJ; cbn; auto 30|].
  apply str_field_stable; [reflexivity|apply HJ; cbn; auto 30|].
  apply str_field_stable; [reflexivity|apply HJ; cbn; auto 30|].
  apply (S "Manufacturer" (is_one_of ["Philips"])); [cbn; auto 30|reflexivity|].
  exact H0.
Qed.

(** The keys of [targeted_required] are in the field set it returns. *)
Lemma targeted_extract_present content now fields :
  Targeted.extract_from_text content now = inr fields ->
  present targeted_required fields.
Proof.
  intros E. unfold Targeted.extract_from_text in E. cbv zeta in E.
  apply bind_inr in E as (f1 & E1 & E).
  apply bind_inr in E as (f2 & E2 & E).
  apply bind_inr in E as (n_slices & _ & E).
  apply bind_inr in E as (f3 & E3 & E).
  apply bind_inr in E as (f4 & E4 & E).
  apply bind_inr in E as (f5 & E5 & E).
  injection E as <-.
  assert (H : present
    ["_ProcessingInfo"; "EffectiveEchoSpacing"; "PhaseEncodingDirection";
     "SliceEncodingDirection"; "TaskName"; "ImageOrientationPatientDICOM";
     "EchoTime"; "UsePhilipsFloatNotDisplayScaling"; "PhilipsScaleSlope";
     "PhilipsRescaleIntercept"; "PhilipsRescaleSlope"; "ImageComments";
     "AcquisitionNumber"; "SeriesNumber"; "ProtocolName"; "SeriesDescription";
     "PatientPosition"; "Manufacturer"]
    (Dict.set "_ProcessingInfo" (VDict (Targeted.processing_info f5 now)) f5)).
  { apply present_set.
    apply present_cons; [exact (effective_echo_spacing_present _ _ _ E5)|].
    apply (effective_echo_spacing_stable _ _ _ _ E5); [apply stable_present|].
    apply present_cons;
      [unfold Targeted.phase_encoding_direction; cbv zeta;
       rewrite get_set_eq; discriminate|].
    apply phase_encoding_direction_stable; [apply stable_present|].
    apply present_cons; [exact (slice_encoding_direction_sets _ _ _ E4)|].
    apply (slice_encoding_direction_stable _ _ _ _ E4); [apply stable_present|].
    apply present_set.
    apply (slice_timing_block_stable _ _ _ _ E3); [apply stable_present|].
    apply repetition_time_stable; [apply stable_present|].
    apply present_cons;
      [unfold Targeted.image_orientation; cbv zeta;
       rewrite get_set_eq; discriminate|].
    apply image_orientation_stable; [apply stable_present|].
    apply present_cons;
      [unfold Targeted.echo_time; cbv zeta; apply default_float_sets|].
    apply echo_time_stable; [apply stable_present|].
    apply present_set.
    apply present_cons; [apply rescale_parameters_sets; cbn; auto|].
    apply present_cons; [apply rescale_parameters_sets; cbn; auto|].
    apply present_cons; [apply rescale_parameters_sets; cbn; auto|].
    apply rescale_parameters_stable; try apply stable_present.
    apply present_set.
    apply present_cons; [exact (int_field_sets _ _ _ _ _ _ E2)|].
    apply (int_field_stable _ _ _ _ _ _ _ E2); [discriminate|apply stable_present|].
    apply present_cons; [exact (int_field_sets _ _ _ _ _ _ E1)|].
    apply (int_field_stable _ _ _ _ _ _ _ E1); [discriminate|apply stable_present|].
    apply present_cons; [apply str_field_sets|].
    apply str_field_stable; [reflexivity|apply stable_present|].
    apply present_cons; [apply str_field_sets|].
    apply str_field_stable; [reflexivity|apply stable_present|].
    apply present_cons; [apply str_field_sets|].
    apply str_field_stable; [reflexivity|apply stable_present|].
    apply present_set. intros k []. }
  intros k Hk. apply H. cbn [targeted_required In] in Hk |- *. tauto.
Qed.

End TargetedPresence.

Lemma wf_set (k : string) (v : value) (d : dict) :
  Dict.wf d -> Dict.wf (Dict.set k v d).
Proof.
  unfold Dict.wf. rewrite keys_set. unfold Dict.mem.
  destruct (Dict.get k d) eqn:E; [auto|]. intros H.
  apply get_None_keys in E. revert E H.
  induction (Dict.keys d) as [|x l IH]; cbn; intros E H.
  - constructor; [intros []|constructor].
  - inversion H as [|? ? Hx Hl]; subst. constructor.
    + rewrite in_app_iff. cbn. intros [Hin|[->|[]]]; [exact (Hx Hin)|].
      apply E. left. reflexivity.
    + apply IH; [intros Hin; apply E; right; exact Hin|exact Hl].
Qed.

Lemma conforms_keys (s : schema) (f : dict) (k : string) :
  conforms s f -> In k (Dict.keys f) -> In k (map fst s).
Proof.
  intros Hf Hk. destruct (Dict.get k f) as [v|] eqn:E;
    [|apply get_None_keys in E; contradiction].
  specialize (Hf k v E). unfold conforms_to in Hf. clear E Hk.
  induction s as [|[k' p] s IH]; cbn in Hf |- *; [discriminate Hf|].
  destruct (String.eqb k k') eqn:E; [apply String.eqb_eq in E; auto|auto].
Qed.

(** X11 (field set of the targeted extractor).  A non-empty field set of
    [extract_complete_philips_params] holds every key of
    [targeted_required], each of its entries has the shape
    [targeted_schema] gives its key, and [ParametersExtracted] in its
    [_ProcessingInfo] is the number of its public keys, between 17 and 19. *)
Theorem targeted_fields_complete {RT : PyRuntime} (file : option string)
  (now : datetime) (fields : dict) :
  Targeted.extract_complete_philips_params file now = fields ->
  fields <> [] ->
  (forall k, In k targeted_required -> Dict.mem k fields = true) /\
  (forall k v, Dict.get k fields = Some v ->
               conforms_to targeted_schema k v = true) /\
  exists info,
    Dict.get "_ProcessingInfo" fields = Some (VDict info) /\
    Dict.get "ParametersExtracted" info = Some (VInt (len (public_keys fields))) /\
    17 <= len (public_keys fields) <= 19.
Proof.
  intros <- Hne. unfold Targeted.extract_complete_philips_params in *.
  destruct file as [content|]; [|contradiction].
  destruct (Targeted.extract_from_text content now) as [e|fields] eqn:E;
    [contradiction|].
  pose proof (targeted_extract_present _ _ _ E) as Hp.
  assert (Hc : conforms targeted_schema fields).
  { apply (targeted_extract_stable _ _ _ _ E); [|intros k v Hk; discriminate Hk].
    intros k p Hin. apply stable_conforms.
    cbn [In targeted_schema] in Hin.
    repeat (destruct Hin as [Hin|Hin]; [injection Hin as <- <-; reflexivity|]).
    destruct Hin. }
  assert (Hw : Dict.wf fields).
  { apply (targeted_extract_stable _ _ _ _ E); [|constructor].
    intros k p _ v g _. apply wf_set. }
  split; [|split; [exact Hc|]].
  { intros k Hk. unfold Dict.mem. specialize (Hp k Hk).
    destruct (Dict.get k fields); [reflexivity|contradiction]. }
  assert (Hb : 17 <= len (public_keys fields) <= 19).
  { unfold len, public_keys.
    set (pub := List.filter _ (Dict.keys fields)).
    assert (Hnd : List.NoDup pub) by (subst pub; apply List.NoDup_filter; exact Hw).
    assert (Hlo : (length (List.filter (fun k => negb (Str.startswith "_" k))
                             targeted_required) <= length pub)%nat).
    { apply List.NoDup_incl_length; [apply distinct_NoDup; reflexivity|].
      intros k Hk. apply List.filter_In in Hk as [Hk Hpub]. apply List.filter_In.
      split; [|exact Hpub]. specialize (Hp k Hk).
      destruct (Dict.get k fields) eqn:Ek; [|contradiction].
      destruct (in_dec string_dec k (Dict.keys fields)) as [H|H]; [exact H|].
      apply get_None_keys in H. congruence. }
    assert (Hhi : (length pub <=
                   length (List.filter (fun k => negb (Str.startswith "_" k))
                             (map fst targeted_schema)))%nat).
    { apply List.NoDup_incl_length; [exact Hnd|].
      intros k Hk. apply List.filter_In in Hk as [Hk Hpub]. apply List.filter_In.
      split; [|exact Hpub]. exact (conforms_keys _ _ _ Hc Hk). }
    cbn in Hlo, Hhi. lia. }
  unfold Targeted.extract_from_text in E. cbv zeta in E.
  apply bind_inr in E as (f1 & E1 & E).
  apply bind_inr in E as (f2 & E2 & E).
  apply bind_inr in E as (n_slices & _ & E).
  apply bind_inr in E as (f3 & E3 & E).
  apply bind_inr in E as (f4 & E4 & E).
  apply bind_inr in E as (f5 & E5 & E).
  injection E as E. eexists. split; [rewrite <- E; apply get_set_eq|].
  split; [|exact Hb].
  cbn [Targeted.processing_info Dict.get String.eqb Ascii.eqb Bool.eqb].
  do 3 f_equal. unfold Targeted.count_public, public_keys. f_equal.
  rewrite <- E, keys_set. destruct (Dict.mem _ f5); [reflexivity|].
  rewrite List.filter_app. cbn. rewrite app_nil_r. reflexivity.
Qed.

Lemma targeted_fields_complete_witness :
  let fields := Targeted.extract_complete_philips_params (RT := py_rt)
                  (Some Sample.header) Sample.t1 in
  fields <> [] /\
  (forall k, In k targeted_required -> Dict.mem k fields = true).
Proof.
  cbv zeta.
  assert (H : Targeted.extract_complete_philips_params (RT := py_rt)
                (Some Sample.header) Sample.t1 <> [])
    by (vm_compute; discriminate).
  split; [exact H|].
  exact (proj1 (targeted_fields_complete (RT := py_rt) (Some Sample.header)
                  Sample.t1 _ eq_refl H)).
Defined.

(** ** Pairing *)

Lemma best_par_loop (par_files : list Path.attrs) (b : Path.attrs) :
  for_break_pure best_par_body par_files None = Some b -> In b par_files.
Proof.
  induction par_files as [|p l IH]; cbn [for_break_pure]; [discriminate|].
  unfold best_par_body.
  destruct (Str.contains_any par_words (Str.lower (Path.stem p))); cbn [fst snd].
  - intros [= <-]. left. reflexivity.
  - intros H. right. exact (IH H).
Qed.

Lemma find_best_par_In (par_files : list Path.attrs) (b : Path.attrs) :
  find_best_par par_files = Some b -> In b par_files.
Proof.
  unfold find_best_par.
  destruct (for_break_pure best_par_body par_files None) as [p|] eqn:E.
  - intros [= <-]. exact (best_par_loop _ _ E).
  - destruct par_files as [|p l]; cbn; [discriminate|].
    intros [= <-]. left. reflexivity.
Qed.

Lemma find_best_par_some (par_files : list Path.attrs) :
  par_files <> [] -> find_best_par par_files <> None.
Proof.
  unfold find_best_par. intros H.
  destruct (for_break_pure best_par_body par_files None); [discriminate|].
  destruct par_files; [contradiction|discriminate].
Qed.

Lemma pair_loop json_words par_files json_files : forall acc,
  fold_left (pair_body json_words par_files) json_files acc
  = (acc ++ match find_best_par par_files with
            | Some b => map (fun j => (b, j)) (task_files json_words json_files)
            | None => []
            end)%list.
Proof.
  unfold task_files.
  induction json_files as [|j l IH]; intros acc; cbn [fold_left List.filter].
  - destruct (find_best_par par_files); cbn; rewrite app_nil_r; reflexivity.
  - rewrite IH. unfold pair_body at 1. cbv zeta.
    destruct (Str.contains_any json_words (Str.lower (Path.stem j)));
      [|reflexivity].
    destruct (find_best_par par_files); [|reflexivity].
    cbn [map]. rewrite <- app_assoc. reflexivity.
Qed.

(** The pairs in closed form: every sidecar with a task word goes with the
    one best PAR file; without such a sidecar the first sidecar goes with
    the first PAR file. *)
Lemma pair_files_closed json_words par_files json_files :
  pair_files json_words par_files json_files
  = match par_files, json_files with
    | par_file :: _, json_file :: _ =>
        match find_best_par par_files, task_files json_words json_files with
        | Some b, (_ :: _) as l => map (fun j => (b, j)) l
        | _, _ => [(par_file, json_file)]
        end
    | _, _ => []
    end.
Proof.
  unfold pair_files. destruct par_files as [|p ps]; [reflexivity|].
  destruct json_files as [|j js]; [reflexivity|].
  cbn [nonempty andb]. rewrite pair_loop. cbn [app].
  destruct (find_best_par (p :: ps)) as [b|]; [|reflexivity].
  destruct (task_files json_words (j :: js)); reflexivity.
Qed.

Lemma filter_sublist {A : Type} (P : A -> bool) (l : list A) :
  sublist (List.filter P l) l.
Proof.
  induction l as [|x l IH]; cbn; [constructor|].
  destruct (P x); [apply sublist_skip|apply sublist_cons]; exact IH.
Qed.

Lemma pair_files_spec json_words par_files json_files :
  let pairs := pair_files json_words par_files json_files in
  (pairs = [] <-> par_files = [] \/ json_files = []) /\
  (forall p j, In (p, j) pairs -> In p par_files /\ In j json_files) /\
  (forall p j p' j', In (p, j) pairs -> In (p', j') pairs -> p = p') /\
  sublist (map snd pairs) json_files.
Proof.
  cbv zeta. rewrite pair_files_closed.
  assert (Hnil : forall l : list Path.attrs,
            par_files = [] \/ json_files = [] ->
            (([] : list file_pair) = [] <-> par_files = [] \/ json_files = []) /\
            (forall p j, In (p, j) ([] : list file_pair) ->
                         In p par_files /\ In j json_files) /\
            (forall p j p' j', In (p, j) ([] : list file_pair) ->
                               In (p', j') ([] : list file_pair) -> p = p') /\
            sublist (map snd ([] : list file_pair)) json_files).
  { intros _ H. split; [tauto|]. split; [intros ? ? []|].
    split; [intros ? ? ? ? []|apply sublist_nil_l]. }
  destruct par_files as [|p ps]; [apply (Hnil []); left; reflexivity|].
  destruct json_files as [|j js]; [apply (Hnil []); right; reflexivity|].
  clear Hnil.
  destruct (find_best_par (p :: ps)) as [b|] eqn:Eb.
  2:{ split; [split; [discriminate|intros [H|H]; discriminate H]|].
      split; [intros p0 j0 [[= <- <-]|[]]; split; left; reflexivity|].
      split; [intros ? ? ? ? [[= <- <-]|[]] [[= <- <-]|[]]; reflexivity|].
      cbn. apply sublist_skip, sublist_nil_l. }
  apply find_best_par_In in Eb.
  destruct (task_files json_words (j :: js)) as [|t ts] eqn:Et.
  { split; [split; [discriminate|intros [H|H]; discriminate H]|].
    split; [intros p0 j0 [[= <- <-]|[]]; split; left; reflexivity|].
    split; [intros ? ? ? ? [[= <- <-]|[]] [[= <- <-]|[]]; reflexivity|].
    cbn. apply sublist_skip, sublist_nil_l. }
  split; [split; [discriminate|intros [H|H]; discriminate H]|].
  assert (Hin : forall p0 j0, In (p0, j0) (map (fun j => (b, j)) (t :: ts)) ->
                  p0 = b /\ In j0 (j :: js)).
  { intros p0 j0 H. apply in_map_iff in H as (x & [= <- <-] & Hx).
    split; [reflexivity|]. rewrite <- Et in Hx. unfold task_files in Hx.
    apply List.filter_In in Hx as [Hx _]. exact Hx. }
  split; [intros p0 j0 H; destruct (Hin _ _ H) as [-> Hj]; auto|].
  split; [intros p0 j0 p1 j1 H H'; destruct (Hin _ _ H) as [-> _];
          destruct (Hin _ _ H') as [-> _]; reflexivity|].
  rewrite map_map. cbn [snd]. rewrite map_id, <- Et. apply filter_sublist.
Qed.

Lemma lower_app (s t : string) :
  Str.lower (s +:+ t) = Str.lower s +:+ Str.lower t.
Proof.
  unfold Str.lower. induction s as [|c s IH]; [reflexivity|].
  change (String (Str.lower_char c) (Str.map_chars Str.lower_char (s +:+ t))
          = String (Str.lower_char c)
              (Str.map_chars Str.lower_char s +:+ Str.map_chars Str.lower_char t)).
  f_equal. exact IH.
Qed.

Lemma contains_app (sub s t : string) :
  Str.contains sub t = true -> Str.contains sub (s +:+ t) = true.
Proof.
  intros H. induction s as [|c s IH]; [exact H|].
  change (Str.contains sub (String c (s +:+ t)) = true).
  cbn [Str.contains]. rewrite IH. apply orb_true_r.
Qed.

(** The name of a backup holds the word that excludes it from the sidecars. *)
Lemma backup_name_contains (s t : string) :
  Str.contains "backup" (Str.lower (s +:+ ".backup_" +:+ t)) = true.
Proof.
  rewrite lower_app. apply contains_app. rewrite lower_app. reflexivity.
Qed.

Lemma filter_none_iff {A : Type} (P : A -> bool) (l : list A) :
  List.filter P l = [] <-> forall x, In x l -> P x = false.
Proof.
  induction l as [|x l IH]; cbn; [tauto|].
  destruct (P x) eqn:E; split.
  - discriminate.
  - intros H. specialize (H x (or_introl eq_refl)). congruence.
  - intros H y [<-|Hy]; [exact E|]. apply IH; assumption.
  - intros H. apply IH. intros y Hy. apply H. right; exact Hy.
Qed.

(** X12 (pairing of PAR files and sidecars).  For a directory that exists,
    [find_par_json_pairs] of the batch and the targeted script and
    [find_par_json_pairs_w6] (the instances of [find_pairs]) return no pair
    exactly when the directory lists no PAR file or no sidecar; every pair
    holds a listed PAR file and a listed sidecar, all pairs hold one and the
    same PAR file, the sidecars come in the order of the listing, each at
    most as often as it is listed, and no sidecar has the name of a backup
    made by an update function. *)
Theorem pairs_share_one_par (json_words : list string) (a : Path.attrs)
  (entries : list Path.t) (pairs : list file_pair) :
  find_pairs json_words (Some (Path.Entry a entries)) = inr pairs ->
  Path.exists_ a = true ->
  (pairs = [] <->
   (forall f, In f (map Path.attrs_of entries) -> is_par_file f = false) \/
   (forall f, In f (map Path.attrs_of entries) -> is_json_file f = false)) /\
  (forall p j, In (p, j) pairs ->
     In p (map Path.attrs_of entries) /\ is_par_file p = true /\
     In j (map Path.attrs_of entries) /\ is_json_file j = true) /\
  (forall p j p' j', In (p, j) pairs -> In (p', j') pairs -> p = p') /\
  sublist (map snd pairs)
          (List.filter is_json_file (map Path.attrs_of entries)) /\
  (forall p j s now, In (p, j) pairs ->
     Path.name j <> Path.name s +:+ ".backup_" +:+ strftime_backup now).
Proof.
  intros H Ha. unfold find_pairs, Path.path_exists, Path.iterdir in H.
  cbn [Path.attrs_of] in H. rewrite Ha in H. cbn [negb] in H.
  destruct (Path.is_dir a); [|discriminate H]. cbn [bind ret] in H.
  injection H as <-.
  destruct (pair_files_spec json_words
              (List.filter is_par_file (map Path.attrs_of entries))
              (List.filter is_json_file (map Path.attrs_of entries)))
    as (Hnil & Hin & Hone & Hsub).
  split; [rewrite Hnil, !filter_none_iff; reflexivity|].
  assert (Hfiles : forall p j,
            In (p, j) (pair_files json_words
                         (List.filter is_par_file (map Path.attrs_of entries))
                         (List.filter is_json_file (map Path.attrs_of entries))) ->
            In p (map Path.attrs_of entries) /\ is_par_file p = true /\
            In j (map Path.attrs_of entries) /\ is_json_file j = true).
  { intros p j Hp. destruct (Hin p j Hp) as [H1 H2].
    apply List.filter_In in H1, H2. tauto. }
  split; [exact Hfiles|]. split; [exact Hone|]. split; [exact Hsub|].
  intros p j s now Hp E. destruct (Hfiles p j Hp) as (_ & _ & _ & Hj).
  unfold is_json_file in Hj. rewrite E, backup_name_contains in Hj.
  rewrite andb_false_r in Hj. discriminate Hj.
Qed.

(** ** Processing *)

Section PairsFacts.
Variable json_text : dict -> string.
Variable clock : nat -> readings.
Variable extract : option string -> string -> datetime -> dict.
Variable update : string -> dict -> datetime -> datetime -> filesystem ->
                  filesystem * update_result.

(** Every pair is counted once, as a success or as a failure. *)
Lemma process_pairs_counts (pairs : list file_pair) : forall fs n s f fs' n' s' f',
  process_pairs json_text clock extract update pairs (fs, n, s, f)
  = (fs', n', s', f') ->
  n' = (n + length pairs)%nat /\ s <= s' /\ f <= f' /\
  (s' - s) + (f' - f) = len pairs.
Proof.
  unfold process_pairs, len.
  induction pairs as [|[p j] l IH]; intros fs n s f fs' n' s' f' H;
    cbn [fold_left length] in H |- *.
  - injection H as <- <- <- <-. lia.
  - unfold process_pair at 2 in H.
    destruct (clock n) as [[t1 t2] t3].
    destruct (negb (nonempty _)).
    + apply IH in H. lia.
    + destruct (update _ _ _ _ _) as [fs1 [[[] a] u]]; apply IH in H; lia.
Qed.

(** An update function that writes the sidecar and its backup only. *)
Hypothesis update_frame : forall path bids_params now_backup now_info fs q,
  q <> path -> q <> backup_path path now_backup ->
  files (fst (update path bids_params now_backup now_info fs)) !! q
  = files fs !! q.


End PairsFacts.





Section BatchRunFacts.
Context {RT : PyRuntime}.
Variable json_text : dict -> string.
Variable clock : nat -> readings.

Lemma process_func_dirs_counts (func_dirs : list (option Path.t)) :
  forall fs n p s f fs' n' p' s' f',
  Batch.process_func_dirs json_text clock func_dirs (fs, n) (p, s, f)
  = ((fs', n'), inr (p', s', f')) ->
  p <= p' /\ s <= s' /\ f <= f' /\ p' - p = (s' - s) + (f' - f) /\
  n' = (n + Z.to_nat (p' - p))%nat.
Proof.
  induction func_dirs as [|d l IH]; intros fs n p s f fs' n' p' s' f' H;
    cbn [Batch.process_func_dirs] in H.
  - injection H as <- <- <- <- <-. lia.
  - destruct (Batch.find_par_json_pairs d) as [e|pairs]; [discriminate H|].
    destruct (negb (nonempty pairs)); [exact (IH _ _ _ _ _ _ _ _ _ _ H)|].
    match type of H with
    | context [process_pairs ?a ?b ?c ?d ?e ?g] =>
        destruct (process_pairs a b c d e g) as [[[fs1 n1] s1] f1] eqn:E
    end.
    apply process_pairs_counts in E. apply IH in H. unfold len in *. lia.
Qed.



End BatchRunFacts.

Section RunFacts.
Context {RT : PyRuntime}.
Variable json_text : dict -> string.
Variable clock : nat -> readings.

Lemma process_participant_counts participant_dir fs n fs' n' p s f :
  Batch.process_participant json_text clock participant_dir (fs, n)
  = ((fs', n'), inr (p, s, f)) ->
  p = s + f /\ 0 <= s /\ 0 <= f /\ n' = (n + Z.to_nat p)%nat.
Proof.
  unfold Batch.process_participant.
  destruct (Path.iterdir participant_dir) as [e|items]; [discriminate|].
  destruct (negb (nonempty _)).
  - intros [= <- <- <- <- <-]. cbn. lia.
  - intros H. apply process_func_dirs_counts in H.
    replace (p - 0) with p in H by lia. lia.
Qed.



Lemma process_target_subject_counts subject_dir fs n fs' n' p s f :
  Targeted.process_target_subject json_text clock subject_dir (fs, n)
  = ((fs', n'), inr (p, s, f)) ->
  p = s + f /\ 0 <= s /\ 0 <= f /\ n' = (n + Z.to_nat p)%nat.
Proof.
  unfold Targeted.process_target_subject.
  destruct (Targeted.detect_session_pattern subject_dir) as [e|[session_name|]];
    [discriminate| |intros [= <- <- <- <- <-]; cbn; lia].
  destruct (negb (Str.truthy session_name));
    [intros [= <- <- <- <- <-]; cbn; lia|].
  destruct (negb (Path.path_exists _));
    [intros [= <- <- <- <- <-]; cbn; lia|].
  destruct (Targeted.find_par_json_pairs _) as [e|pairs]; [discriminate|].
  destruct (negb (nonempty pairs)); [intros [= <- <- <- <- <-]; cbn; lia|].
  match goal with
  | |- context [process_pairs ?a ?b ?c ?d ?e ?g] =>
      destruct (process_pairs a b c d e g) as [[[fs1 n1] s1] f1] eqn:E
  end.
  apply process_pairs_counts in E. intros [= <- <- <- <- <-].
  unfold len in *. lia.
Qed.


End RunFacts.

(** ** The loop of [main] *)

Section TallyFacts.
Variable process : Path.t -> run_state -> run_state * py totals.

Hypothesis process_counts : forall dir st st' p s f,
  process dir st = (st', inr (p, s, f)) -> p = s + f /\ 0 <= s /\ 0 <= f.

Lemma tally_counts (subjects : list Path.t) : forall st s,
  tally_ok s ->
  tally_ok (snd (fold_left (tally process) subjects (st, s))) /\
  processed (snd (fold_left (tally process) subjects (st, s)))
  + skipped (snd (fold_left (tally process) subjects (st, s)))
  = processed s + skipped s + len subjects.
Proof.
  unfold len.
  induction subjects as [|dir l IH]; intros st s Hs; cbn [fold_left length].
  - split; [exact Hs|cbn; lia].
  - unfold tally at 2 4 6. destruct Hs as (H1 & H2 & H3 & H4 & H5).
    destruct (process dir st) as [st' [e|[[p su] f]]] eqn:E.
    + destruct (IH st' (mk_stats (processed s) (skipped s + 1) (pairs s)
                          (successes s) (failures s))) as [Ha Hb];
        [unfold tally_ok; cbn; lia|].
      split; [exact Ha|]. rewrite Hb. cbn. lia.
    + apply process_counts in E. destruct (Z.ltb_spec 0 p).
      * match goal with |- context [fold_left _ l (st', ?s1)] =>
          destruct (IH st' s1) as [Ha Hb]; [unfold tally_ok; cbn; lia|]
        end.
        split; [exact Ha|]. rewrite Hb. cbn. lia.
      * match goal with |- context [fold_left _ l (st', ?s1)] =>
          destruct (IH st' s1) as [Ha Hb]; [unfold tally_ok; cbn; lia|]
        end.
        split; [exact Ha|]. rewrite Hb. cbn. lia.
Qed.


End TallyFacts.

Lemma pairs_share_one_par_witness :
  find_pairs ["rest"; "bold"; "task"; "func"] (Some Sample.func_dir)
  = inr [(Sample.par_file, Sample.json_file);
         (Sample.par_file, Sample.events_json)] /\
  sublist [Sample.json_file; Sample.events_json]
          (List.filter is_json_file
             [Sample.survey_par; Sample.par_file; Sample.backup_file;
              Sample.json_file; Sample.events_json]).
Proof.
  assert (H : find_pairs ["rest"; "bold"; "task"; "func"] (Some Sample.func_dir)
              = inr [(Sample.par_file, Sample.json_file);
                     (Sample.par_file, Sample.events_json)])
    by (vm_compute; reflexivity).
  split; [exact H|].
  exact (proj1 (proj2 (proj2 (proj2
           (pairs_share_one_par ["rest"; "bold"; "task"; "func"] _ _ _ H eq_refl))))).
Defined.

(** ** Processing in [nesda_W6_bids_par_update.py] *)


Section W6RunFacts.
Context {RT : PyRuntime}.
Variable json_text : dict -> string.
Variable clock : nat -> readings.

Lemma process_sessions_counts (session_dirs : list Path.t) :
  forall fs n p s f fs' n' p' s' f',
  W6.process_sessions json_text clock session_dirs (fs, n) (p, s, f)
  = ((fs', n'), inr (p', s', f')) ->
  p <= p' /\ s <= s' /\ f <= f' /\ p' - p = (s' - s) + (f' - f) /\
  n' = (n + Z.to_nat (p' - p))%nat.
Proof.
  induction session_dirs as [|d l IH]; intros fs n p s f fs' n' p' s' f' H;
    cbn [W6.process_sessions] in H.
  - injection H as <- <- <- <- <-. lia.
  - cbv zeta in H.
    destruct (negb (Path.path_exists _)); [exact (IH _ _ _ _ _ _ _ _ _ _ H)|].
    destruct (W6.find_par_json_pairs_w6 _) as [e|pairs]; [discriminate H|].
    destruct (negb (nonempty pairs)); [exact (IH _ _ _ _ _ _ _ _ _ _ H)|].
    match type of H with
    | context [process_pairs ?a ?b ?c ?d ?e ?g] =>
        destruct (process_pairs a b c d e g) as [[[fs1 n1] s1] f1] eqn:E
    end.
    apply process_pairs_counts in E. apply IH in H. unfold len in *. lia.
Qed.


Lemma process_subject_w6_counts subject_dir fs n fs' n' p s f :
  W6.process_subject_w6 json_text clock subject_dir (fs, n)
  = ((fs', n'), inr (p, s, f)) ->
  p = s + f /\ 0 <= s /\ 0 <= f /\ n' = (n + Z.to_nat p)%nat.
Proof.
  unfold W6.process_subject_w6.
  destruct (Path.iterdir subject_dir) as [e|items]; [discriminate|].
  cbv zeta. destruct (negb (nonempty _)).
  - intros [= <- <- <- <- <-]. cbn. lia.
  - intros H. apply process_sessions_counts in H.
    replace (p - 0) with p in H by lia. lia.
Qed.


End W6RunFacts.

(** X13 (the counts of a subject).  When [process_participant],
    [process_target_subject] or [process_subject_w6] returns, the pairs it
    reports are the successes plus the failures, none of them negative, and
    it handled exactly that many pairs. *)
Theorem every_pair_is_counted {RT : PyRuntime} (json_text : dict -> string)
  (clock : nat -> readings) (subject_dir : Path.t) (st st' : run_state)
  (total_pairs total_successes total_failures : Z) :
  Batch.process_participant json_text clock subject_dir st
  = (st', inr (total_pairs, total_successes, total_failures)) \/
  Targeted.process_target_subject json_text clock subject_dir st
  = (st', inr (total_pairs, total_successes, total_failures)) \/
  W6.process_subject_w6 json_text clock subject_dir st
  = (st', inr (total_pairs, total_successes, total_failures)) ->
  total_pairs = total_successes + total_failures /\
  0 <= total_successes /\ 0 <= total_failures /\
  snd st' = (snd st + Z.to_nat total_pairs)%nat.
Proof.
  destruct st as [fs n], st' as [fs' n']. cbn [snd].
  intros [H|[H|H]];
    [exact (process_participant_counts _ _ _ _ _ _ _ _ _ _ H)
    |exact (process_target_subject_counts _ _ _ _ _ _ _ _ _ _ H)
    |exact (process_subject_w6_counts _ _ _ _ _ _ _ _ _ _ H)].
Qed.

Lemma every_pair_is_counted_witness :
  snd (Batch.process_participant (RT := py_rt) Sample.json_text Sample.clock
         Sample.participant_dir (Sample.fs1, 0%nat)) = inr (2, 1, 1) /\
  2 = 1 + 1.
Proof.
  assert (H : snd (Batch.process_participant (RT := py_rt) Sample.json_text
                     Sample.clock Sample.participant_dir (Sample.fs1, 0%nat))
              = inr (2, 1, 1)) by (vm_compute; reflexivity).
  split; [exact H|].
  refine (proj1 (every_pair_is_counted (RT := py_rt) Sample.json_text
                   Sample.clock Sample.participant_dir (Sample.fs1, 0%nat)
                   (fst (Batch.process_participant (RT := py_rt)
                           Sample.json_text Sample.clock
                           Sample.participant_dir (Sample.fs1, 0%nat)))
                   2 1 1 (or_introl _))).
  rewrite <- H. apply surjective_pairing.
Defined.





(** X15 (statistics of [main]).  After the loop of [main] over the subject
    directories, in the batch, the targeted and the W6 script, every subject
    is counted once as processed or skipped, the pairs are the successes
    plus the failures, and no processed subject is without a pair. *)
Theorem main_statistics_add_up {RT : PyRuntime} (json_text : dict -> string)
  (clock : nat -> readings) (subjects : list Path.t) (st : run_state) :
  stats_add_up (len subjects)
    (snd (Batch.main_loop json_text clock subjects st)) /\
  stats_add_up (len subjects)
    (snd (Targeted.main_loop json_text clock subjects st)) /\
  stats_add_up (len subjects)
    (snd (W6.main_loop json_text clock subjects st)).
Proof.
  unfold stats_add_up, Batch.main_loop, Targeted.main_loop, W6.main_loop.
  assert (H0 : tally_ok stats_init) by (unfold tally_ok; cbn; lia).
  split; [|split].
  - destruct (tally_counts (Batch.process_participant json_text clock)) with
      (subjects := subjects) (st := st) (s := stats_init) as [Hok Hn];
      [|exact H0|].
    + intros dir [fs n] [fs' n'] p s f H.
      apply process_participant_counts in H. tauto.
    + cbn in Hn. unfold tally_ok in Hok. tauto.
  - destruct (tally_counts (Targeted.process_target_subject json_text clock)) with
      (subjects := subjects) (st := st) (s := stats_init) as [Hok Hn];
      [|exact H0|].
    + intros dir [fs n] [fs' n'] p s f H.
      apply process_target_subject_counts in H. tauto.
    + cbn in Hn. unfold tally_ok in Hok. tauto.
  - destruct (tally_counts (W6.process_subject_w6 json_text clock)) with
      (subjects := subjects) (st := st) (s := stats_init) as [Hok Hn];
      [|exact H0|].
    + intros dir [fs n] [fs' n'] p s f H.
      apply process_subject_w6_counts in H. tauto.
    + cbn in Hn. unfold tally_ok in Hok. tauto.
Qed.

(** ** The update of [bids_par_json_updater.py] *)

(** The merge loop adds one key per added field, whether it skips the
    private fields or not. *)
Lemma merge_fold_length (skip_private : bool) (params : dict) :
  forall doc a u,
  let '(doc', a', u') := fold_left (merge_field skip_private) params (doc, a, u) in
  (length doc' + length a = length doc + length a')%nat.
Proof.
  induction params as [|[k v] tl IH]; intros doc a u; cbn [fold_left];
    [reflexivity|].
  unfold merge_field at 2.
  destruct (skip_private && Str.startswith "_" k); [apply IH|].
  destruct (Dict.get k doc) as [old|] eqn:E.
  - destruct (py_ne old v); [|apply IH].
    specialize (IH (Dict.set k v doc) a (u ++ [k])%list).
    destruct (fold_left _ tl _) as [[doc' a'] u'].
    assert (Hl : length (Dict.set k v doc) = length doc).
    { rewrite <- (length_map fst (Dict.set k v doc)), <- (length_map fst doc).
      change (length (Dict.keys (Dict.set k v doc)) = length (Dict.keys doc)).
      rewrite keys_set. unfold Dict.mem. rewrite E. reflexivity. }
    lia.
  - specialize (IH (Dict.set k v doc) (a ++ [k])%list u).
    destruct (fold_left _ tl _) as [[doc' a'] u'].
    assert (Hl : length (Dict.set k v doc) = S (length doc)).
    { rewrite <- (length_map fst (Dict.set k v doc)), <- (length_map fst doc).
      change (length (Dict.keys (Dict.set k v doc)) = S (length (Dict.keys doc))).
      rewrite keys_set. unfold Dict.mem. rewrite E, length_app. cbn. lia. }
    rewrite length_app in IH. cbn [length] in IH. lia.
Qed.

Lemma set_length (k : string) (v : value) (d : dict) :
  length (Dict.set k v d)
  = if Dict.mem k d then length d else S (length d).
Proof.
  rewrite <- (length_map fst (Dict.set k v d)), <- (length_map fst d).
  change (length (Dict.keys (Dict.set k v d))
          = if Dict.mem k d then length (Dict.keys d) else S (length (Dict.keys d))).
  rewrite keys_set. destruct (Dict.mem k d); [reflexivity|].
  rewrite length_app. cbn. lia.
Qed.

Lemma mem_set (k k' : string) (v : value) (d : dict) :
  Dict.mem k (Dict.set k' v d) = String.eqb k k' || Dict.mem k d.
Proof.
  unfold Dict.mem. rewrite get_set. destruct (String.eqb k k'); reflexivity.
Qed.

(** Without the test on the underscore every key of the field set is a key
    of the merged document. *)
Lemma merge_fold_mem (params : dict) : forall doc a u k,
  Dict.mem k (fst (fst (fold_left (merge_field false) params (doc, a, u))))
  = Dict.mem k doc || Dict.mem k params.
Proof.
  induction params as [|[k0 v0] tl IH]; intros doc a u k; cbn [fold_left fst].
  - rewrite orb_false_r. reflexivity.
  - assert (Hp : Dict.mem k ((k0, v0) :: tl) = String.eqb k k0 || Dict.mem k tl).
    { unfold Dict.mem. cbn [Dict.get]. destruct (String.eqb k k0); reflexivity. }
    rewrite Hp. unfold merge_field at 2. cbn [andb].
    destruct (Dict.get k0 doc) as [old|] eqn:E.
    + assert (Hk : String.eqb k k0 = true -> Dict.mem k doc = true).
      { intros Hk. apply String.eqb_eq in Hk. subst k0. unfold Dict.mem.
        rewrite E. reflexivity. }
      destruct (py_ne old v0); rewrite IH, ?mem_set;
        destruct (String.eqb k k0); cbn [orb]; rewrite ?Hk by reflexivity;
        try reflexivity; destruct (Dict.mem k doc); reflexivity.
    + rewrite IH, mem_set.
      destruct (String.eqb k k0), (Dict.mem k doc); reflexivity.
Qed.

Lemma merge_fields_all (params doc : dict) :
  let '(doc', added, updated) := merge_fields false params doc in
  length doc' = (length doc + length added)%nat /\
  forall k, Dict.mem k doc' = Dict.mem k doc || Dict.mem k params.
Proof.
  unfold merge_fields.
  pose proof (merge_fold_length false params doc [] []) as Hlen.
  pose proof (merge_fold_mem params doc [] []) as Hmem.
  destruct (fold_left (merge_field false) params (doc, [], []))
    as [[doc1 added] updated].
  cbn [length fst] in Hlen, Hmem. split; [lia|exact Hmem].
Qed.

(** X16 (field counts of [bids_par_json_updater.py]).  On a sidecar that
    holds a JSON object and can be written, [update_bids_json] of
    [bids_par_json_updater.py] succeeds and records the number of keys the
    sidecar had as [OriginalFieldCount] and that number plus the number of
    added fields as [FinalFieldCount]; the document it writes has one key
    more than [FinalFieldCount] says, the provenance key, unless the sidecar
    or the field set had that key already. *)
Theorem final_field_count_misses_provenance
  (json_file_path : string) (bids_params : dict) (create_backup : bool)
  (now_backup now_info : datetime) (fs : filesystem) (doc : dict) :
  files fs !! json_file_path = Some (FileJson doc) ->
  (json_file_path ∉ locked fs) ->
  exists doc' info added,
    snd (BidsPar.update_bids_json json_file_path bids_params create_backup
           now_backup now_info fs) = true /\
    files (fst (BidsPar.update_bids_json json_file_path bids_params
                  create_backup now_backup now_info fs)) !! json_file_path
    = Some (FileJson doc') /\
    Dict.get "_BIDSProcessingInfo" doc' = Some (VDict info) /\
    Dict.get "FieldsAdded" info = Some (names added) /\
    Dict.get "OriginalFieldCount" info = Some (VInt (len doc)) /\
    Dict.get "FinalFieldCount" info = Some (VInt (len doc + len added)) /\
    len doc' = len doc + len added +
               (if Dict.mem "_BIDSProcessingInfo" doc ||
                   Dict.mem "_BIDSProcessingInfo" bids_params
                then 0 else 1).
Proof.
  intros Hf Hw. unfold BidsPar.update_bids_json.
  set (fs1 := if create_backup then _ else _).
  assert (Hf1 : files fs1 !! json_file_path = Some (FileJson doc))
    by (unfold fs1; rewrite backup_if_sidecar; exact Hf).
  assert (Hw1 : json_file_path ∉ locked fs1)
    by (unfold fs1; rewrite backup_if_locked; exact Hw).
  unfold json_load, json_dump, write_file. rewrite Hf1.
  destruct (decide (json_file_path ∈ locked fs1)) as [Hin|_]; [contradiction|].
  unfold ret. cbv beta iota.
  pose proof (merge_fields_all bids_params doc) as Hall.
  destruct (merge_fields false bids_params doc) as [[doc1 added] updated].
  destruct Hall as [Hlen Hmem]. specialize (Hmem "_BIDSProcessingInfo").
  eexists. eexists. exists added. cbn [fst snd ret files].
  split; [reflexivity|]. split; [apply lookup_insert_eq|].
  split; [apply get_set_eq|]. split; [reflexivity|]. split; [reflexivity|].
  split; [cbn; do 3 f_equal; unfold len; lia|].
  unfold len. rewrite set_length, Hmem.
  destruct (Dict.mem "_BIDSProcessingInfo" doc || _); lia.
Qed.

Lemma final_field_count_misses_provenance_witness :
  exists doc' info added,
    snd (BidsPar.update_bids_json Sample.json_path Sample.bids_params true
           Sample.t1 Sample.t2 Sample.fs0) = true /\
    files (fst (BidsPar.update_bids_json Sample.json_path Sample.bids_params
                  true Sample.t1 Sample.t2 Sample.fs0)) !! Sample.json_path
    = Some (FileJson doc') /\
    Dict.get "_BIDSProcessingInfo" doc' = Some (VDict info) /\
    Dict.get "FieldsAdded" info = Some (names added) /\
    Dict.get "OriginalFieldCount" info = Some (VInt (len Sample.sidecar)) /\
    Dict.get "FinalFieldCount" info = Some (VInt (len Sample.sidecar + len added)) /\
    len doc' = len Sample.sidecar + len added + 1.
Proof.
  apply (final_field_count_misses_provenance Sample.json_path Sample.bids_params
           true Sample.t1 Sample.t2 Sample.fs0 Sample.sidecar).
  - reflexivity.
  - apply not_elem_of_empty.
Defined.

(** ** Slice timing of [bids_par_json_updater.py] *)







(** ** The fields of [extract_bids_from_par] *)

Section BidsParBlocks.
Context {RT : PyRuntime}.
Variable I : dict -> Prop.

Lemma seconds_loop_stable content key patterns f :
  stable I key is_float -> I f ->
  I (for_break_pure (BidsPar.seconds_body content key) patterns f).
Proof.
  intros Hk Hf. apply (for_break_pure_inv I); [|exact Hf].
  intros p g Hg. unfold BidsPar.seconds_body.
  destruct (re_search p content [IGNORECASE]); [|exact Hg].
  destruct (truthy_float _); [|exact Hg].
  destruct (BidsPar.safe_float _); [|exact Hg].
  cbn [fst]. apply Hk; [reflexivity|exact Hg].
Qed.

Lemma float_field_stable pattern key content f :
  stable I key is_nonzero_float -> I f ->
  I (BidsPar.float_field pattern key content f).
Proof.
  intros Hk Hf. unfold BidsPar.float_field.
  destruct (re_search pattern content [IGNORECASE]); [|exact Hf].
  destruct (BidsPar.safe_float _) as [x|]; cbn [truthy_float]; [|exact Hf].
  destruct (Fl.truthy x) eqn:E; [|exact Hf].
  apply Hk; [exact E|exact Hf].
Qed.

Lemma spacing_between_slices_stable content f g :
  BidsPar.spacing_between_slices content f = inr g ->
  stable I "SpacingBetweenSlices" is_float -> I f -> I g.
Proof.
  intros H Hk Hf. unfold BidsPar.spacing_between_slices in H.
  destruct (re_search _ content [IGNORECASE]); [|injection H as <-; exact Hf].
  destruct (Dict.mem "SliceThickness" f); [|injection H as <-; exact Hf].
  destruct (BidsPar.safe_float _); [|injection H as <-; exact Hf].
  destruct (Dict.get "SliceThickness" f) as [[]|]; try discriminate H.
  injection H as <-. apply Hk; [reflexivity|exact Hf].
Qed.

Lemma bidspar_number_of_slices_stable content f g :
  BidsPar.number_of_slices content f = inr g ->
  stable I "NumberOfSlices" is_nonzero_int -> I f -> I g.
Proof.
  intros H Hk Hf. unfold BidsPar.number_of_slices in H.
  destruct (re_search _ content [IGNORECASE]); [|injection H as <-; exact Hf].
  apply bind_inr in H as ([n|] & _ & H); cbn [truthy_int] in H;
    [|injection H as <-; exact Hf].
  destruct (negb (n =? 0)) eqn:E; injection H as <-; [|exact Hf].
  apply Hk; [exact E|exact Hf].
Qed.

Lemma bidspar_phase_direction_stable content f :
  stable I "PhaseEncodingDirection" (is_one_of ["j-"; "j"; "i-"; "i"]) ->
  I f -> I (BidsPar.phase_encoding_direction content f).
Proof.
  intros Hk Hf. unfold BidsPar.phase_encoding_direction. cbv zeta.
  apply Hk; [|exact Hf].
  destruct (re_search _ content [IGNORECASE]) as [m|]; [|reflexivity].
  unfold BidsPar.direction_code.
  repeat match goal with |- context [if ?b then _ else _] => destruct b end;
    reflexivity.
Qed.

Lemma bidspar_echo_spacing_stable content f g :
  BidsPar.effective_echo_spacing content f = inr g ->
  stable I "EffectiveEchoSpacing" (is_float_value 0.00051) -> I f -> I g.
Proof.
  intros H Hk Hf. unfold BidsPar.effective_echo_spacing in H. cbv zeta in H.
  destruct (re_search "EPI factor\s*(?:<[^>]*>)?\s*:\s*(\d+)" content [IGNORECASE]);
    [|injection H as <-; exact Hf].
  destruct (re_search "Recon resolution \(x, y\)\s*:\s*(\d+)\s+(\d+)" content
              [IGNORECASE]);
    [|injection H as <-; exact Hf].
  apply bind_inr in H as (e & _ & H). apply bind_inr in H as (y & _ & H).
  destruct (_ && _); injection H as <-; [|exact Hf].
  apply Hk; [reflexivity|exact Hf].
Qed.

Lemma bidspar_slice_timing_block_stable content f g :
  BidsPar.slice_timing_block content f = inr g ->
  stable I "SliceTiming" is_float_list -> I f -> I g.
Proof.
  intros H Hk Hf. unfold BidsPar.slice_timing_block in H.
  destruct (_ && _); [|injection H as <-; exact Hf].
  destruct (Dict.get "NumberOfSlices" f) as [[]|]; try discriminate H.
  destruct (Dict.get "RepetitionTime" f) as [[]|]; try discriminate H.
  apply bind_inr in H as (st & _ & H). injection H as <-.
  apply Hk; [apply floats_are_floats|exact Hf].
Qed.

Lemma bidspar_task_name_stable content f :
  stable I "TaskName" is_string -> I f -> I (BidsPar.task_name content f).
Proof.
  intros Hk Hf. unfold BidsPar.task_name. cbv zeta.
  apply Hk; [reflexivity|exact Hf].
Qed.

Lemma magnetic_field_strength_stable content f :
  stable I "MagneticFieldStrength" is_nonzero_float -> I f ->
  I (BidsPar.magnetic_field_strength content f).
Proof.
  intros Hk Hf. unfold BidsPar.magnetic_field_strength.
  destruct (re_search _ content []); [|apply Hk; [reflexivity|exact Hf]].
  destruct (BidsPar.safe_float _) as [x|]; cbn [truthy_float]; [|exact Hf].
  destruct (Fl.truthy x) eqn:E; [|exact Hf].
  apply Hk; [exact E|exact Hf].
Qed.

(** The blocks after the slice timing. *)
Lemma bidspar_after_slice_timing content f :
  stable I "TaskName" is_string ->
  stable I "Manufacturer" (is_one_of ["Philips"]) ->
  stable I "MagneticFieldStrength" is_nonzero_float ->
  stable I "FlipAngle" is_nonzero_float ->
  stable I "WaterFatShift" is_nonzero_float ->
  I f ->
  I (BidsPar.float_field "Water Fat shift \[pixels\]\s*:\s*([\d.]+)"
       "WaterFatShift" content
       (BidsPar.float_field "Flip angle \[degrees\]\s*:\s*([\d.]+)" "FlipAngle"
          content
          (BidsPar.magnetic_field_strength content
             (Dict.set "Manufacturer" (VStr "Philips")
                (BidsPar.task_name content f))))).
Proof.
  intros H1 H2 H3 H4 H5 Hf.
  apply float_field_stable; [exact H5|].
  apply float_field_stable; [exact H4|].
  apply magnetic_field_strength_stable; [exact H3|].
  apply H2; [reflexivity|].
  apply bidspar_task_name_stable; [exact H1|exact Hf].
Qed.

End BidsParBlocks.

(** The blocks before the slice timing. *)
Lemma bidspar_before_slice_timing {RT : PyRuntime} content f :
  BidsPar.extract_from_text content = inr f ->
  exists f5 f6,
    BidsPar.slice_timing_block content f5 = inr f6 /\
    f = BidsPar.float_field "Water Fat shift \[pixels\]\s*:\s*([\d.]+)"
          "WaterFatShift" content
          (BidsPar.float_field "Flip angle \[degrees\]\s*:\s*([\d.]+)"
             "FlipAngle" content
             (BidsPar.magnetic_field_strength content
                (Dict.set "Manufacturer" (VStr "Philips")
                   (BidsPar.task_name content f6)))) /\
    (forall I : dict -> Prop,
       (forall k p, In (k, p) bidspar_early_schema -> stable I k p) ->
       I [] -> I f5) /\
    present ["PhaseEncodingDirection"; "SliceEncodingDirection"] f5.
Proof.
  intros E. unfold BidsPar.extract_from_text in E. cbv zeta in E.
  apply bind_inr in E as (f1 & E1 & E).
  apply bind_inr in E as (f2 & E2 & E).
  apply bind_inr in E as (f3 & E3 & E).
  apply bind_inr in E as (f4 & E4 & E).
  injection E as <-. exists f3, f4. split; [exact E4|]. split; [reflexivity|].
  split.
  - intros I HJ H0.
    apply (bidspar_echo_spacing_stable I _ _ _ E3); [apply HJ; cbn; auto 20|].
    apply (HJ "SliceEncodingDirection" (is_one_of ["k"]));
      [cbn; auto 20|reflexivity|].
    apply bidspar_phase_direction_stable; [apply HJ; cbn; auto 20|].
    apply (bidspar_number_of_slices_stable I _ _ _ E2); [apply HJ; cbn; auto 20|].
    apply (spacing_between_slices_stable I _ _ _ E1); [apply HJ; cbn; auto 20|].
    apply float_field_stable; [apply HJ; cbn; auto 20|].
    apply seconds_loop_stable; [apply HJ; cbn; auto 20|].
    apply seconds_loop_stable; [apply HJ; cbn; auto 20|].
    exact H0.
  - apply (bidspar_echo_spacing_stable _ _ _ _ E3); [apply stable_present|].
    intros k [<-|[<-|[]]].
    + rewrite get_set_ne by discriminate.
      unfold BidsPar.phase_encoding_direction. cbv zeta. rewrite get_set_eq.
      discriminate.
    + rewrite get_set_eq. discriminate.
Qed.

Lemma append_slice_time_length {RT : PyRuntime} interleaved tr n xs :
  forall acc st,
  for_each (BidsPar.append_slice_time interleaved tr n) xs acc = inr st ->
  length st = (length acc + length xs)%nat.
Proof.
  induction xs as [|x xs IH]; intros acc st H; cbn [for_each] in H.
  - injection H as <-. cbn. lia.
  - apply bind_inr in H as (acc' & Ha & H). apply IH in H.
    unfold BidsPar.append_slice_time in Ha.
    apply bind_inr in Ha as (tps & _ & Ha). apply bind_inr in Ha as (t & _ & Ha).
    injection Ha as <-. rewrite length_app in H. cbn [length] in *. lia.
Qed.

(** X18 (field set of [extract_bids_from_par]).  In a non-empty field set
    of [extract_bids_from_par] every entry has the shape [bidspar_schema]
    gives its key (the echo spacing, when there, is the constant 0.00051,
    the slice direction is k), the phase and slice directions, the task name
    and the manufacturer are always there, the slice timing is there exactly
    when the slice count and the repetition time are, and it has as many
    entries as the slice count says. *)
Theorem bidspar_fields {RT : PyRuntime} (file : option string) (fields : dict) :
  BidsPar.extract_bids_from_par file = fields ->
  fields <> [] ->
  (forall k v, Dict.get k fields = Some v ->
               conforms_to bidspar_schema k v = true) /\
  (forall k, In k bidspar_required -> Dict.mem k fields = true) /\
  Dict.mem "SliceTiming" fields
  = Dict.mem "NumberOfSlices" fields && Dict.mem "RepetitionTime" fields /\
  (forall n l, Dict.get "NumberOfSlices" fields = Some (VInt n) ->
               Dict.get "SliceTiming" fields = Some (VList l) ->
               length l = Z.to_nat n).
Proof.
  intros <- Hne. unfold BidsPar.extract_bids_from_par in *.
  destruct file as [content|]; [|contradiction].
  destruct (BidsPar.extract_from_text content) as [e|fields] eqn:E;
    [contradiction|]. clear Hne.
  destruct (bidspar_before_slice_timing _ _ E) as (f5 & f6 & Eb & -> & Hearly & Hp).
  (* what the later blocks keep *)
  assert (Hlater : forall k, ~ In k ["TaskName"; "Manufacturer";
                                      "MagneticFieldStrength"; "FlipAngle";
                                      "WaterFatShift"] ->
            Dict.get k
              (BidsPar.float_field "Water Fat shift \[pixels\]\s*:\s*([\d.]+)"
                 "WaterFatShift" content
                 (BidsPar.float_field "Flip angle \[degrees\]\s*:\s*([\d.]+)"
                    "FlipAngle" content
                    (BidsPar.magnetic_field_strength content
                       (Dict.set "Manufacturer" (VStr "Philips")
                          (BidsPar.task_name content f6)))))
            = Dict.get k f6).
  { intros k Hk.
    apply (bidspar_after_slice_timing (fun g => Dict.get k g = Dict.get k f6));
      try (apply stable_other; intros ->; apply Hk; cbn; tauto).
    reflexivity. }
  (* the slice timing block *)
  assert (Hblock :
    Dict.get "NumberOfSlices" f6 = Dict.get "NumberOfSlices" f5 /\
    Dict.get "RepetitionTime" f6 = Dict.get "RepetitionTime" f5 /\
    Dict.mem "SliceTiming" f6
    = Dict.mem "NumberOfSlices" f5 && Dict.mem "RepetitionTime" f5 /\
    (forall n l, Dict.get "NumberOfSlices" f5 = Some (VInt n) ->
                 Dict.get "SliceTiming" f6 = Some (VList l) ->
                 length l = Z.to_nat n)).
  { assert (Hnone : Dict.get "SliceTiming" f5 = None).
    { apply (Hearly (fun g => Dict.get "SliceTiming" g = None)); [|reflexivity].
      intros k p Hin. apply stable_none. intros <-.
      cbn [In bidspar_early_schema] in Hin.
      repeat (destruct Hin as [Hin|Hin]; [discriminate Hin|]). destruct Hin. }
    unfold BidsPar.slice_timing_block in Eb.
    destruct (Dict.mem "NumberOfSlices" f5 && Dict.mem "RepetitionTime" f5) eqn:Em.
    - destruct (Dict.get "NumberOfSlices" f5) as [[| |n| | | |]|] eqn:En;
        try discriminate Eb.
      destruct (Dict.get "RepetitionTime" f5) as [[| | |tr| | |]|] eqn:Et;
        try discriminate Eb.
      apply bind_inr in Eb as (st & Est & Eb). injection Eb as <-.
      rewrite !get_set_ne by discriminate.
      split; [exact En|]. split; [exact Et|].
      split; [unfold Dict.mem; rewrite get_set_eq; reflexivity|].
      intros n0 l [= <-]. rewrite get_set_eq. intros [= <-].
      rewrite length_map. unfold BidsPar.slice_timing in Est.
      apply append_slice_time_length in Est. rewrite Est. cbn [length].
      unfold py_range. rewrite length_map, length_seq.
      f_equal. rewrite Z.div_1_r. lia.
    - injection Eb as <-. split; [reflexivity|]. split; [reflexivity|].
      split; [unfold Dict.mem; rewrite Hnone; reflexivity|].
      intros n l _ H. rewrite Hnone in H. discriminate H. }
  destruct Hblock as (Hn & Ht & Hmem & Hlen).
  split; [|split; [|split]].
  - change (conforms bidspar_schema
              (BidsPar.float_field "Water Fat shift \[pixels\]\s*:\s*([\d.]+)"
                 "WaterFatShift" content
                 (BidsPar.float_field "Flip angle \[degrees\]\s*:\s*([\d.]+)"
                    "FlipAngle" content
                    (BidsPar.magnetic_field_strength content
                       (Dict.set "Manufacturer" (VStr "Philips")
                          (BidsPar.task_name content f6)))))).
    apply bidspar_after_slice_timing; try (apply stable_conforms; reflexivity).
    apply (bidspar_slice_timing_block_stable _ _ _ _ Eb);
      [apply stable_conforms; reflexivity|].
    apply Hearly; [|intros k v H; discriminate H].
    intros k p Hin. apply stable_conforms.
    cbn [In bidspar_early_schema] in Hin.
    repeat (destruct Hin as [Hin|Hin]; [injection Hin as <- <-; reflexivity|]).
    destruct Hin.
  - intros k Hk. unfold Dict.mem.
    assert (Hin : present bidspar_required
              (BidsPar.float_field "Water Fat shift \[pixels\]\s*:\s*([\d.]+)"
                 "WaterFatShift" content
                 (BidsPar.float_field "Flip angle \[degrees\]\s*:\s*([\d.]+)"
                    "FlipAngle" content
                    (BidsPar.magnetic_field_strength content
                       (Dict.set "Manufacturer" (VStr "Philips")
                          (BidsPar.task_name content f6)))))).
    { intros k' Hk'. cbn [In bidspar_required] in Hk'.
      destruct Hk' as [<-|[<-|Hk']].
      - rewrite Hlater by (cbn; intuition discriminate).
        apply (bidspar_slice_timing_block_stable _ _ _ _ Eb
                 (stable_present _ _ _) Hp). cbn; tauto.
      - rewrite Hlater by (cbn; intuition discriminate).
        apply (bidspar_slice_timing_block_stable _ _ _ _ Eb
                 (stable_present _ _ _) Hp). cbn; tauto.
      - revert k' Hk'.
        change (present ["TaskName"; "Manufacturer"]
                  (BidsPar.float_field "Water Fat shift \[pixels\]\s*:\s*([\d.]+)"
                     "WaterFatShift" content
                     (BidsPar.float_field "Flip angle \[degrees\]\s*:\s*([\d.]+)"
                        "FlipAngle" content
                        (BidsPar.magnetic_field_strength content
                           (Dict.set "Manufacturer" (VStr "Philips")
                              (BidsPar.task_name content f6)))))).
        apply float_field_stable; [apply stable_present|].
        apply float_field_stable; [apply stable_present|].
        apply magnetic_field_strength_stable; [apply stable_present|].
        intros k' [<-|[<-|[]]].
        + rewrite get_set_ne by discriminate. unfold BidsPar.task_name.
          cbv zeta. rewrite get_set_eq. discriminate.
        + rewrite get_set_eq. discriminate. }
    specialize (Hin k Hk). destruct (Dict.get k _); [reflexivity|contradiction].
  - unfold Dict.mem in *.
    rewrite !Hlater by (cbn; intuition discriminate). rewrite Hn, Ht. exact Hmem.
  - intros n l. rewrite !Hlater by (cbn; intuition discriminate).
    rewrite Hn. apply Hlen.
Qed.

Lemma bidspar_fields_witness :
  BidsPar.extract_bids_from_par (RT := py_rt) (Some Sample.header) <> [] /\
  Dict.mem "SliceTiming" (BidsPar.extract_bids_from_par (RT := py_rt)
                            (Some Sample.header))
  = Dict.mem "NumberOfSlices" (BidsPar.extract_bids_from_par (RT := py_rt)
                                 (Some Sample.header)) &&
    Dict.mem "RepetitionTime" (BidsPar.extract_bids_from_par (RT := py_rt)
                                 (Some Sample.header)).
Proof.
  assert (H : BidsPar.extract_bids_from_par (RT := py_rt) (Some Sample.header)
              <> []) by (vm_compute; discriminate).
  split; [exact H|].
  exact (proj1 (proj2 (proj2 (bidspar_fields (RT := py_rt) (Some Sample.header)
                                _ eq_refl H)))).
Defined.

(** ** Pairing in [bids_par_json_updater.py] *)




(** ** The W6 script *)

Section W6SiteFacts.
Context {RT : PyRuntime}.

Ltac name_stages :=
  match goal with
  | |- context [match re_search "Patient name\s*:\s*(.+?)(?:\n|$)" ?c ?f with
                | Some m => @?a m | None => ?b end] =>
      remember (match re_search "Patient name\s*:\s*(.+?)(?:\n|$)" c f with
                | Some m => a m | None => b end) as by_patient eqn:Hpatient
  end;
  match goal with
  | p : site_info
    |- context [if String.eqb (actual_site ?p) "unknown" && ?t
                then ?a else ?p] =>
      remember (if String.eqb (actual_site p) "unknown" && t
                then a else p) as by_path eqn:Hpath
  end.

(** X20 (site detection of the W6 script).  Whatever the header and the
    path, [detect_nesda_site_w6] reports export tool 4.1 as Groningen with
    high confidence; export tool 4.2 as site group AmsLei, with Amsterdam or
    Leiden at high or medium confidence, or Groningen at medium confidence
    and only when the upper-cased path holds GRONINGEN or GRO, or
    AmsLei_unspecified at low confidence; and any other or no version as
    unknown at low confidence.  The version is V followed by the tool
    version, or both are unknown. *)
Theorem w6_site_invariants (content file_path : string) :
  (tool_version (W6.detect_nesda_site_w6 content file_path) = "4.1" ->
   site_group (W6.detect_nesda_site_w6 content file_path) = "Groningen" /\
   actual_site (W6.detect_nesda_site_w6 content file_path) = "Groningen" /\
   confidence (W6.detect_nesda_site_w6 content file_path) = "high") /\
  (tool_version (W6.detect_nesda_site_w6 content file_path) = "4.2" ->
   site_group (W6.detect_nesda_site_w6 content file_path) = "AmsLei" /\
   ((In (actual_site (W6.detect_nesda_site_w6 content file_path))
        ["Amsterdam"; "Leiden"] /\
     In (confidence (W6.detect_nesda_site_w6 content file_path))
        ["high"; "medium"]) \/
    (actual_site (W6.detect_nesda_site_w6 content file_path) = "Groningen" /\
     confidence (W6.detect_nesda_site_w6 content file_path) = "medium" /\
     Str.contains_any ["GRONINGEN"; "GRO"] (Str.upper file_path) = true) \/
    (actual_site (W6.detect_nesda_site_w6 content file_path)
     = "AmsLei_unspecified" /\
     confidence (W6.detect_nesda_site_w6 content file_path) = "low"))) /\
  (tool_version (W6.detect_nesda_site_w6 content file_path) <> "4.1" ->
   tool_version (W6.detect_nesda_site_w6 content file_path) <> "4.2" ->
   site_group (W6.detect_nesda_site_w6 content file_path) = "unknown" /\
   actual_site (W6.detect_nesda_site_w6 content file_path) = "unknown" /\
   confidence (W6.detect_nesda_site_w6 content file_path) = "low") /\
  (version (W6.detect_nesda_site_w6 content file_path)
   = "V" +:+ tool_version (W6.detect_nesda_site_w6 content file_path) \/
   (version (W6.detect_nesda_site_w6 content file_path) = "unknown" /\
    tool_version (W6.detect_nesda_site_w6 content file_path) = "unknown")).
Proof.
  unfold W6.detect_nesda_site_w6. cbv zeta.
  match goal with |- context [additional_characteristics content ?x] =>
    destruct (additional_characteristics_site content x) as (E1 & E2 & E3 & E4);
    rewrite E1, E2, E3, E4, (additional_characteristics_version content x);
    clear E1 E2 E3 E4
  end.
  destruct (re_search "Research image export tool\s+V([\d.]+)" content [])
    as [m|].
  2:{ cbn. repeat split; try discriminate; auto. }
  destruct (String.eqb (group m 1) "4.1") eqn:E41.
  { apply String.eqb_eq in E41. site_fields. cbn [version]. rewrite E41.
    repeat split; try discriminate; auto; intros; congruence. }
  apply String.eqb_neq in E41.
  destruct (String.eqb (group m 1) "4.2") eqn:E42.
  2:{ apply String.eqb_neq in E42. site_fields. cbn [version].
      repeat split; try discriminate; try contradiction; auto. }
  apply String.eqb_eq in E42.
  name_stages.
  assert (H1 : tool_version by_patient = group m 1 /\
               version by_patient = "V" +:+ group m 1 /\
               site_group by_patient = "AmsLei" /\
               ((actual_site by_patient = "unknown" /\ confidence by_patient = "low") \/
                (In (actual_site by_patient) ["Amsterdam"; "Leiden"] /\
                 confidence by_patient = "high")))
    by (subst by_patient; site_cases; site_fields; cbn [version In];
        repeat split; auto 10).
  assert (H2 : tool_version by_path = group m 1 /\
               version by_path = "V" +:+ group m 1 /\
               site_group by_path = "AmsLei" /\
               ((actual_site by_path = "unknown" /\ confidence by_path = "low") \/
                (In (actual_site by_path) ["Amsterdam"; "Leiden"] /\
                 In (confidence by_path) ["high"; "medium"]) \/
                (actual_site by_path = "Groningen" /\
                 confidence by_path = "medium" /\
                 Str.contains_any ["GRONINGEN"; "GRO"] (Str.upper file_path) = true))).
  { subst by_path. destruct H1 as (T & V & G & S).
    site_cases; site_fields; cbn [version In] in *;
      (split; [exact T|]); (split; [exact V|]); (split; [exact G|]);
      try (right; left; split; auto; fail);
      try (right; right; repeat split; auto; fail);
      try (left; split; auto; fail).
    - destruct S as [[S1 S2]|[S1 S2]]; [left; auto|right; left; rewrite S2; auto].
    - destruct S as [[S1 S2]|[S1 S2]]; [left; auto|right; left; rewrite S2; auto]. }
  clear Hpatient Hpath H1. destruct H2 as (T & V & G & S).
  site_cases; site_fields; cbn [version set_confidence set_actual_site];
    rewrite ?T, ?V, ?G;
    repeat match goal with
           | H : String.eqb _ _ = true |- _ => apply String.eqb_eq in H
           | H : String.eqb _ _ = false |- _ => apply String.eqb_neq in H
           end;
    cbn [In] in *;
    (split; [intros; congruence|]);
    (split; [intros _; split; [reflexivity|]; intuition congruence|]);
    (split; [intros; congruence|left; reflexivity]).
Qed.

End W6SiteFacts.

(** ** The fields of [extract_philips_bids_w6] *)

Section W6Facts.
Context {RT : PyRuntime}.
Variable I : dict -> Prop.

(** The two strategies and the default. *)
Lemma w6_slice_encoding_direction_keeps content f g :
  W6.slice_encoding_direction content f = inr g ->
  stable I "SliceEncodingDirection" (is_one_of ["k"; "i"; "j"]) ->
  I f -> I g.
Proof.
  intros H Hk Hf. unfold W6.slice_encoding_direction in H.
  apply bind_inr in H as (st & Hst & H). cbv zeta in H. injection H as <-.
  set (J := fun st : option string * dict =>
              I (snd st) /\
              forall d, fst st = Some d -> Str.mem d ["k"; "i"; "j"] = true).
  assert (H1 : J st).
  { revert Hst. apply (for_break_inv J); [|split; [exact Hf|intros d Hd; discriminate Hd]].
    intros p s r [Hs Hd] Hr. unfold Batch.orientation_body in Hr.
    destruct (re_search p content [IGNORECASE]); [|injection Hr as <-; split; assumption].
    apply bind_inr in Hr as (code & _ & Hr). cbv zeta in Hr.
    destruct (orientation_code code) as [d|] eqn:Ec.
    - injection Hr as <-. cbn [fst snd]. split.
      + apply Hk; [|exact Hs]. exact (orientation_code_range _ _ Ec).
      + intros d' [= <-]. exact (orientation_code_range _ _ Ec).
    - destruct (fst s) as [d|] eqn:Ed; injection Hr as <-; cbn [fst snd]; split;
        try exact Hs.
      + apply Hk; [|exact Hs]. apply Hd. reflexivity.
      + intros d' [= <-]. apply Hd. reflexivity.
      + intros d' Hd'. discriminate Hd'. }
  assert (H2 : J (Batch.image_data_orientation content st)).
  { unfold Batch.image_data_orientation. destruct (fst st); [exact H1|].
    destruct (re_search _ content [DOTALL]); [|exact H1].
    apply (for_break_pure_inv J); [|exact H1].
    intros line s [Hs Hd]. unfold Batch.image_line_body.
    destruct (_ <? _)%nat; [|split; assumption].
    destruct (int_of_str _) as [v|]; [|split; assumption].
    destruct (orientation_code (Some v)) as [d|] eqn:Ec; [|split; assumption].
    cbn [fst snd]. split.
    - apply Hk; [|exact Hs]. exact (orientation_code_range _ _ Ec).
    - intros d' [= <-]. exact (orientation_code_range _ _ Ec). }
  destruct (fst _); [exact (proj1 H2)|].
  apply Hk; [reflexivity|exact (proj1 H2)].
Qed.

Lemma w6_phase_encoding_direction_keeps content f :
  stable I "PhaseEncodingDirection" (is_one_of ["j-"; "j"; "i-"; "i"]) ->
  I f -> I (W6.phase_encoding_direction content f).
Proof.
  intros Hk Hf. unfold W6.phase_encoding_direction.
  set (J := fun st : option string * dict =>
              I (snd st) /\
              forall c, fst st = Some c -> Str.mem c ["j-"; "j"; "i-"; "i"] = true).
  apply (for_break_pure_inv J); [|split; [exact Hf|intros c Hc; discriminate Hc]].
  intros p s [Hs Hc]. unfold Batch.phase_body.
  destruct (re_search p content [IGNORECASE]); [|split; assumption].
  cbv zeta.
  destruct (direction_code _) as [c|] eqn:Ec.
  - assert (Hm : Str.mem c ["j-"; "j"; "i-"; "i"] = true)
      by (apply mem_In; exact (direction_code_range _ _ Ec)).
    cbn [fst snd]. split; [apply Hk; assumption|].
    intros c' [= <-]. exact Hm.
  - destruct (fst s) as [c|] eqn:E; cbn [fst snd]; split; try exact Hs.
    + apply Hk; [|exact Hs]. apply Hc. reflexivity.
    + intros c' [= <-]. apply Hc. reflexivity.
    + intros c' Hc'. discriminate Hc'.
Qed.

Lemma w6_effective_echo_spacing_keeps wfs pe f :
  stable I "EffectiveEchoSpacing" is_float ->
  I f -> I (W6.effective_echo_spacing wfs pe f).
Proof.
  intros Hk Hf. unfold W6.effective_echo_spacing.
  destruct (_ && _); [|exact Hf].
  destruct wfs as [wfs|]; [|exact Hf]. destruct pe as [pe|]; [|exact Hf].
  destruct (echo_spacing _ wfs pe); [exact Hf|].
  apply Hk; [reflexivity|exact Hf].
Qed.

Lemma w6_task_name_keeps content f :
  stable I "TaskName" (is_one_of ["rest"; "nback"; "faces"]) ->
  I f -> I (W6.task_name content f).
Proof.
  intros Hk Hf. unfold W6.task_name.
  apply (for_break_pure_inv I); [|exact Hf].
  intros p g Hg. unfold W6.task_body.
  destruct (re_search p content [IGNORECASE]); [|exact Hg].
  cbn [fst]. apply Hk; [|exact Hg].
  unfold W6.task_of_protocol, is_one_of.
  repeat match goal with |- context [if ?b then _ else _] => destruct b end;
    reflexivity.
Qed.

(** The blocks that follow the slice direction. *)
Lemma w6_after_slice_direction content now site f4 fields :
  (let f5 := W6.phase_encoding_direction content f4 in
   let (water_fat_shift, f6) := W6.water_fat_shift_loop content f5 in
   r <- Batch.recon_matrix content f6 ;;
   let (recon_matrix_pe, f7) := r in
   let f8 := W6.effective_echo_spacing water_fat_shift recon_matrix_pe f7 in
   let f9 := W6.slice_thickness content f8 in
   let f10 := W6.flip_angle content f9 in
   let f11 := W6.task_name content f10 in
   let f12 := Dict.set "Manufacturer" (VStr "Philips") f11 in
   ret (Dict.set "_ProcessingInfo" (VDict (W6.processing_info site now)) f12))
  = inr fields ->
  stable I "PhaseEncodingDirection" (is_one_of ["j-"; "j"; "i-"; "i"]) ->
  stable I "WaterFatShift" is_positive_float ->
  stable I "ReconMatrixPE" is_nonzero_int ->
  stable I "ReconMatrixFE" is_nonzero_int ->
  stable I "EffectiveEchoSpacing" is_float ->
  stable I "SliceThickness" is_positive_float ->
  stable I "FlipAngle" is_positive_float ->
  stable I "TaskName" (is_one_of ["rest"; "nback"; "faces"]) ->
  stable I "Manufacturer" (is_one_of ["Philips"]) ->
  stable I "_ProcessingInfo" is_dict ->
  I f4 -> I fields.
Proof.
  intros E S2 S3 S4 S5 S6 S7 S8 S9 S10 S11 Hf. cbv zeta in E.
  destruct (W6.water_fat_shift_loop content _) as [wfs f6] eqn:E6.
  apply bind_inr in E as ([pe f7] & E7 & E).
  injection E as <-.
  apply S11; [reflexivity|]. apply S10; [reflexivity|].
  apply w6_task_name_keeps; [exact S9|].
  unfold W6.flip_angle, W6.slice_thickness.
  apply (positive_float_loop_positive I); [exact S8|].
  apply (positive_float_loop_positive I); [exact S7|].
  apply w6_effective_echo_spacing_keeps; [exact S6|].
  change f7 with (snd (pe, f7)).
  apply (recon_matrix_keeps I _ _ _ E7); [exact S4|exact S5|].
  change f6 with (snd (wfs, f6)). rewrite <- E6.
  unfold W6.water_fat_shift_loop.
  apply (positive_float_loop_positive I); [exact S3|].
  apply w6_phase_encoding_direction_keeps; [exact S2|exact Hf].
Qed.

End W6Facts.

(** The default makes the slice direction a field of every header. *)
Lemma w6_slice_encoding_direction_sets {RT : PyRuntime} content f g :
  W6.slice_encoding_direction content f = inr g ->
  Dict.get "SliceEncodingDirection" g <> None.
Proof.
  intros H. unfold W6.slice_encoding_direction in H.
  apply bind_inr in H as (st & Hst & H). cbv zeta in H. injection H as <-.
  set (J := fun st : option string * dict =>
              forall d, fst st = Some d ->
                        Dict.get "SliceEncodingDirection" (snd st) <> None).
  assert (H1 : J st).
  { revert Hst. apply (for_break_inv J); [|intros d Hd; discriminate Hd].
    intros p s r Hs Hr. unfold Batch.orientation_body in Hr.
    destruct (re_search p content [IGNORECASE]); [|injection Hr as <-; exact Hs].
    apply bind_inr in Hr as (code & _ & Hr). cbv zeta in Hr.
    destruct (orientation_code code) as [d|].
    - injection Hr as <-. unfold J. intros d' _. cbn [fst snd]. rewrite get_set_eq. discriminate.
    - destruct (fst s) as [d|] eqn:Ed; injection Hr as <-.
      + unfold J. intros d' _. cbn [fst snd]. rewrite get_set_eq. discriminate.
      + intros d' Hd'. discriminate Hd'. }
  assert (H2 : J (Batch.image_data_orientation content st)).
  { unfold Batch.image_data_orientation. destruct (fst st) eqn:E; [exact H1|].
    destruct (re_search _ content [DOTALL]); [|exact H1].
    apply (for_break_pure_inv J); [|exact H1].
    intros line s Hs. unfold Batch.image_line_body.
    destruct (_ <? _)%nat; [|exact Hs].
    destruct (int_of_str _) as [v|]; [|exact Hs].
    destruct (orientation_code (Some v)) as [d|]; [|exact Hs].
    unfold J. intros d' _. cbn [fst snd]. rewrite get_set_eq. discriminate. }
  destruct (fst (Batch.image_data_orientation content st)) as [d|] eqn:E.
  - exact (H2 d E).
  - rewrite get_set_eq. discriminate.
Qed.

(** An invariant of every assignment the extractor makes after the site
    record holds of the field set it returns; and the slice direction is
    there. *)
Lemma w6_extract_keeps {RT : PyRuntime} content par_file_path now fields :
  W6.extract_from_text content par_file_path now = inr fields ->
  (forall I : dict -> Prop,
     (forall k p, In (k, p) batch_schema -> k <> "_SiteInfo" -> stable I k p) ->
     I (Dict.set "_SiteInfo"
          (VDict (site_info_dict (Some "W6")
                    (W6.detect_nesda_site_w6 content par_file_path))) []) ->
     I fields) /\
  present ["SliceEncodingDirection"; "Manufacturer"; "_ProcessingInfo"] fields.
Proof.
  intros E. unfold W6.extract_from_text in E. cbv zeta in E.
  apply bind_inr in E as ([n_slices f2] & E2 & E).
  apply bind_inr in E as (f3 & E3 & E).
  apply bind_inr in E as (f4 & E4 & E).
  split.
  - intros I HI H0.
    assert (S : forall k p, In (k, p) batch_schema -> k <> "_SiteInfo" ->
                            stable I k p) by exact HI.
    apply (w6_after_slice_direction I _ _ _ _ _ E);
      try (apply S; [cbn; auto 30|discriminate]).
    apply (w6_slice_encoding_direction_keeps I _ _ _ E4);
      [apply S; [cbn; auto 30|discriminate]|].
    apply (slice_timing_block_keeps_batch I _ _ _ E3);
      try (apply S; [cbn; auto 30|discriminate]).
    change f2 with (snd (n_slices, f2)).
    apply (number_of_slices_keeps I _ _ _ E2);
      [apply S; [cbn; auto 30|discriminate]|].
    unfold Batch.echo_time, Batch.repetition_time.
    apply (positive_float_loop_post I); [apply S; [cbn; auto 30|discriminate]|].
    apply (positive_float_loop_post I); [apply S; [cbn; auto 30|discriminate]|].
    exact H0.
  - pose proof (w6_slice_encoding_direction_sets _ _ _ E4) as Hd.
    assert (Hp : present ["SliceEncodingDirection"] fields).
    { apply (w6_after_slice_direction (present ["SliceEncodingDirection"])
               _ _ _ _ _ E); try apply stable_present.
      intros k [<-|[]]. exact Hd. }
    cbv zeta in E.
    destruct (W6.water_fat_shift_loop content _) as [wfs f6].
    apply bind_inr in E as ([pe f7] & _ & E). injection E as E.
    intros k [<-|[<-|[<-|[]]]].
    + apply Hp. left. reflexivity.
    + rewrite <- E. rewrite get_set_ne by discriminate. rewrite get_set_eq.
      discriminate.
    + rewrite <- E. rewrite get_set_eq. discriminate.
Qed.

(** X21 (field set of [extract_philips_bids_w6]).  In a non-empty field set
    of [extract_philips_bids_w6] every entry has the shape [batch_schema]
    gives its key; the site block, the slice direction, the manufacturer and
    the processing block are always there, and the site block names the
    wave W6. *)
Theorem w6_fields {RT : PyRuntime} (file : option string)
  (par_file_path : string) (now : datetime) (fields : dict) :
  W6.extract_philips_bids_w6 file par_file_path now = fields ->
  fields <> [] ->
  (forall k v, Dict.get k fields = Some v ->
               conforms_to batch_schema k v = true) /\
  (forall k, In k w6_required -> Dict.mem k fields = true) /\
  exists info,
    Dict.get "_SiteInfo" fields = Some (VDict info) /\
    Dict.get "wave" info = Some (VStr "W6").
Proof.
  intros <- Hne. unfold W6.extract_philips_bids_w6 in *.
  destruct file as [content|]; [|contradiction].
  destruct (W6.extract_from_text content par_file_path now) as [e|fields] eqn:E;
    [contradiction|]. clear Hne.
  destruct (w6_extract_keeps _ _ _ _ E) as [Hkeep Hp].
  assert (Hsite : Dict.get "_SiteInfo" fields
                  = Some (VDict (site_info_dict (Some "W6")
                            (W6.detect_nesda_site_w6 content par_file_path)))).
  { apply (Hkeep (fun g => Dict.get "_SiteInfo" g = Some _));
      [|apply get_set_eq].
    intros k p _ Hk v g _ Hg. rewrite get_set_ne by congruence. exact Hg. }
  split; [|split].
  - apply (Hkeep (conforms batch_schema)).
    + intros k p Hin _. apply stable_conforms.
      cbn [In batch_schema] in Hin.
      repeat (destruct Hin as [Hin|Hin]; [injection Hin as <- <-; reflexivity|]).
      destruct Hin.
    + apply conforms_set; [intros k v H; discriminate H|reflexivity].
  - intros k Hk. unfold Dict.mem. cbn [In w6_required] in Hk.
    destruct Hk as [<-|Hk]; [rewrite Hsite; reflexivity|].
    specialize (Hp k Hk). destruct (Dict.get k fields); [reflexivity|contradiction].
  - eexists. split; [exact Hsite|]. reflexivity.
Qed.

Lemma w6_fields_witness :
  W6.extract_philips_bids_w6 (RT := py_rt) (Some Sample.header) Sample.par_path
    Sample.t1 <> [] /\
  Dict.mem "SliceEncodingDirection"
    (W6.extract_philips_bids_w6 (RT := py_rt) (Some Sample.header)
       Sample.par_path Sample.t1) = true.
Proof.
  assert (H : W6.extract_philips_bids_w6 (RT := py_rt) (Some Sample.header)
                Sample.par_path Sample.t1 <> []) by (vm_compute; discriminate).
  split; [exact H|].
  apply (proj1 (proj2 (w6_fields (RT := py_rt) (Some Sample.header)
                         Sample.par_path Sample.t1 _ eq_refl H))).
  cbn. auto.
Defined.
